(** * flbtool: the FLB3 firmware container codec

    A shallow embedding of [flbtool.py] (a Python 2 script: the buffers it
    reads are [str] byte strings) and the properties of its binary structure
    model: the header, classification and device-list codecs, the chunk
    composition, the length recomputation and the container loop, and of the
    names it gives the files of a chunk. *)

From Stdlib Require Import ZArith List Lia Bool String Ascii.
From Stdlib Require Import Strings.Byte.
From Stdlib Require DecimalString DecimalN.
Import ListNotations.
Open Scope Z_scope.

(** ** Outcomes of Python code *)

(** The exceptions the modelled code can raise. *)
Inductive exn : Type :=
| StructError        (* struct.error: wrong buffer size, number out of range *)
| UnicodeError.      (* .encode('ascii') on a non-ASCII character *)

(** A Python call returns, raises, or (for the two [while] loops, which the
    model runs on fuel) is cut short.  [Diverge] is never the result of the
    top-level functions: see [PCIDeviceList_parse_total] and
    [extract_firmware_total]. *)
Inductive outcome (A : Type) : Type :=
| Ok (a : A)
| Raise (e : exn)
| Diverge.
Arguments Ok {A} a.
Arguments Raise {A} e.
Arguments Diverge {A}.

Definition bind {A B : Type} (m : outcome A) (k : A -> outcome B) : outcome B :=
  match m with
  | Ok a => k a
  | Raise e => Raise e
  | Diverge => Diverge
  end.

Notation "x <- m ;; k" := (bind m (fun x => k))
  (at level 61, m at next level, right associativity).
Notation "' p <- m ;; k" := (bind m (fun p => k))
  (at level 61, p pattern, m at next level, right associativity).

(** ** Bytes, text and slices *)

Definition bytes := list byte.

(** A Python text value ([str] after a parse, [unicode] after a JSON load) as
    its sequence of code points. *)
Definition text := list Z.

Definition byte_val (b : byte) : Z := Z.of_N (Byte.to_N b).

Definition byte_of_Z (z : Z) : byte :=
  match Byte.of_N (Z.to_N (z mod 256)) with
  | Some b => b
  | None => x00
  end.

Definition len {A : Type} (s : list A) : Z := Z.of_nat (List.length s).

(** Python's normalisation of a slice bound against a sequence of length [n]. *)
Definition clamp_index (n i : Z) : Z :=
  if i <? 0 then Z.max (i + n) 0 else Z.min i n.

(** [s[lo:hi]] *)
Definition slice {A : Type} (s : list A) (lo hi : Z) : list A :=
  let lo' := clamp_index (len s) lo in
  let hi' := clamp_index (len s) hi in
  firstn (Z.to_nat (hi' - lo')) (skipn (Z.to_nat lo') s).

(** [s[lo:]] *)
Definition slice_from {A : Type} (s : list A) (lo : Z) : list A :=
  skipn (Z.to_nat (clamp_index (len s) lo)) s.

(** [t.encode('ascii')]: every code point must be below 128. *)
Definition is_ascii (c : Z) : bool := (0 <=? c) && (c <? 128).

Definition encode_ascii (t : text) : outcome bytes :=
  if forallb is_ascii t then Ok (map byte_of_Z t) else Raise UnicodeError.

(** The text a byte string denotes. *)
Definition text_of_bytes (bs : bytes) : text := map byte_val bs.

(** [t.replace("\x00", '')] *)
Definition strip_nulls (t : text) : text := filter (fun c => negb (c =? 0)) t.

(** ** The [struct] module, for the little-endian formats the tool uses *)

Module Struct.

(** The [w] little-endian bytes of [v]. *)
Fixpoint le_bytes (w : nat) (v : Z) : bytes :=
  match w with
  | O => []
  | S w' => byte_of_Z (v mod 256) :: le_bytes w' (v / 256)
  end.

Fixpoint le_value (bs : bytes) : Z :=
  match bs with
  | [] => 0
  | b :: r => byte_val b + 256 * le_value r
  end.

(** Packing an unsigned integer of [w] bytes ('B', 'H', 'I'): a number out
    of range raises struct.error. *)
Definition pack_uint (w : nat) (v : Z) : outcome bytes :=
  if (0 <=? v) && (v <? 2 ^ (8 * Z.of_nat w)) then Ok (le_bytes w v)
  else Raise StructError.

(** Packing a string with format '<w>s': the string is truncated or padded
    with null bytes to make it fit. *)
Definition pack_s (w : nat) (s : bytes) : bytes :=
  firstn w (s ++ repeat x00 w).

(** The field of width [w] at offset [off] of a buffer. *)
Definition field (data : bytes) (off w : nat) : bytes :=
  firstn w (skipn off data).

(** [struct.unpack] demands a buffer of exactly the format's size. *)
Definition sized {A : Type} (size : nat) (data : bytes) (k : outcome A) : outcome A :=
  if Nat.eqb (List.length data) size then k else Raise StructError.

End Struct.

Import Struct.

(** ** FLBHeader: the 98-byte chunk header, format [<4sIBIH80s3B] *)

Module FLBHeader.

Record t : Type := mk {
  magic : text;
  header_length : Z;
  unknown1 : Z;
  data_length : Z;
  delimiter : Z;
  description : text;
  version1 : Z;
  version2 : Z;
  version3 : Z
}.

Definition HEADERSIZE : Z := 98.

(** [struct.unpack(FLBHeader.HEADERFORMAT, data)] *)
Definition unpack (data : bytes)
  : outcome (bytes * Z * Z * Z * Z * bytes * Z * Z * Z) :=
  sized 98 data
    (Ok (field data 0 4,
         le_value (field data 4 4),
         le_value (field data 8 1),
         le_value (field data 9 4),
         le_value (field data 13 2),
         field data 15 80,
         le_value (field data 95 1),
         le_value (field data 96 1),
         le_value (field data 97 1))).

(** [struct.pack(FLBHeader.HEADERFORMAT, ...)] *)
Definition pack (m : bytes) (hl u1 dl de : Z) (d : bytes) (v1 v2 v3 : Z)
  : outcome bytes :=
  bhl <- pack_uint 4 hl ;;
  bu1 <- pack_uint 1 u1 ;;
  bdl <- pack_uint 4 dl ;;
  bde <- pack_uint 2 de ;;
  bv1 <- pack_uint 1 v1 ;;
  bv2 <- pack_uint 1 v2 ;;
  bv3 <- pack_uint 1 v3 ;;
  Ok (pack_s 4 m ++ bhl ++ bu1 ++ bdl ++ bde ++ pack_s 80 d ++ bv1 ++ bv2 ++ bv3).

(** Parse a full FLB header; returns it with the number of bytes consumed.
    The description loses every null byte. *)
Definition parse (firmware : bytes) : outcome (t * Z) :=
  '(m, hl, u1, dl, de, d, v1, v2, v3) <- unpack (slice firmware 0 HEADERSIZE) ;;
  Ok (mk (text_of_bytes m) hl u1 dl de (strip_nulls (text_of_bytes d)) v1 v2 v3,
      HEADERSIZE).

(** Appends the packed header to the output file. *)
Definition writeToFLB (self : t) (output_file : bytes) : outcome bytes :=
  m <- encode_ascii (magic self) ;;
  d <- encode_ascii (description self) ;;
  packed <- pack m (header_length self) (unknown1 self) (data_length self)
                 (delimiter self) d (version1 self) (version2 self) (version3 self) ;;
  Ok (output_file ++ packed).

End FLBHeader.

(** ** PCIDetails: the 41-byte classification block, format [<I37s] *)

Module PCIDetails.

Record t : Type := mk {
  flb_type : Z;
  unknown : text
}.

Definition HEADERSIZE : Z := 41.

(** The table of type codes seen in existing files. *)
Definition FLB_TYPES : list (Z * string) :=
  [ (0x300, "FLB_PXE"%string);
    (0x800, "FLB_UEFI_DRIVER"%string);
    (0x1000, "FLB_ISCSI_OPTION"%string);
    (0x2000, "FLB_FCOE_OPTION"%string);
    (0x10000, "FLB_COMBO_RULES"%string);
    (0x100000, "FLB_CIVD_BIN"%string);
    (0x100001, "FLB_COMBO_IMAGE_VERSION_NAME"%string);
    (0x200000, "FLB_OCD_OPTION"%string);
    (0x800000, "FLB_CLP_LOADER"%string);
    (0x1000000, "FLB_ISCSI_SETUP"%string);
    (0x2000000, "FLB_40G_INTERFACE"%string);
    (0x10000000, "FLB_UEFI_X64_FCOE_DRIVER"%string);
    (0x20000000, "FLB_SIGNATURE"%string);
    (0x20000100, "FLB_SIGNATURE_2"%string) ].

Fixpoint lookup (table : list (Z * string)) (k : Z) : option string :=
  match table with
  | [] => None
  | (k', v) :: rest => if k =? k' then Some v else lookup rest k
  end.

(** The name [logInfo] reports for the type code; the log line is its only
    effect. *)
Definition logInfo (self : t) : string :=
  match lookup FLB_TYPES (flb_type self) with
  | Some name => name
  | None => "UNKNOWN"%string
  end.

Definition unpack (data : bytes) : outcome (Z * bytes) :=
  sized 41 data (Ok (le_value (field data 0 4), field data 4 37)).

Definition pack (ty : Z) (u : bytes) : outcome bytes :=
  bty <- pack_uint 4 ty ;;
  Ok (bty ++ pack_s 37 u).

Definition parse (firmware : bytes) : outcome (t * Z) :=
  '(ty, u) <- unpack (slice firmware 0 HEADERSIZE) ;;
  Ok (mk ty (text_of_bytes u), HEADERSIZE).

Definition writeToFLB (self : t) (output_file : bytes) : outcome bytes :=
  u <- encode_ascii (unknown self) ;;
  packed <- pack (flb_type self) u ;;
  Ok (output_file ++ packed).

End PCIDetails.

(** ** PCIDevice: one 12-byte device entry, format [<HHHHHH] *)

Module PCIDevice.

Record t : Type := mk {
  vendor : Z;
  device : Z;
  subvendor : Z;
  subdevice : Z;
  unk1 : Z;
  unk2 : Z
}.

(** Every device list ends with an all-zero entry. *)
Definition isValid (self : t) : bool :=
  (vendor self >? 0) || (device self >? 0) || (subvendor self >? 0)
  || (subdevice self >? 0) || (unk1 self >? 0) || (unk2 self >? 0).

(** The six numbers of a 12-byte entry. *)
Definition of_bytes (data : bytes) : t :=
  mk (le_value (field data 0 2)) (le_value (field data 2 2))
     (le_value (field data 4 2)) (le_value (field data 6 2))
     (le_value (field data 8 2)) (le_value (field data 10 2)).

(** The device built from [struct.unpack(PCIDeviceList.DEVICEFORMAT, data)]. *)
Definition unpack (data : bytes) : outcome t :=
  sized 12 data (Ok (of_bytes data)).

Definition pack (self : t) : outcome bytes :=
  b1 <- pack_uint 2 (vendor self) ;;
  b2 <- pack_uint 2 (device self) ;;
  b3 <- pack_uint 2 (subvendor self) ;;
  b4 <- pack_uint 2 (subdevice self) ;;
  b5 <- pack_uint 2 (unk1 self) ;;
  b6 <- pack_uint 2 (unk2 self) ;;
  Ok (b1 ++ b2 ++ b3 ++ b4 ++ b5 ++ b6).

Definition writeToFLB (self : t) (output_file : bytes) : outcome bytes :=
  packed <- pack self ;;
  Ok (output_file ++ packed).

End PCIDevice.

(** ** PCIDeviceList: back-to-back device entries *)

Module PCIDeviceList.

Record t : Type := mk {
  devices : list PCIDevice.t
}.

Definition DEVICESIZE : Z := 12.

(** The [while devicepos < len(firmware)] loop of [parse]; every entry,
    valid or all-zero, is appended. *)
Fixpoint parse_loop (fuel : nat) (firmware : bytes) (devicepos : Z)
         (devs : list PCIDevice.t) : outcome (t * Z) :=
  match fuel with
  | O => Diverge
  | S fuel' =>
      if devicepos <? len firmware then
        newdevice <- PCIDevice.unpack (slice firmware devicepos (devicepos + DEVICESIZE)) ;;
        parse_loop fuel' firmware (devicepos + DEVICESIZE) (devs ++ [newdevice])
      else Ok (mk devs, devicepos)
  end.

(** Returns the list with the number of bytes consumed. *)
Definition parse (firmware : bytes) : outcome (t * Z) :=
  parse_loop (S (List.length firmware)) firmware 0 [].

Fixpoint write_loop (devs : list PCIDevice.t) (output_file : bytes) : outcome bytes :=
  match devs with
  | [] => Ok output_file
  | cur :: rest =>
      output_file' <- PCIDevice.writeToFLB cur output_file ;;
      write_loop rest output_file'
  end.

Definition writeToFLB (self : t) (output_file : bytes) : outcome bytes :=
  write_loop (devices self) output_file.

End PCIDeviceList.

(** ** FirmwareData: the opaque payload *)

Module FirmwareData.

Record t : Type := mk {
  firmware : bytes
}.

Definition writeToFLB (self : t) (output_file : bytes) : outcome bytes :=
  Ok (output_file ++ firmware self).

End FirmwareData.

(** ** FLBChunk: header, classification, device list and payload *)

Module FLBChunk.

Record t : Type := mk {
  chunknum : Z;
  header : FLBHeader.t;
  pcidetails : PCIDetails.t;
  pcidevices : PCIDeviceList.t;
  firmware : FirmwareData.t
}.

(** Parses chunk number [num] off the front of [inputdata]; returns it with
    the final position. *)
Definition parse (num : Z) (inputdata : bytes) : outcome (t * Z) :=
  let pos := 0 in
  '(hdr, n) <- FLBHeader.parse (slice inputdata pos (pos + FLBHeader.HEADERSIZE)) ;;
  let pos := pos + n in
  '(det, n) <- PCIDetails.parse (slice inputdata pos (pos + PCIDetails.HEADERSIZE)) ;;
  let pos := pos + n in
  let pci_devicelist_size :=
    FLBHeader.header_length hdr - FLBHeader.HEADERSIZE - PCIDetails.HEADERSIZE in
  '(devs, n) <- PCIDeviceList.parse (slice inputdata pos (pos + pci_devicelist_size)) ;;
  let pos := pos + n in
  let fw := FirmwareData.mk (slice inputdata pos (pos + FLBHeader.data_length hdr)) in
  let pos := pos + FLBHeader.data_length hdr in
  Ok (mk num hdr det devs fw, pos).

(** Needed when an image is regenerated from a list of chunks: the payload
    size or the device list may have changed. *)
Definition recalculateHeaders (self : t) : t :=
  let h := header self in
  let h := FLBHeader.mk (FLBHeader.magic h) (FLBHeader.header_length h)
             (FLBHeader.unknown1 h)
             (len (FirmwareData.firmware (firmware self)))
             (FLBHeader.delimiter h) (FLBHeader.description h)
             (FLBHeader.version1 h) (FLBHeader.version2 h) (FLBHeader.version3 h) in
  let h := FLBHeader.mk (FLBHeader.magic h)
             (FLBHeader.HEADERSIZE + PCIDetails.HEADERSIZE
              + len (PCIDeviceList.devices (pcidevices self)) * PCIDeviceList.DEVICESIZE)
             (FLBHeader.unknown1 h) (FLBHeader.data_length h)
             (FLBHeader.delimiter h) (FLBHeader.description h)
             (FLBHeader.version1 h) (FLBHeader.version2 h) (FLBHeader.version3 h) in
  mk (chunknum self) h (pcidetails self) (pcidevices self) (firmware self).

Definition writeToFLB (self : t) (output_file : bytes) : outcome bytes :=
  output_file <- FLBHeader.writeToFLB (header self) output_file ;;
  output_file <- PCIDetails.writeToFLB (pcidetails self) output_file ;;
  output_file <- PCIDeviceList.writeToFLB (pcidevices self) output_file ;;
  FirmwareData.writeToFLB (firmware self) output_file.

End FLBChunk.

(** ** The two commands, without their file-system work *)

(** The [while pos < len(inputdata)] loop of [extract_firmware]. *)
Fixpoint extract_loop (fuel : nat) (inputdata : bytes) (pos : Z)
         (all_chunks : list FLBChunk.t) : outcome (list FLBChunk.t) :=
  match fuel with
  | O => Diverge
  | S fuel' =>
      if pos <? len inputdata then
        '(chunk, n) <- FLBChunk.parse (len all_chunks) (slice_from inputdata pos) ;;
        extract_loop fuel' inputdata (pos + n) (all_chunks ++ [chunk])
      else Ok all_chunks
  end.

(** The chunks [extract_firmware] hands to [extractToDisk]; its test of the
    first four bytes against 'FLB3' only logs a warning. *)
Definition extract_firmware (inputdata : bytes) : outcome (list FLBChunk.t) :=
  extract_loop (S (List.length inputdata)) inputdata 0 [].

(** The second loop of [write_firmware]: every chunk is written in order. *)
Fixpoint write_chunks (all_chunks : list FLBChunk.t) (output : bytes) : outcome bytes :=
  match all_chunks with
  | [] => Ok output
  | chunk :: rest =>
      output' <- FLBChunk.writeToFLB chunk output ;;
      write_chunks rest output'
  end.

(** [write_firmware] on the chunks as loaded from the directory: every one has
    its lengths recalculated, then all are written. *)
Definition write_firmware (loaded : list FLBChunk.t) (output : bytes) : outcome bytes :=
  write_chunks (map FLBChunk.recalculateHeaders loaded) output.

(** ** The names of the files of a chunk *)

(** The commands name a chunk's files after its number: [extractToDisk]
    writes [chunk_%03i.bin] and [chunk_%03i.json] under the output
    directory; [write_firmware] sorts the [*.bin] paths it finds, derives the
    path of the metadata from each and reads the chunk number back from the
    name.  The string operations they use are modelled here on Rocq strings,
    one [ascii] per byte. *)

(** [str(n)] of a number that is not negative. *)
Definition decimal (n : N) : string :=
  DecimalString.NilEmpty.string_of_uint (N.to_uint n).

Fixpoint zeros (k : nat) : string :=
  match k with
  | O => EmptyString
  | S k' => String "0" (zeros k')
  end.

(** ['%03i' % n]: the sign, then zeros up to a width of three, then the
    digits. *)
Definition format_03i (n : Z) : string :=
  if n <? 0 then
    let d := decimal (Z.to_N (- n)) in
    String "-" (String.append (zeros (2 - String.length d)) d)
  else
    let d := decimal (Z.to_N n) in
    String.append (zeros (3 - String.length d)) d.

(** ['chunk_%03i.bin' % chunknum] and ['chunk_%03i.json' % chunknum] *)
Definition chunk_bin_name (chunknum : Z) : string :=
  String.append "chunk_" (String.append (format_03i chunknum) ".bin").

Definition chunk_json_name (chunknum : Z) : string :=
  String.append "chunk_" (String.append (format_03i chunknum) ".json").

(** [s.startswith(p)] *)
Fixpoint starts_with (p s : string) : bool :=
  match p with
  | EmptyString => true
  | String a p' =>
      match s with
      | EmptyString => false
      | String b s' => Ascii.eqb a b && starts_with p' s'
      end
  end.

(** [s.endswith('/')] *)
Fixpoint ends_with_slash (s : string) : bool :=
  match s with
  | EmptyString => false
  | String c EmptyString => Ascii.eqb c "/"
  | String _ r => ends_with_slash r
  end.

(** [os.path.join(a, b)] (posixpath) *)
Definition path_join (a b : string) : string :=
  if starts_with "/" b then b
  else if String.eqb a "" || ends_with_slash a then String.append a b
  else String.append a (String "/" b).

(** [os.path.basename(p)]: what follows the last slash. *)
Fixpoint basename_from (p acc : string) : string :=
  match p with
  | EmptyString => acc
  | String c r =>
      if Ascii.eqb c "/" then basename_from r EmptyString
      else basename_from r (String.append acc (String c EmptyString))
  end.

Definition basename (p : string) : string := basename_from p EmptyString.

(** [s.replace(old, new)] scans from the left and replaces every occurrence
    that does not overlap an earlier one; [skip] counts the characters of an
    occurrence still to pass over.  With an empty [old], [new] goes before
    every character and at the end. *)
Fixpoint replace_from (old new : string) (skip : nat) (s : string) : string :=
  match s with
  | EmptyString => EmptyString
  | String c r =>
      match skip with
      | S k => replace_from old new k r
      | O =>
          if starts_with old s
          then String.append new (replace_from old new (String.length old - 1) r)
          else String c (replace_from old new 0 r)
      end
  end.

Fixpoint interleave (new s : string) : string :=
  match s with
  | EmptyString => new
  | String c r => String.append new (String c (interleave new r))
  end.

Definition str_replace (old new s : string) : string :=
  match old with
  | EmptyString => interleave new s
  | _ => replace_from old new 0 s
  end.

(** The characters [int] and [strip] take for white space. *)
Definition is_space (c : ascii) : bool :=
  let n := N_of_ascii c in
  (n =? 32)%N || ((9 <=? n)%N && (n <=? 13)%N).

Fixpoint lstrip (s : string) : string :=
  match s with
  | EmptyString => EmptyString
  | String c r => if is_space c then lstrip r else s
  end.

Fixpoint rstrip (s : string) : string :=
  match s with
  | EmptyString => EmptyString
  | String c r =>
      match rstrip r with
      | EmptyString => if is_space c then EmptyString else String c EmptyString
      | r' => String c r'
      end
  end.

(** The value of a string of decimal digits; [None] when it is empty or holds
    anything else. *)
Definition digits_value (s : string) : option Z :=
  match s with
  | EmptyString => None
  | _ => option_map (fun d => Z.of_N (N.of_uint d))
                    (DecimalString.NilEmpty.uint_of_string s)
  end.

(** [int(s)] on a byte string: white space around is dropped, one sign is
    allowed, the rest must be decimal digits; [None] stands for ValueError. *)
Definition py_int (s : string) : option Z :=
  match rstrip (lstrip s) with
  | String "-" d => option_map Z.opp (digits_value d)
  | String "+" d => digits_value d
  | t => digits_value t
  end.

(** [file.replace('.bin', '.json')] *)
Definition metadata_file (file : string) : string :=
  str_replace ".bin" ".json" file.

(** [int(os.path.basename(file).replace('.bin', '').replace('chunk_', ''))] *)
Definition chunknum_of_file (file : string) : option Z :=
  py_int (str_replace "chunk_" "" (str_replace ".bin" "" (basename file))).

(** [sorted] order of a list of names, as [list.sort] leaves it: each name is
    below all the names after it. *)
Fixpoint strictly_sorted (names : list string) : bool :=
  match names with
  | [] => true
  | x :: rest => forallb (String.ltb x) rest && strictly_sorted rest
  end.

(** * Vocabulary of the properties, and sample data *)

(** The device entry decoded at index [i] of a region. *)
Definition entry_at (firmware : bytes) (i : nat) : PCIDevice.t :=
  PCIDevice.of_bytes (slice firmware (12 * Z.of_nat i) (12 * Z.of_nat i + 12)).

(** A region of two entries, the first all zero, the second 8086:1563. *)
Definition two_entries : bytes :=
  repeat x00 12 ++ [x86; x80; x63; x15; x00; x00; x00; x00; x00; x00; x00; x00].

Definition nonnull (c : Z) : bool := negb (c =? 0).

(** The numbers of a header fit their struct formats. *)
Definition header_numbers_fit (h : FLBHeader.t) : Prop :=
  0 <= FLBHeader.header_length h < 2 ^ 32
  /\ 0 <= FLBHeader.unknown1 h < 2 ^ 8
  /\ 0 <= FLBHeader.data_length h < 2 ^ 32
  /\ 0 <= FLBHeader.delimiter h < 2 ^ 16
  /\ 0 <= FLBHeader.version1 h < 2 ^ 8
  /\ 0 <= FLBHeader.version2 h < 2 ^ 8
  /\ 0 <= FLBHeader.version3 h < 2 ^ 8.

(** The 98 bytes [writeToFLB] emits for a header it can pack. *)
Definition header_image (h : FLBHeader.t) : bytes :=
  pack_s 4 (map byte_of_Z (FLBHeader.magic h))
  ++ le_bytes 4 (FLBHeader.header_length h)
  ++ le_bytes 1 (FLBHeader.unknown1 h)
  ++ le_bytes 4 (FLBHeader.data_length h)
  ++ le_bytes 2 (FLBHeader.delimiter h)
  ++ pack_s 80 (map byte_of_Z (FLBHeader.description h))
  ++ le_bytes 1 (FLBHeader.version1 h)
  ++ le_bytes 1 (FLBHeader.version2 h)
  ++ le_bytes 1 (FLBHeader.version3 h).

(** What [FLBHeader.parse] reads from a written header. *)
Definition header_reread (h : FLBHeader.t) : FLBHeader.t :=
  FLBHeader.mk
    (text_of_bytes (pack_s 4 (map byte_of_Z (FLBHeader.magic h))))
    (FLBHeader.header_length h) (FLBHeader.unknown1 h) (FLBHeader.data_length h)
    (FLBHeader.delimiter h)
    (strip_nulls (text_of_bytes (pack_s 80 (map byte_of_Z (FLBHeader.description h)))))
    (FLBHeader.version1 h) (FLBHeader.version2 h) (FLBHeader.version3 h).

(** The header of a PXE chunk, version 1.2.3. *)
Definition sample_header : FLBHeader.t :=
  FLBHeader.mk [70; 76; 66; 51] 151 0 4 0x8680 [80; 88; 69] 1 2 3.

(** A header whose description is 81 letters 'a'. *)
Definition long_header : FLBHeader.t :=
  FLBHeader.mk [70; 76; 66; 51] 139 0 0 0x8680 (repeat 97 81) 1 0 0.

(** The header held by a 98-byte buffer. *)
Definition decoded_header (data : bytes) : FLBHeader.t :=
  FLBHeader.mk
    (text_of_bytes (field data 0 4))
    (le_value (field data 4 4)) (le_value (field data 8 1))
    (le_value (field data 9 4)) (le_value (field data 13 2))
    (strip_nulls (text_of_bytes (field data 15 80)))
    (le_value (field data 95 1)) (le_value (field data 96 1))
    (le_value (field data 97 1)).

(** The classification record held by a 41-byte buffer. *)
Definition decoded_details (data : bytes) : PCIDetails.t :=
  PCIDetails.mk (le_value (field data 0 4)) (text_of_bytes (field data 4 37)).

(** A chunk whose header declares a length of 100: 98 bytes of header and 41
    of classification block, nothing else. *)
Definition short_length_header : FLBHeader.t :=
  FLBHeader.mk [70; 76; 66; 51] 100 0 0 0x8680 [80; 88; 69] 1 2 3.

Definition short_length_buffer : bytes :=
  header_image short_length_header ++ repeat x00 41.

(** One chunk: a declared header length of 151 and data length of 4, one
    all-zero device entry, but two bytes of payload only. *)
Definition short_payload_buffer : bytes :=
  header_image sample_header ++ repeat x00 41 ++ repeat x00 12 ++ [x01; x02].

Definition details_fit (d : PCIDetails.t) : Prop :=
  forallb is_ascii (PCIDetails.unknown d) = true
  /\ 0 <= PCIDetails.flb_type d < 2 ^ 32.

(** The 41 bytes written for a classification record. *)
Definition details_image (d : PCIDetails.t) : bytes :=
  le_bytes 4 (PCIDetails.flb_type d) ++ pack_s 37 (map byte_of_Z (PCIDetails.unknown d)).

Definition device_fit (d : PCIDevice.t) : Prop :=
  0 <= PCIDevice.vendor d < 2 ^ 16
  /\ 0 <= PCIDevice.device d < 2 ^ 16
  /\ 0 <= PCIDevice.subvendor d < 2 ^ 16
  /\ 0 <= PCIDevice.subdevice d < 2 ^ 16
  /\ 0 <= PCIDevice.unk1 d < 2 ^ 16
  /\ 0 <= PCIDevice.unk2 d < 2 ^ 16.

(** The 12 bytes written for a device entry. *)
Definition device_image (d : PCIDevice.t) : bytes :=
  le_bytes 2 (PCIDevice.vendor d) ++ le_bytes 2 (PCIDevice.device d)
  ++ le_bytes 2 (PCIDevice.subvendor d) ++ le_bytes 2 (PCIDevice.subdevice d)
  ++ le_bytes 2 (PCIDevice.unk1 d) ++ le_bytes 2 (PCIDevice.unk2 d).

Definition devices_image (devs : list PCIDevice.t) : bytes :=
  flat_map device_image devs.

Definition chunk_fit (c : FLBChunk.t) : Prop :=
  forallb is_ascii (FLBHeader.magic (FLBChunk.header c)) = true
  /\ forallb is_ascii (FLBHeader.description (FLBChunk.header c)) = true
  /\ header_numbers_fit (FLBChunk.header c)
  /\ details_fit (FLBChunk.pcidetails c)
  /\ Forall device_fit (PCIDeviceList.devices (FLBChunk.pcidevices c)).

(** The bytes written for a chunk. *)
Definition chunk_image (c : FLBChunk.t) : bytes :=
  header_image (FLBChunk.header c)
  ++ details_image (FLBChunk.pcidetails c)
  ++ devices_image (PCIDeviceList.devices (FLBChunk.pcidevices c))
  ++ FirmwareData.firmware (FLBChunk.firmware c).

(** A chunk of type 0xDEADBEEF, and the buffer that holds it. *)
Definition unknown_type_chunk : FLBChunk.t :=
  FLBChunk.mk 0 sample_header (PCIDetails.mk 0xDEADBEEF (repeat 0 37))
    (PCIDeviceList.mk [PCIDevice.mk 0 0 0 0 0 0])
    (FirmwareData.mk [x01; x02; x03; x04]).

Definition unknown_type_buffer : bytes :=
  header_image sample_header ++ le_bytes 4 0xDEADBEEF ++ repeat x00 37
  ++ repeat x00 12 ++ [x01; x02; x03; x04].

(** What [PCIDetails.parse] reads from a written record. *)
Definition details_reread (d : PCIDetails.t) : PCIDetails.t :=
  PCIDetails.mk (PCIDetails.flb_type d)
    (text_of_bytes (pack_s 37 (map byte_of_Z (PCIDetails.unknown d)))).

(** The lengths of the header are the ones [recalculateHeaders] sets. *)
Definition chunk_consistent (c : FLBChunk.t) : Prop :=
  FLBHeader.header_length (FLBChunk.header c)
  = 139 + 12 * len (PCIDeviceList.devices (FLBChunk.pcidevices c))
  /\ FLBHeader.data_length (FLBChunk.header c)
     = len (FirmwareData.firmware (FLBChunk.firmware c)).

(** The chunk [FLBChunk.parse] reads, as number [num], from a written chunk. *)
Definition chunk_reread (num : Z) (c : FLBChunk.t) : FLBChunk.t :=
  FLBChunk.mk num
    (header_reread (FLBChunk.header c))
    (details_reread (FLBChunk.pcidetails c))
    (PCIDeviceList.mk (PCIDeviceList.devices (FLBChunk.pcidevices c)))
    (FirmwareData.mk (FirmwareData.firmware (FLBChunk.firmware c))).

Definition description_nonnull (c : FLBChunk.t) : Prop :=
  forallb nonnull (FLBHeader.description (FLBChunk.header c)) = true.

(** The chunks read back from written ones, numbered from [k]. *)
Fixpoint reread_from (k : Z) (cs : list FLBChunk.t) : list FLBChunk.t :=
  match cs with
  | [] => []
  | c :: rest => chunk_reread k c :: reread_from (k + 1) rest
  end.

(** A chunk whose description is 'a', a null character, 'b'. *)
Definition null_description_chunk : FLBChunk.t :=
  FLBChunk.mk 0
    (FLBHeader.mk [70; 76; 66; 51] 0 0 0 0x8680 [97; 0; 98] 1 2 3)
    (PCIDetails.mk 0x300 [])
    (PCIDeviceList.mk [PCIDevice.mk 0 0 0 0 0 0])
    (FirmwareData.mk [x01; x02; x03; x04]).

(** Two chunks: the sample one, and one with three devices and the all-zero
    entry. *)
Definition sample_chunks : list FLBChunk.t :=
  [ FLBChunk.mk 0 sample_header (PCIDetails.mk 0x300 (repeat 0 37))
      (PCIDeviceList.mk [PCIDevice.mk 0 0 0 0 0 0])
      (FirmwareData.mk [x01; x02; x03; x04]);
    FLBChunk.mk 1 sample_header (PCIDetails.mk 0x800 (repeat 0 37))
      (PCIDeviceList.mk [PCIDevice.mk 0x8086 0x1563 0x15d9 0x0903 0 0;
                         PCIDevice.mk 0x8086 0x1563 0 0 0 0x4100;
                         PCIDevice.mk 0x8086 0x10fb 0 0 0 0;
                         PCIDevice.mk 0 0 0 0 0 0])
      (FirmwareData.mk [xff; x00]) ].

Definition sample_container : bytes :=
  flat_map chunk_image (map FLBChunk.recalculateHeaders sample_chunks).

(** A header with an e-acute in its description, and one whose first
    version number does not fit a byte. *)
Definition accent_header : FLBHeader.t :=
  FLBHeader.mk [70; 76; 66; 51] 139 0 0 0 [0xe9] 1 2 3.

Definition wide_version_header : FLBHeader.t :=
  FLBHeader.mk [70; 76; 66; 51] 139 0 0 0 [97] 256 2 3.

(** A chunk whose header declares a length of 145: six bytes of device
    region, half an entry. *)
Definition misaligned_buffer : bytes :=
  header_image (FLBHeader.mk [70; 76; 66; 51] 145 0 0 0x8680 [80; 88; 69] 1 2 3)
  ++ repeat x00 41 ++ repeat x00 6.

(** A chunk whose header declares a length of 187, four device entries, in a
    buffer that ends after the second entry. *)
Definition cut_list_buffer : bytes :=
  header_image (FLBHeader.mk [70; 76; 66; 51] 187 0 4 0x8680 [80; 88; 69] 1 2 3)
  ++ repeat x00 41 ++ two_entries.

(** The chunk [c] with another number and other stored lengths. *)
Definition with_lengths (c : FLBChunk.t) (num hl dl : Z) : FLBChunk.t :=
  let h := FLBChunk.header c in
  FLBChunk.mk num
    (FLBHeader.mk (FLBHeader.magic h) hl (FLBHeader.unknown1 h) dl
       (FLBHeader.delimiter h) (FLBHeader.description h)
       (FLBHeader.version1 h) (FLBHeader.version2 h) (FLBHeader.version3 h))
    (FLBChunk.pcidetails c) (FLBChunk.pcidevices c) (FLBChunk.firmware c).

(** The bytes a chunk takes in a rebuilt file. *)
Definition written_size (c : FLBChunk.t) : Z :=
  139 + 12 * len (PCIDeviceList.devices (FLBChunk.pcidevices c))
  + len (FirmwareData.firmware (FLBChunk.firmware c)).

(** The chunk read from [short_payload_buffer]. *)
Definition short_payload_chunk : FLBChunk.t :=
  FLBChunk.mk 0 sample_header (PCIDetails.mk 0 (repeat 0 37))
    (PCIDeviceList.mk [PCIDevice.mk 0 0 0 0 0 0])
    (FirmwareData.mk [x01; x02]).

(** Every character of [s] passes the test [p]. *)
Fixpoint all_chars (p : ascii -> bool) (s : string) : bool :=
  match s with
  | EmptyString => true
  | String c r => p c && all_chars p r
  end.

Definition is_digit (c : ascii) : bool :=
  ((48 <=? N_of_ascii c) && (N_of_ascii c <=? 57))%N.

(** The names of the payload files of chunks 0 to 999. *)
Definition first_thousand_names : list string :=
  map (fun n => chunk_bin_name (Z.of_nat n)) (seq 0 1000).

(** On a string that begins with [c], [py_int]'s test for a sign finds
    none. *)
Definition py_int_sign_free (c : ascii) (r : string) : Prop :=
  match String c r with
  | String "-" d => option_map Z.opp (digits_value d)
  | String "+" d => digits_value d
  | t => digits_value t
  end = digits_value (String c r).

(** Two chunks one after the other: a whole one, then the one whose payload
    is short; and the chunks read from them. *)
Definition whole_then_short_buffer : bytes :=
  unknown_type_buffer ++ short_payload_buffer.

Definition whole_then_short_chunks : list FLBChunk.t :=
  [ unknown_type_chunk;
    FLBChunk.mk 1 sample_header (PCIDetails.mk 0 (repeat 0 37))
      (PCIDeviceList.mk [PCIDevice.mk 0 0 0 0 0 0])
      (FirmwareData.mk [x01; x02]) ].

(** * Properties *)

(** ** Outcomes *)

Lemma bind_Ok {A B : Type} (m : outcome A) (k : A -> outcome B) (b : B) :
  bind m k = Ok b -> exists a, m = Ok a /\ k a = Ok b.
Proof.
  destruct m as [a | e | ]; simpl; intro H; try discriminate.
  exists a; split; [reflexivity | exact H].
Qed.

(** Splits an equation between two successful results that are pairs,
    without computing in them. *)
Ltac ok_pair H :=
  match type of H with
  | Ok (?a, ?x) = Ok (?b, ?y) =>
      let H1 := fresh "Hfst" in
      let H2 := fresh "Hsnd" in
      assert (H1 : a = b) by congruence;
      assert (H2 : x = y) by congruence;
      clear H
  end.

(** Inverts a successful chain of binds in hypothesis [H]. *)
Ltac bind_inv H :=
  let a := fresh "r" in
  let Ha := fresh "E" in
  apply bind_Ok in H; destruct H as (a & Ha & H).

(** ** Bytes *)

Lemma byte_val_range (b : byte) : 0 <= byte_val b < 256.
Proof.
  unfold byte_val. pose proof (Byte.to_N_bounded b). lia.
Qed.

Lemma byte_of_val (b : byte) : byte_of_Z (byte_val b) = b.
Proof.
  unfold byte_of_Z. pose proof (byte_val_range b) as Hr.
  rewrite Z.mod_small by exact Hr.
  unfold byte_val. rewrite N2Z.id, Byte.of_to_N. reflexivity.
Qed.

Lemma byte_val_of (z : Z) : byte_val (byte_of_Z z) = z mod 256.
Proof.
  unfold byte_of_Z.
  assert (Hm : 0 <= z mod 256 < 256) by (apply Z.mod_pos_bound; lia).
  destruct (Byte.of_N (Z.to_N (z mod 256))) as [b | ] eqn:E.
  - apply Byte.to_of_N in E. unfold byte_val. rewrite E. lia.
  - apply Byte.of_N_None_iff in E. lia.
Qed.

Lemma byte_val_of_small (z : Z) : 0 <= z < 256 -> byte_val (byte_of_Z z) = z.
Proof.
  intro H. rewrite byte_val_of. apply Z.mod_small; exact H.
Qed.

(** ** Little-endian numbers *)

Lemma le_bytes_length (w : nat) (v : Z) : List.length (le_bytes w v) = w.
Proof.
  revert v; induction w as [ | w IH]; intro v; simpl; [ | rewrite IH]; reflexivity.
Qed.

Lemma le_value_le_bytes_mod (w : nat) (v : Z) :
  le_value (le_bytes w v) = v mod 2 ^ (8 * Z.of_nat w).
Proof.
  revert v; induction w as [ | w IH]; intro v.
  - simpl. rewrite Z.mod_1_r. reflexivity.
  - cbn [le_bytes le_value]. rewrite IH, byte_val_of, Z.mod_mod by lia.
    replace (8 * Z.of_nat (S w)) with (8 + 8 * Z.of_nat w) by lia.
    rewrite Z.pow_add_r by lia.
    change (2 ^ 8) with 256.
    rewrite Z.rem_mul_r by lia. reflexivity.
Qed.

Lemma le_value_le_bytes (w : nat) (v : Z) :
  0 <= v < 2 ^ (8 * Z.of_nat w) -> le_value (le_bytes w v) = v.
Proof.
  intro H. rewrite le_value_le_bytes_mod. apply Z.mod_small; exact H.
Qed.

Lemma le_value_range (bs : bytes) :
  0 <= le_value bs < 2 ^ (8 * Z.of_nat (List.length bs)).
Proof.
  induction bs as [ | b r IH].
  - simpl. lia.
  - cbn [le_value List.length].
    replace (8 * Z.of_nat (S (List.length r))) with (8 + 8 * Z.of_nat (List.length r)) by lia.
    rewrite Z.pow_add_r by lia. change (2 ^ 8) with 256.
    pose proof (byte_val_range b). nia.
Qed.

Lemma le_bytes_le_value (bs : bytes) : le_bytes (List.length bs) (le_value bs) = bs.
Proof.
  induction bs as [ | b r IH]; [reflexivity | ].
  cbn [le_value List.length le_bytes].
  pose proof (byte_val_range b) as Hb.
  assert (Hm : (byte_val b + 256 * le_value r) mod 256 = byte_val b).
  { replace (byte_val b + 256 * le_value r) with (byte_val b + le_value r * 256) by lia.
    rewrite Z.mod_add by lia. apply Z.mod_small; exact Hb. }
  assert (Hd : (byte_val b + 256 * le_value r) / 256 = le_value r).
  { replace (byte_val b + 256 * le_value r) with (byte_val b + le_value r * 256) by lia.
    rewrite Z.div_add by lia. rewrite Z.div_small by exact Hb. lia. }
  rewrite Hm, Hd.
  rewrite byte_of_val, IH. reflexivity.
Qed.

Lemma pack_uint_Ok (w : nat) (v : Z) (bs : bytes) :
  pack_uint w v = Ok bs ->
  0 <= v < 2 ^ (8 * Z.of_nat w) /\ bs = le_bytes w v.
Proof.
  unfold pack_uint.
  destruct ((0 <=? v) && (v <? 2 ^ (8 * Z.of_nat w))) eqn:E; intro H; [ | discriminate].
  injection H as <-. apply andb_true_iff in E. split; [lia | reflexivity].
Qed.

Lemma pack_uint_in_range (w : nat) (v : Z) :
  0 <= v < 2 ^ (8 * Z.of_nat w) -> pack_uint w v = Ok (le_bytes w v).
Proof.
  intro H. unfold pack_uint.
  replace ((0 <=? v) && (v <? 2 ^ (8 * Z.of_nat w))) with true; [reflexivity | ].
  symmetry. apply andb_true_iff. lia.
Qed.

(** ** Slices *)

Lemma slice_nonneg {A : Type} (s : list A) (lo hi : Z) :
  0 <= lo -> 0 <= hi ->
  slice s lo hi = firstn (Z.to_nat hi - Z.to_nat lo) (skipn (Z.to_nat lo) s).
Proof.
  intros Hlo Hhi. unfold slice, clamp_index, len.
  destruct (lo <? 0) eqn:E1; [lia | ]. destruct (hi <? 0) eqn:E2; [lia | ].
  destruct (Z_le_gt_dec lo (Z.of_nat (List.length s))) as [Hl | Hl].
  - rewrite (Z.min_l lo) by lia.
    destruct (Z_le_gt_dec hi (Z.of_nat (List.length s))) as [Hh | Hh].
    + rewrite (Z.min_l hi) by lia. f_equal. lia.
    + rewrite (Z.min_r hi) by lia.
      rewrite !firstn_all2; try reflexivity; rewrite length_skipn; lia.
  - rewrite (Z.min_r lo) by lia.
    rewrite !(skipn_all2 s) by lia. rewrite !firstn_nil. reflexivity.
Qed.

Lemma slice_from_nonneg {A : Type} (s : list A) (lo : Z) :
  0 <= lo -> slice_from s lo = skipn (Z.to_nat lo) s.
Proof.
  intro Hlo. unfold slice_from, clamp_index, len.
  destruct (lo <? 0) eqn:E1; [lia | ].
  destruct (Z_le_gt_dec lo (Z.of_nat (List.length s))) as [Hl | Hl].
  - rewrite Z.min_l by lia. reflexivity.
  - rewrite Z.min_r by lia. rewrite !skipn_all2 by lia. reflexivity.
Qed.

Lemma slice_length_le {A : Type} (s : list A) (lo hi : Z) :
  (List.length (slice s lo hi) <= List.length s)%nat.
Proof.
  unfold slice. rewrite length_firstn, length_skipn. lia.
Qed.

(** A prefix of known length, cut off a concatenation. *)
Lemma firstn_app_exact {A : Type} (n : nat) (a b : list A) :
  List.length a = n -> firstn n (a ++ b) = a.
Proof.
  intros <-. rewrite firstn_app, Nat.sub_diag, firstn_all. simpl. apply app_nil_r.
Qed.

Lemma skipn_app_exact {A : Type} (n : nat) (a b : list A) :
  List.length a = n -> skipn n (a ++ b) = b.
Proof.
  intros <-. rewrite skipn_app, Nat.sub_diag, skipn_all. reflexivity.
Qed.

Lemma slice_length {A : Type} (s : list A) (lo hi : Z) :
  0 <= lo <= hi -> hi <= len s ->
  List.length (slice s lo hi) = Z.to_nat (hi - lo).
Proof.
  intros H1 H2. unfold len in H2. rewrite slice_nonneg by lia.
  rewrite length_firstn, length_skipn. lia.
Qed.

Lemma slice_length_short {A : Type} (s : list A) (lo hi : Z) :
  0 <= lo <= len s -> len s <= hi ->
  List.length (slice s lo hi) = Z.to_nat (len s - lo).
Proof.
  intros H1 H2. unfold len in *. rewrite slice_nonneg by lia.
  rewrite length_firstn, length_skipn. lia.
Qed.

(** ** The device list *)

Section DeviceListParse.

Variable firmware : bytes.

(** With [n] whole entries left from entry [j] on, the loop appends all of
    them and stops at the end of the region. *)
Lemma parse_loop_aligned (n : nat) :
  forall (fuel j : nat) (devs : list PCIDevice.t),
    List.length firmware = (12 * (j + n))%nat ->
    (n < fuel)%nat ->
    PCIDeviceList.parse_loop fuel firmware (12 * Z.of_nat j) devs
    = Ok (PCIDeviceList.mk (devs ++ map (entry_at firmware) (seq j n)), len firmware).
Proof.
  induction n as [ | n IH]; intros fuel j devs Hlen Hfuel.
  - destruct fuel as [ | fuel]; [lia | ]. cbn [PCIDeviceList.parse_loop].
    assert (E : (12 * Z.of_nat j <? len firmware) = false)
      by (apply Z.ltb_ge; unfold len; lia).
    rewrite E. cbn [seq map]. rewrite app_nil_r.
    replace (len firmware) with (12 * Z.of_nat j) by (unfold len; lia).
    reflexivity.
  - destruct fuel as [ | fuel]; [lia | ]. cbn [PCIDeviceList.parse_loop].
    assert (E : (12 * Z.of_nat j <? len firmware) = true)
      by (apply Z.ltb_lt; unfold len; lia).
    rewrite E. unfold PCIDeviceList.DEVICESIZE, PCIDevice.unpack, sized.
    rewrite slice_length by (unfold len; lia).
    replace (Z.to_nat (12 * Z.of_nat j + 12 - 12 * Z.of_nat j)) with 12%nat by lia.
    cbn [Nat.eqb bind].
    replace (12 * Z.of_nat j + 12) with (12 * Z.of_nat (S j)) by lia.
    rewrite IH by lia.
    cbn [seq map]. rewrite <- app_assoc. cbn [app].
    unfold entry_at at 2.
    replace (12 * Z.of_nat (S j)) with (12 * Z.of_nat j + 12) by lia.
    reflexivity.
Qed.

(** With [q] whole entries and [m] stray bytes left, the loop reaches the
    partial entry and [struct.unpack] refuses it. *)
Lemma parse_loop_misaligned (q : nat) :
  forall (fuel j m : nat) (devs : list PCIDevice.t),
    (0 < m < 12)%nat ->
    List.length firmware = (12 * (j + q) + m)%nat ->
    (q < fuel)%nat ->
    PCIDeviceList.parse_loop fuel firmware (12 * Z.of_nat j) devs = Raise StructError.
Proof.
  induction q as [ | q IH]; intros fuel j m devs Hm Hlen Hfuel;
    (destruct fuel as [ | fuel]; [lia | ]); cbn [PCIDeviceList.parse_loop];
    assert (E : (12 * Z.of_nat j <? len firmware) = true)
      by (apply Z.ltb_lt; unfold len; lia);
    rewrite E; unfold PCIDeviceList.DEVICESIZE, PCIDevice.unpack, sized.
  - rewrite slice_length_short by (unfold len; lia).
    replace (Z.to_nat (len firmware - 12 * Z.of_nat j)) with m by (unfold len; lia).
    assert (En : Nat.eqb m 12 = false) by (apply Nat.eqb_neq; lia).
    rewrite En. reflexivity.
  - rewrite slice_length by (unfold len; lia).
    replace (Z.to_nat (12 * Z.of_nat j + 12 - 12 * Z.of_nat j)) with 12%nat by lia.
    cbn [Nat.eqb bind].
    replace (12 * Z.of_nat j + 12) with (12 * Z.of_nat (S j)) by lia.
    apply (IH fuel (S j) m); lia.
Qed.

End DeviceListParse.

(** The loop of [PCIDeviceList.parse] always ends: on a region of whole
    entries with the list, otherwise with struct.error. *)
Lemma PCIDeviceList_parse_total (firmware : bytes) :
  PCIDeviceList.parse firmware <> Diverge.
Proof.
  unfold PCIDeviceList.parse.
  pose proof (Nat.div_mod_eq (List.length firmware) 12) as Hd.
  pose proof (Nat.mod_upper_bound (List.length firmware) 12 ltac:(lia)) as Hm.
  change 0 with (12 * Z.of_nat 0).
  destruct (Nat.eq_dec (List.length firmware mod 12) 0) as [Hz | Hnz].
  - rewrite (parse_loop_aligned firmware (List.length firmware / 12)) by lia.
    discriminate.
  - rewrite (parse_loop_misaligned firmware (List.length firmware / 12) _ 0
               (List.length firmware mod 12)) by lia.
    discriminate.
Qed.

Lemma PCIDeviceList_parse_whole_region_aux (firmware : bytes) (k : nat) :
  List.length firmware = (12 * k)%nat ->
  exists devs,
    PCIDeviceList.parse firmware = Ok (PCIDeviceList.mk devs, len firmware).
Proof.
  intro Hlen. exists (map (entry_at firmware) (seq 0 k)).
  unfold PCIDeviceList.parse. change 0 with (12 * Z.of_nat 0).
  rewrite (parse_loop_aligned firmware k) by lia. reflexivity.
Qed.

(** C6: on a region of [12 * k] bytes [PCIDeviceList.parse] returns exactly
    [k] entries and reports the whole region consumed; entry [i] is the one
    decoded from bytes [12 i .. 12 i + 12), whatever the entries before it
    hold, so an all-zero entry does not end the list. *)
Theorem PCIDeviceList_parse_whole_region (firmware : bytes) (k : nat) :
  List.length firmware = (12 * k)%nat ->
  exists devs,
    PCIDeviceList.parse firmware = Ok (PCIDeviceList.mk devs, len firmware)
    /\ List.length devs = k
    /\ forall i, (i < k)%nat ->
         nth_error devs i
         = Some (PCIDevice.of_bytes
                   (slice firmware (12 * Z.of_nat i) (12 * Z.of_nat i + 12))).
Proof.
  intro Hlen. exists (map (entry_at firmware) (seq 0 k)). split; [ | split].
  - unfold PCIDeviceList.parse. change 0 with (12 * Z.of_nat 0).
    rewrite (parse_loop_aligned firmware k) by lia. reflexivity.
  - rewrite length_map, length_seq. reflexivity.
  - intros i Hi. rewrite nth_error_map, nth_error_seq.
    assert (E : Nat.ltb i k = true) by (apply Nat.ltb_lt; exact Hi).
    rewrite E. reflexivity.
Qed.

(** A region of [12 * q + m] bytes, with [0 < m < 12], is refused. *)
Lemma PCIDeviceList_parse_stray_bytes (firmware : bytes) (q m : nat) :
  (0 < m < 12)%nat ->
  List.length firmware = (12 * q + m)%nat ->
  PCIDeviceList.parse firmware = Raise StructError.
Proof.
  intros Hm Hlen. unfold PCIDeviceList.parse. change 0 with (12 * Z.of_nat 0).
  apply (parse_loop_misaligned firmware q _ 0 m); lia.
Qed.

(** C7: on a region whose length is not a multiple of 12
    [PCIDeviceList.parse] raises struct.error; no list is returned. *)
Theorem PCIDeviceList_parse_misaligned (firmware : bytes) :
  (List.length firmware mod 12 <> 0)%nat ->
  PCIDeviceList.parse firmware = Raise StructError.
Proof.
  intro Hnz.
  pose proof (Nat.div_mod_eq (List.length firmware) 12) as Hd.
  pose proof (Nat.mod_upper_bound (List.length firmware) 12 ltac:(lia)) as Hm.
  apply (PCIDeviceList_parse_stray_bytes firmware (List.length firmware / 12)
           (List.length firmware mod 12)); lia.
Qed.

Lemma PCIDeviceList_parse_whole_region_witness :
  List.length two_entries = (12 * 2)%nat
  /\ exists devs,
       PCIDeviceList.parse two_entries = Ok (PCIDeviceList.mk devs, len two_entries)
       /\ List.length devs = 2%nat
       /\ forall i, (i < 2)%nat ->
            nth_error devs i
            = Some (PCIDevice.of_bytes
                      (slice two_entries (12 * Z.of_nat i) (12 * Z.of_nat i + 12))).
Proof.
  split; [reflexivity | apply (PCIDeviceList_parse_whole_region two_entries 2); reflexivity].
Defined.

(** The entry after the all-zero one is kept. *)
Example parse_two_entries :
  PCIDeviceList.parse two_entries
  = Ok (PCIDeviceList.mk [PCIDevice.mk 0 0 0 0 0 0; PCIDevice.mk 0x8086 0x1563 0 0 0 0], 24).
Proof. reflexivity. Qed.

Lemma PCIDeviceList_parse_misaligned_witness :
  (List.length (repeat x00 13) mod 12 <> 0)%nat
  /\ PCIDeviceList.parse (repeat x00 13) = Raise StructError.
Proof.
  split; [ | apply PCIDeviceList_parse_misaligned]; vm_compute; discriminate.
Defined.

(** ** recalculateHeaders *)

Lemma recalculateHeaders_lengths_aux (c : FLBChunk.t) :
  FLBHeader.header_length (FLBChunk.header (FLBChunk.recalculateHeaders c))
  = 98 + 41 + len (PCIDeviceList.devices (FLBChunk.pcidevices c)) * 12
  /\ FLBHeader.data_length (FLBChunk.header (FLBChunk.recalculateHeaders c))
     = len (FirmwareData.firmware (FLBChunk.firmware c)).
Proof.
  split; reflexivity.
Qed.

(** C2: after [recalculateHeaders] the header length is
    98 + 41 + 12 * (number of device entries) and the data length is the
    payload's length, whatever the two fields held before. *)
Theorem recalculateHeaders_lengths (c : FLBChunk.t) :
  let c' := FLBChunk.recalculateHeaders c in
  FLBHeader.header_length (FLBChunk.header c')
  = 98 + 41 + 12 * len (PCIDeviceList.devices (FLBChunk.pcidevices c))
  /\ FLBHeader.data_length (FLBChunk.header c')
     = len (FirmwareData.firmware (FLBChunk.firmware c)).
Proof.
  unfold FLBChunk.recalculateHeaders.
  cbn [FLBChunk.header FLBHeader.header_length FLBHeader.data_length].
  unfold FLBHeader.HEADERSIZE, PCIDetails.HEADERSIZE, PCIDeviceList.DEVICESIZE.
  split; [lia | reflexivity].
Qed.

(** C10: [recalculateHeaders] leaves the magic, unknown1, delimiter,
    description and version of the header, the classification record, the
    device list, the payload and the chunk number as they were. *)
Theorem recalculateHeaders_frame (c : FLBChunk.t) :
  let c' := FLBChunk.recalculateHeaders c in
  let h := FLBChunk.header c in
  let h' := FLBChunk.header c' in
  FLBHeader.magic h' = FLBHeader.magic h
  /\ FLBHeader.unknown1 h' = FLBHeader.unknown1 h
  /\ FLBHeader.delimiter h' = FLBHeader.delimiter h
  /\ FLBHeader.description h' = FLBHeader.description h
  /\ FLBHeader.version1 h' = FLBHeader.version1 h
  /\ FLBHeader.version2 h' = FLBHeader.version2 h
  /\ FLBHeader.version3 h' = FLBHeader.version3 h
  /\ FLBChunk.pcidetails c' = FLBChunk.pcidetails c
  /\ FLBChunk.pcidevices c' = FLBChunk.pcidevices c
  /\ FLBChunk.firmware c' = FLBChunk.firmware c
  /\ FLBChunk.chunknum c' = FLBChunk.chunknum c.
Proof.
  cbn. repeat split.
Qed.

(** Recalculating twice is recalculating once. *)
Lemma recalculateHeaders_idempotent (c : FLBChunk.t) :
  FLBChunk.recalculateHeaders (FLBChunk.recalculateHeaders c)
  = FLBChunk.recalculateHeaders c.
Proof. reflexivity. Qed.

(** ** Fixed-width strings and text *)

Lemma pack_s_length (w : nat) (s : bytes) : List.length (pack_s w s) = w.
Proof.
  unfold pack_s. rewrite length_firstn, length_app, repeat_length. lia.
Qed.

Lemma firstn_repeat_le {A : Type} (x : A) (n m : nat) :
  (n <= m)%nat -> firstn n (repeat x m) = repeat x n.
Proof.
  revert m; induction n as [ | n IH]; intros m H; [reflexivity | ].
  destruct m as [ | m]; [lia | ]. cbn [repeat firstn]. rewrite IH by lia. reflexivity.
Qed.

Lemma pack_s_short (w : nat) (s : bytes) :
  (List.length s <= w)%nat -> pack_s w s = s ++ repeat x00 (w - List.length s).
Proof.
  intro H. unfold pack_s. rewrite firstn_app, firstn_all2 by exact H.
  f_equal. apply firstn_repeat_le. lia.
Qed.

Lemma pack_s_long (w : nat) (s : bytes) :
  (w <= List.length s)%nat -> pack_s w s = firstn w s.
Proof.
  intro H. unfold pack_s. rewrite firstn_app.
  replace (w - List.length s)%nat with 0%nat by lia.
  simpl. apply app_nil_r.
Qed.

Lemma pack_s_exact (w : nat) (s : bytes) : List.length s = w -> pack_s w s = s.
Proof.
  intro H. rewrite pack_s_long by lia. apply firstn_all2. lia.
Qed.

Lemma encode_ascii_Ok (t : text) (bs : bytes) :
  encode_ascii t = Ok bs -> forallb is_ascii t = true /\ bs = map byte_of_Z t.
Proof.
  unfold encode_ascii. destruct (forallb is_ascii t); intro H; [ | discriminate].
  injection H as <-. split; reflexivity.
Qed.

Lemma encode_ascii_text (t : text) :
  forallb is_ascii t = true -> encode_ascii t = Ok (map byte_of_Z t).
Proof.
  intro H. unfold encode_ascii. rewrite H. reflexivity.
Qed.

Lemma is_ascii_range (c : Z) : is_ascii c = true <-> 0 <= c < 128.
Proof.
  unfold is_ascii. rewrite andb_true_iff, Z.leb_le, Z.ltb_lt. reflexivity.
Qed.

Lemma text_of_encoded (t : text) :
  forallb is_ascii t = true -> text_of_bytes (map byte_of_Z t) = t.
Proof.
  unfold text_of_bytes. induction t as [ | c t IH]; [reflexivity | ].
  cbn [forallb map]. rewrite andb_true_iff. intros [Hc Ht].
  apply is_ascii_range in Hc.
  rewrite byte_val_of_small by lia. rewrite IH by exact Ht. reflexivity.
Qed.

(** The bytes of a text that is ASCII encode to themselves. *)
Lemma encode_text_of_bytes (bs : bytes) :
  forallb is_ascii (text_of_bytes bs) = true ->
  encode_ascii (text_of_bytes bs) = Ok bs.
Proof.
  intro H. rewrite encode_ascii_text by exact H. f_equal.
  unfold text_of_bytes. rewrite map_map.
  rewrite (map_ext _ (fun b => b)) by apply byte_of_val. apply map_id.
Qed.

Lemma text_of_bytes_app (a b : bytes) :
  text_of_bytes (a ++ b) = text_of_bytes a ++ text_of_bytes b.
Proof. apply map_app. Qed.

Lemma text_of_padding (k : nat) : text_of_bytes (repeat x00 k) = repeat 0 k.
Proof.
  unfold text_of_bytes. induction k as [ | k IH]; [reflexivity | ].
  cbn [repeat map]. rewrite IH. reflexivity.
Qed.

Lemma strip_nulls_app (a b : text) :
  strip_nulls (a ++ b) = strip_nulls a ++ strip_nulls b.
Proof. apply filter_app. Qed.

Lemma strip_nulls_padding (k : nat) : strip_nulls (repeat 0 k) = [].
Proof.
  induction k as [ | k IH]; [reflexivity | exact IH].
Qed.

Lemma strip_nulls_nonnull (t : text) :
  forallb nonnull t = true -> strip_nulls t = t.
Proof.
  induction t as [ | c t IH]; [reflexivity | ].
  cbn [forallb]. rewrite andb_true_iff. intros [Hc Ht].
  unfold strip_nulls in *. cbn [filter]. unfold nonnull in Hc. rewrite Hc.
  rewrite IH by exact Ht. reflexivity.
Qed.

Lemma forallb_firstn {A : Type} (p : A -> bool) (n : nat) (l : list A) :
  forallb p l = true -> forallb p (firstn n l) = true.
Proof.
  revert l; induction n as [ | n IH]; intros [ | x l]; try reflexivity.
  cbn [forallb firstn]. rewrite !andb_true_iff. intros [Hx Hl].
  split; [exact Hx | apply IH; exact Hl].
Qed.

(** What a parse reads back from the fixed-width field a text was packed
    into: the text cut at the field's width, when it holds no null. *)
Lemma field_text_roundtrip (w : nat) (t : text) :
  forallb is_ascii t = true -> forallb nonnull t = true ->
  strip_nulls (text_of_bytes (pack_s w (map byte_of_Z t))) = firstn w t.
Proof.
  intros Ha Hn.
  destruct (Nat.le_gt_cases (List.length t) w) as [Hle | Hgt].
  - rewrite pack_s_short by (rewrite length_map; exact Hle).
    rewrite text_of_bytes_app, text_of_padding, strip_nulls_app, strip_nulls_padding.
    rewrite app_nil_r, text_of_encoded by exact Ha.
    rewrite strip_nulls_nonnull by exact Hn.
    symmetry. apply firstn_all2. exact Hle.
  - rewrite pack_s_long by (rewrite length_map; lia).
    rewrite firstn_map, text_of_encoded by (apply forallb_firstn; exact Ha).
    apply strip_nulls_nonnull. apply forallb_firstn. exact Hn.
Qed.

(** ** The header codec *)

Lemma slice_prefix {A : Type} (a b : list A) (n : Z) :
  len a = n -> slice (a ++ b) 0 n = a.
Proof.
  intros <-. unfold len. rewrite slice_nonneg by lia.
  rewrite Nat2Z.id. cbn [Z.to_nat skipn]. rewrite Nat.sub_0_r.
  apply firstn_app_exact. reflexivity.
Qed.

Lemma slice_whole {A : Type} (a : list A) (n : Z) :
  len a = n -> slice a 0 n = a.
Proof.
  intro H. rewrite <- (app_nil_r a) at 1. apply slice_prefix. exact H.
Qed.

Lemma field_skip (a rest : bytes) (off w k : nat) :
  List.length a = k -> (k <= off)%nat ->
  field (a ++ rest) off w = field rest (off - k) w.
Proof.
  intros Ha Hk. unfold field. rewrite skipn_app.
  rewrite skipn_all2 by lia. rewrite Ha. reflexivity.
Qed.

Lemma field_here (x rest : bytes) (w : nat) :
  List.length x = w -> field (x ++ rest) 0 w = x.
Proof.
  intro Hx. unfold field. cbn [skipn]. apply firstn_app_exact. exact Hx.
Qed.

Lemma field_last (x : bytes) (w : nat) : List.length x = w -> field x 0 w = x.
Proof.
  intro Hx. unfold field. cbn [skipn]. apply firstn_all2. lia.
Qed.

(** Reads the field at the front of a concatenation, then steps over it. *)
Ltac next_piece x H k :=
  first [rewrite (field_here x) by exact H | rewrite (field_last x) by exact H];
  try (rewrite !(field_skip x _ _ _ k) by (first [exact H | lia]); cbn [Nat.sub]).

Lemma FLBHeader_unpack_pieces (m bhl bu1 bdl bde d bv1 bv2 bv3 : bytes) :
  List.length m = 4%nat -> List.length bhl = 4%nat -> List.length bu1 = 1%nat ->
  List.length bdl = 4%nat -> List.length bde = 2%nat -> List.length d = 80%nat ->
  List.length bv1 = 1%nat -> List.length bv2 = 1%nat -> List.length bv3 = 1%nat ->
  FLBHeader.unpack (m ++ bhl ++ bu1 ++ bdl ++ bde ++ d ++ bv1 ++ bv2 ++ bv3)
  = Ok (m, le_value bhl, le_value bu1, le_value bdl, le_value bde, d,
        le_value bv1, le_value bv2, le_value bv3).
Proof.
  intros H1 H2 H3 H4 H5 H6 H7 H8 H9. unfold FLBHeader.unpack, sized.
  rewrite !length_app, H1, H2, H3, H4, H5, H6, H7, H8, H9. cbn [Nat.add Nat.eqb].
  next_piece m H1 4%nat. next_piece bhl H2 4%nat. next_piece bu1 H3 1%nat.
  next_piece bdl H4 4%nat. next_piece bde H5 2%nat. next_piece d H6 80%nat.
  next_piece bv1 H7 1%nat. next_piece bv2 H8 1%nat. next_piece bv3 H9 1%nat.
  reflexivity.
Qed.

(** Writes the bounds of the 'B', 'H' and 'I' formats as plain powers. *)
Ltac widths :=
  change (2 ^ (8 * Z.of_nat 1)) with (2 ^ 8) in *;
  change (2 ^ (8 * Z.of_nat 2)) with (2 ^ 16) in *;
  change (2 ^ (8 * Z.of_nat 4)) with (2 ^ 32) in *.

Lemma header_image_length (h : FLBHeader.t) : List.length (header_image h) = 98%nat.
Proof.
  unfold header_image. rewrite !length_app, !pack_s_length, !le_bytes_length. reflexivity.
Qed.

Lemma FLBHeader_write_Ok (h : FLBHeader.t) (out out' : bytes) :
  FLBHeader.writeToFLB h out = Ok out' ->
  forallb is_ascii (FLBHeader.magic h) = true
  /\ forallb is_ascii (FLBHeader.description h) = true
  /\ header_numbers_fit h
  /\ out' = out ++ header_image h.
Proof.
  unfold FLBHeader.writeToFLB, FLBHeader.pack. intro H.
  bind_inv H. bind_inv H. bind_inv H.
  apply encode_ascii_Ok in E as [Hm ->]. apply encode_ascii_Ok in E0 as [Hd ->].
  injection H as <-.
  do 7 bind_inv E1. injection E1 as <-.
  apply pack_uint_Ok in E as [? ->]. apply pack_uint_Ok in E0 as [? ->].
  apply pack_uint_Ok in E2 as [? ->]. apply pack_uint_Ok in E3 as [? ->].
  apply pack_uint_Ok in E4 as [? ->]. apply pack_uint_Ok in E5 as [? ->].
  apply pack_uint_Ok in E6 as [? ->].
  widths. unfold header_numbers_fit. repeat split; first [assumption | lia].
Qed.

Lemma FLBHeader_write_fit (h : FLBHeader.t) (out : bytes) :
  forallb is_ascii (FLBHeader.magic h) = true ->
  forallb is_ascii (FLBHeader.description h) = true ->
  header_numbers_fit h ->
  FLBHeader.writeToFLB h out = Ok (out ++ header_image h).
Proof.
  intros Hm Hd (H1 & H2 & H3 & H4 & H5 & H6 & H7).
  unfold FLBHeader.writeToFLB, FLBHeader.pack.
  rewrite !encode_ascii_text by assumption. cbn [bind].
  rewrite !pack_uint_in_range by (widths; assumption). reflexivity.
Qed.

Lemma FLBHeader_parse_image (h : FLBHeader.t) :
  header_numbers_fit h ->
  FLBHeader.parse (header_image h) = Ok (header_reread h, 98).
Proof.
  intros (H1 & H2 & H3 & H4 & H5 & H6 & H7).
  unfold FLBHeader.parse, FLBHeader.HEADERSIZE.
  rewrite slice_whole by (unfold len; rewrite header_image_length; reflexivity).
  unfold header_image.
  rewrite FLBHeader_unpack_pieces
    by first [apply pack_s_length | apply le_bytes_length].
  cbn [bind]. rewrite !le_value_le_bytes by (widths; assumption). reflexivity.
Qed.

(** ** The description field *)

(** C8: a description of at most 80 characters, all ASCII and none null, is
    encoded as its bytes followed by null bytes up to 80, and is read back
    unchanged by the field decoding.  Through the header: a header with this
    description, an ASCII magic and numbers that fit their formats is written
    by [FLBHeader.writeToFLB] without error, the description field of the 98
    bytes written is the text followed by null bytes up to 80, and
    [FLBHeader.parse] reads from these bytes a header with the same
    description. *)
Theorem description_roundtrip (d : text) :
  (List.length d <= 80)%nat ->
  forallb is_ascii d = true ->
  forallb nonnull d = true ->
  exists e,
    encode_ascii d = Ok e
    /\ pack_s 80 e = e ++ repeat x00 (80 - List.length d)
    /\ strip_nulls (text_of_bytes (pack_s 80 e)) = d
    /\ forall (h : FLBHeader.t) (out : bytes),
         FLBHeader.description h = d ->
         forallb is_ascii (FLBHeader.magic h) = true ->
         header_numbers_fit h ->
         exists packed h',
           FLBHeader.writeToFLB h out = Ok (out ++ packed)
           /\ List.length packed = 98%nat
           /\ field packed 15 80 = e ++ repeat x00 (80 - List.length d)
           /\ FLBHeader.parse packed = Ok (h', 98)
           /\ FLBHeader.description h' = d.
Proof.
  intros Hlen Ha Hn. exists (map byte_of_Z d).
  assert (Hback : strip_nulls (text_of_bytes (pack_s 80 (map byte_of_Z d))) = d).
  { rewrite field_text_roundtrip by assumption. apply firstn_all2. exact Hlen. }
  assert (Hpad : pack_s 80 (map byte_of_Z d)
                 = map byte_of_Z d ++ repeat x00 (80 - List.length d)).
  { rewrite pack_s_short by (rewrite length_map; exact Hlen).
    rewrite length_map. reflexivity. }
  split; [apply encode_ascii_text; exact Ha | ].
  split; [exact Hpad | ].
  split; [exact Hback | ].
  intros h out Hd Hm Hfit.
  exists (header_image h), (header_reread h).
  split; [apply FLBHeader_write_fit; [exact Hm | rewrite Hd; exact Ha | exact Hfit] | ].
  split; [apply header_image_length | ].
  split.
  - unfold header_image.
    rewrite (field_skip (pack_s 4 _) _ _ _ 4) by (first [apply pack_s_length | lia]).
    rewrite (field_skip (le_bytes 4 _) _ _ _ 4) by (first [apply le_bytes_length | lia]).
    rewrite (field_skip (le_bytes 1 _) _ _ _ 1) by (first [apply le_bytes_length | lia]).
    rewrite (field_skip (le_bytes 4 _) _ _ _ 4) by (first [apply le_bytes_length | lia]).
    rewrite (field_skip (le_bytes 2 _) _ _ _ 2) by (first [apply le_bytes_length | lia]).
    cbn [Nat.sub]. rewrite field_here by apply pack_s_length.
    rewrite Hd. exact Hpad.
  - split; [apply FLBHeader_parse_image; exact Hfit | ].
    cbn [header_reread FLBHeader.description]. rewrite Hd. exact Hback.
Qed.

Lemma description_roundtrip_witness :
  exists e,
    encode_ascii (FLBHeader.description sample_header) = Ok e
    /\ pack_s 80 e = e ++ repeat x00 (80 - 3)
    /\ strip_nulls (text_of_bytes (pack_s 80 e)) = FLBHeader.description sample_header
    /\ exists packed h',
         FLBHeader.writeToFLB sample_header [xff] = Ok ([xff] ++ packed)
         /\ List.length packed = 98%nat
         /\ field packed 15 80 = e ++ repeat x00 (80 - 3)
         /\ FLBHeader.parse packed = Ok (h', 98)
         /\ FLBHeader.description h' = FLBHeader.description sample_header.
Proof.
  destruct (description_roundtrip (FLBHeader.description sample_header))
    as (e & He & Hpad & Hback & Hhdr); [cbn; lia | reflexivity | reflexivity | ].
  exists e. split; [exact He | ]. split; [exact Hpad | ]. split; [exact Hback | ].
  apply (Hhdr sample_header [xff]);
    [reflexivity | reflexivity | unfold header_numbers_fit; cbn; lia].
Defined.

(** The sample header is written and read back whole. *)
Example sample_header_roundtrip :
  exists out,
    FLBHeader.writeToFLB sample_header [] = Ok out
    /\ FLBHeader.parse out = Ok (sample_header, 98).
Proof.
  eexists; split; reflexivity.
Qed.

(** C4, as stated, fails: a description that encodes to 81 bytes is not
    refused; the header is written, with the first 80 bytes of it. *)
Lemma long_description_not_refused :
  encode_ascii (FLBHeader.description long_header) = Ok (repeat x61 81)
  /\ FLBHeader.writeToFLB long_header [] = Ok (header_image long_header)
  /\ field (header_image long_header) 15 80 = repeat x61 80.
Proof.
  repeat split.
Qed.

(** C4, amended: a header whose description is ASCII text of more than 80
    characters, and whose other fields can be packed, is written without
    error, and the description field of the 98 bytes written holds the first
    80 bytes of the description. *)
Theorem long_description_truncated (h : FLBHeader.t) (out : bytes) :
  (80 < List.length (FLBHeader.description h))%nat ->
  forallb is_ascii (FLBHeader.description h) = true ->
  forallb is_ascii (FLBHeader.magic h) = true ->
  header_numbers_fit h ->
  exists packed,
    FLBHeader.writeToFLB h out = Ok (out ++ packed)
    /\ List.length packed = 98%nat
    /\ exists e,
         encode_ascii (FLBHeader.description h) = Ok e
         /\ (80 < List.length e)%nat
         /\ field packed 15 80 = firstn 80 e.
Proof.
  intros Hlong Hd Hm Hfit. exists (header_image h).
  split; [apply FLBHeader_write_fit; assumption | ].
  split; [apply header_image_length | ].
  exists (map byte_of_Z (FLBHeader.description h)).
  split; [apply encode_ascii_text; exact Hd | ].
  split; [rewrite length_map; exact Hlong | ].
  unfold header_image.
  rewrite (field_skip (pack_s 4 _) _ _ _ 4) by (first [apply pack_s_length | lia]).
  rewrite (field_skip (le_bytes 4 _) _ _ _ 4) by (first [apply le_bytes_length | lia]).
  rewrite (field_skip (le_bytes 1 _) _ _ _ 1) by (first [apply le_bytes_length | lia]).
  rewrite (field_skip (le_bytes 4 _) _ _ _ 4) by (first [apply le_bytes_length | lia]).
  rewrite (field_skip (le_bytes 2 _) _ _ _ 2) by (first [apply le_bytes_length | lia]).
  cbn [Nat.sub]. rewrite field_here by apply pack_s_length.
  apply pack_s_long. rewrite length_map. lia.
Qed.

Lemma long_description_truncated_witness :
  (80 < List.length (FLBHeader.description long_header))%nat
  /\ exists packed,
       FLBHeader.writeToFLB long_header [] = Ok ([] ++ packed)
       /\ List.length packed = 98%nat
       /\ exists e,
            encode_ascii (FLBHeader.description long_header) = Ok e
            /\ (80 < List.length e)%nat
            /\ field packed 15 80 = firstn 80 e.
Proof.
  split; [cbn; lia | ].
  apply (long_description_truncated long_header []);
    [cbn; lia | reflexivity | reflexivity | unfold header_numbers_fit; cbn; lia].
Defined.

(** ** Parsing a chunk *)

Lemma FLBHeader_parse_exact (data : bytes) :
  List.length data = 98%nat -> FLBHeader.parse data = Ok (decoded_header data, 98).
Proof.
  intro H. unfold FLBHeader.parse, FLBHeader.HEADERSIZE.
  rewrite slice_whole by (unfold len; rewrite H; reflexivity).
  unfold FLBHeader.unpack, sized. rewrite H. reflexivity.
Qed.

Lemma FLBHeader_parse_short (data : bytes) :
  (List.length data < 98)%nat -> FLBHeader.parse data = Raise StructError.
Proof.
  intro H. unfold FLBHeader.parse, FLBHeader.unpack, sized.
  assert (E : Nat.eqb (List.length (slice data 0 FLBHeader.HEADERSIZE)) 98 = false).
  { apply Nat.eqb_neq. pose proof (slice_length_le data 0 FLBHeader.HEADERSIZE). lia. }
  rewrite E. reflexivity.
Qed.

Lemma PCIDetails_parse_exact (data : bytes) :
  List.length data = 41%nat -> PCIDetails.parse data = Ok (decoded_details data, 41).
Proof.
  intro H. unfold PCIDetails.parse, PCIDetails.HEADERSIZE.
  rewrite slice_whole by (unfold len; rewrite H; reflexivity).
  unfold PCIDetails.unpack, sized. rewrite H. reflexivity.
Qed.

Lemma PCIDetails_parse_short (data : bytes) :
  (List.length data < 41)%nat -> PCIDetails.parse data = Raise StructError.
Proof.
  intro H. unfold PCIDetails.parse, PCIDetails.unpack, sized.
  assert (E : Nat.eqb (List.length (slice data 0 PCIDetails.HEADERSIZE)) 41 = false).
  { apply Nat.eqb_neq. pose proof (slice_length_le data 0 PCIDetails.HEADERSIZE). lia. }
  rewrite E. reflexivity.
Qed.

(** A chunk needs its 139 bytes of header and classification block. *)
Lemma FLBChunk_parse_short (num : Z) (inputdata : bytes) :
  (List.length inputdata < 139)%nat ->
  FLBChunk.parse num inputdata = Raise StructError.
Proof.
  intro H. unfold FLBChunk.parse. cbv zeta.
  change (0 + FLBHeader.HEADERSIZE) with 98.
  destruct (Nat.lt_ge_cases (List.length inputdata) 98) as [Hs | Hl].
  - rewrite FLBHeader_parse_short; [reflexivity | ].
    pose proof (slice_length_le inputdata 0 98). lia.
  - rewrite FLBHeader_parse_exact by (rewrite slice_length; unfold len; lia).
    cbn [bind]. change (0 + 98 + PCIDetails.HEADERSIZE) with 139.
    change (0 + 98) with 98.
    rewrite PCIDetails_parse_short; [reflexivity | ].
    rewrite slice_length_short; unfold len; lia.
Qed.

(** With the 139 bytes present, the header and the classification block are
    read, the device list is parsed from the bytes between offset 139 and the
    declared header length, and the payload is sliced after it. *)
Lemma FLBChunk_parse_unfold (num : Z) (inputdata : bytes) :
  (139 <= List.length inputdata)%nat ->
  let hdr := decoded_header (slice inputdata 0 98) in
  let det := decoded_details (slice inputdata 98 139) in
  FLBChunk.parse num inputdata
  = ('(devs, n) <- PCIDeviceList.parse (slice inputdata 139 (FLBHeader.header_length hdr)) ;;
     Ok (FLBChunk.mk num hdr det devs
           (FirmwareData.mk
              (slice inputdata (139 + n) (139 + n + FLBHeader.data_length hdr))),
         139 + n + FLBHeader.data_length hdr)).
Proof.
  intros H hdr det. unfold FLBChunk.parse. cbv zeta.
  change (0 + FLBHeader.HEADERSIZE) with 98.
  rewrite FLBHeader_parse_exact by (rewrite slice_length; unfold len; lia).
  cbn [bind]. change (0 + 98 + PCIDetails.HEADERSIZE) with 139.
  change (0 + 98) with 98.
  rewrite PCIDetails_parse_exact by (rewrite slice_length; unfold len; lia).
  cbn [bind]. change (98 + 41) with 139. fold hdr. fold det.
  replace (139 + (FLBHeader.header_length hdr - FLBHeader.HEADERSIZE - PCIDetails.HEADERSIZE))
    with (FLBHeader.header_length hdr)
    by (unfold FLBHeader.HEADERSIZE, PCIDetails.HEADERSIZE; lia).
  reflexivity.
Qed.

Lemma field_slice (data : bytes) (lo hi : Z) (off w : nat) :
  0 <= lo -> 0 <= hi -> (off + w <= Z.to_nat hi - Z.to_nat lo)%nat ->
  field (slice data lo hi) off w = field data (Z.to_nat lo + off) w.
Proof.
  intros Hlo Hhi Hw. rewrite slice_nonneg by assumption. unfold field.
  rewrite skipn_firstn_comm, firstn_firstn, skipn_skipn.
  rewrite Nat.min_l by lia. f_equal. f_equal. lia.
Qed.

Lemma decoded_header_lengths (inputdata : bytes) :
  let hdr := decoded_header (slice inputdata 0 98) in
  FLBHeader.header_length hdr = le_value (field inputdata 4 4)
  /\ FLBHeader.data_length hdr = le_value (field inputdata 9 4).
Proof.
  cbn [decoded_header FLBHeader.header_length FLBHeader.data_length].
  rewrite !field_slice by (cbn; lia). split; reflexivity.
Qed.

Lemma decoded_details_type (inputdata : bytes) :
  PCIDetails.flb_type (decoded_details (slice inputdata 98 139))
  = le_value (field inputdata 98 4).
Proof.
  cbn [decoded_details PCIDetails.flb_type].
  rewrite field_slice by (cbn; lia). reflexivity.
Qed.

(** When [PCIDeviceList.parse] returns, the region held whole entries, all
    of them are in the list, and the count of bytes is the region's. *)
Lemma PCIDeviceList_parse_Ok (firmware : bytes) (l : PCIDeviceList.t) (n : Z) :
  PCIDeviceList.parse firmware = Ok (l, n) ->
  (List.length firmware mod 12 = 0)%nat
  /\ n = len firmware
  /\ PCIDeviceList.devices l
     = map (entry_at firmware) (seq 0 (List.length firmware / 12)).
Proof.
  intro H.
  destruct (Nat.eq_dec (List.length firmware mod 12) 0) as [Hz | Hnz].
  - pose proof (Nat.div_mod_eq (List.length firmware) 12) as Hd.
    unfold PCIDeviceList.parse in H. change 0 with (12 * Z.of_nat 0) in H.
    rewrite (parse_loop_aligned firmware (List.length firmware / 12)) in H by lia.
    injection H as <- <-. repeat split. exact Hz.
  - pose proof (Nat.div_mod_eq (List.length firmware) 12) as Hd.
    pose proof (Nat.mod_upper_bound (List.length firmware) 12 ltac:(lia)) as Hm.
    rewrite (PCIDeviceList_parse_stray_bytes firmware (List.length firmware / 12)
               (List.length firmware mod 12)) in H by lia.
    discriminate.
Qed.

Lemma PCIDeviceList_parse_empty : PCIDeviceList.parse [] = Ok (PCIDeviceList.mk [], 0).
Proof. reflexivity. Qed.

Lemma slice_empty {A : Type} (s : list A) (lo hi : Z) :
  0 <= hi <= lo -> slice s lo hi = [].
Proof.
  intro H. rewrite slice_nonneg by lia.
  replace (Z.to_nat hi - Z.to_nat lo)%nat with 0%nat by lia. reflexivity.
Qed.

(** C3, as stated, fails: with a declared header length of 100 the parse
    returns a chunk, whose device list is empty. *)
Lemma small_header_length_not_refused :
  FLBChunk.parse 0 short_length_buffer
  = Ok (FLBChunk.mk 0 short_length_header
          (PCIDetails.mk 0 (repeat 0 37)) (PCIDeviceList.mk []) (FirmwareData.mk []),
        139)
  /\ FLBHeader.header_length short_length_header < 139.
Proof.
  split; reflexivity.
Qed.

(** C3, amended: on a buffer of at least 139 bytes whose header declares a
    length below 139, [FLBChunk.parse] does not fail: the slice for the
    device list is empty, the chunk has an empty device list, and the
    payload is read from offset 139 on. *)
Theorem FLBChunk_parse_small_header_length (num : Z) (inputdata : bytes) :
  (139 <= List.length inputdata)%nat ->
  le_value (field inputdata 4 4) < 139 ->
  exists c,
    FLBChunk.parse num inputdata = Ok (c, 139 + le_value (field inputdata 9 4))
    /\ FLBHeader.header_length (FLBChunk.header c) = le_value (field inputdata 4 4)
    /\ PCIDeviceList.devices (FLBChunk.pcidevices c) = []
    /\ FirmwareData.firmware (FLBChunk.firmware c)
       = slice inputdata 139 (139 + le_value (field inputdata 9 4)).
Proof.
  intros Hlen Hsmall.
  pose proof (decoded_header_lengths inputdata) as [Hhl Hdl].
  pose proof (le_value_range (field inputdata 4 4)) as Hr.
  rewrite FLBChunk_parse_unfold by exact Hlen. cbv zeta in *.
  rewrite Hhl, Hdl.
  rewrite (slice_empty inputdata 139) by lia.
  rewrite PCIDeviceList_parse_empty. cbn [bind].
  replace (139 + 0) with 139 by lia.
  eexists. split; [reflexivity | ].
  cbn [FLBChunk.header FLBChunk.pcidevices FLBChunk.firmware
       PCIDeviceList.devices FirmwareData.firmware].
  repeat split. exact Hhl.
Qed.

Lemma FLBChunk_parse_small_header_length_witness :
  exists c,
    FLBChunk.parse 7 short_length_buffer
    = Ok (c, 139 + le_value (field short_length_buffer 9 4))
    /\ FLBHeader.header_length (FLBChunk.header c)
       = le_value (field short_length_buffer 4 4)
    /\ PCIDeviceList.devices (FLBChunk.pcidevices c) = []
    /\ FirmwareData.firmware (FLBChunk.firmware c)
       = slice short_length_buffer 139 (139 + le_value (field short_length_buffer 9 4)).
Proof.
  apply (FLBChunk_parse_small_header_length 7 short_length_buffer);
    vm_compute; [lia | reflexivity].
Defined.

(** ** The container loop *)

Lemma FLBChunk_parse_total (num : Z) (inputdata : bytes) :
  FLBChunk.parse num inputdata <> Diverge.
Proof.
  destruct (Nat.lt_ge_cases (List.length inputdata) 139) as [Hs | Hl].
  - rewrite FLBChunk_parse_short by exact Hs. discriminate.
  - rewrite FLBChunk_parse_unfold by exact Hl. cbv zeta.
    pose proof (PCIDeviceList_parse_total
                  (slice inputdata 139
                     (FLBHeader.header_length (decoded_header (slice inputdata 0 98))))) as Ht.
    destruct (PCIDeviceList.parse _) as [[l n] | e | ]; cbn [bind];
      [discriminate | discriminate | exfalso; apply Ht; reflexivity].
Qed.

(** A parsed chunk takes at least its 139 fixed bytes. *)
Lemma FLBChunk_parse_advances (num : Z) (inputdata : bytes) (c : FLBChunk.t) (n : Z) :
  FLBChunk.parse num inputdata = Ok (c, n) -> 139 <= n.
Proof.
  intro H.
  destruct (Nat.lt_ge_cases (List.length inputdata) 139) as [Hs | Hl].
  - rewrite FLBChunk_parse_short in H by exact Hs. discriminate.
  - rewrite FLBChunk_parse_unfold in H by exact Hl. cbv zeta in H.
    bind_inv H. destruct r as [l k]. ok_pair H. subst n.
    apply PCIDeviceList_parse_Ok in E as (_ & -> & _).
    pose proof (decoded_header_lengths inputdata) as [_ Hdl]. cbv zeta in Hdl.
    rewrite Hdl. pose proof (le_value_range (field inputdata 9 4)).
    unfold len. lia.
Qed.

Lemma extract_loop_total (fuel : nat) :
  forall (inputdata : bytes) (pos : Z) (all_chunks : list FLBChunk.t),
    (0 < fuel)%nat ->
    len inputdata - pos < Z.of_nat fuel ->
    extract_loop fuel inputdata pos all_chunks <> Diverge.
Proof.
  induction fuel as [ | fuel IH]; intros inputdata pos all_chunks Hpos Hfuel; [lia | ].
  cbn [extract_loop]. destruct (pos <? len inputdata) eqn:E; [ | discriminate].
  apply Z.ltb_lt in E.
  pose proof (FLBChunk_parse_total (len all_chunks) (slice_from inputdata pos)) as Ht.
  destruct (FLBChunk.parse _ _) as [[c n] | e | ] eqn:Ep; cbn [bind];
    [ | discriminate | exfalso; apply Ht; reflexivity].
  apply FLBChunk_parse_advances in Ep. apply IH; lia.
Qed.

(** The loop of [extract_firmware] always ends, with the chunks or with an
    exception. *)
Lemma extract_firmware_total (inputdata : bytes) :
  extract_firmware inputdata <> Diverge.
Proof.
  unfold extract_firmware. apply extract_loop_total; unfold len; lia.
Qed.

Lemma slice_from_length {A : Type} (s : list A) (pos : Z) :
  0 <= pos <= len s -> len (slice_from s pos) = len s - pos.
Proof.
  intro H. unfold len in *. rewrite slice_from_nonneg by lia.
  rewrite length_skipn. lia.
Qed.

Lemma slice_to_end {A : Type} (s : list A) (lo hi : Z) :
  0 <= lo -> len s <= hi -> slice s lo hi = skipn (Z.to_nat lo) s.
Proof.
  intros Hlo Hhi. unfold len in Hhi. rewrite slice_nonneg by lia.
  apply firstn_all2. rewrite length_skipn. lia.
Qed.

(** C5, as stated, fails: with two payload bytes where the header declares
    four, no error is raised; the chunk is returned with the two bytes. *)
Lemma short_payload_not_refused :
  extract_firmware short_payload_buffer
  = Ok [FLBChunk.mk 0 sample_header (PCIDetails.mk 0 (repeat 0 37))
          (PCIDeviceList.mk [PCIDevice.mk 0 0 0 0 0 0])
          (FirmwareData.mk [x01; x02])]
  /\ FLBHeader.data_length sample_header = 4.
Proof.
  split; reflexivity.
Qed.

(** C5, amended: at the last chunk of the buffer, [extract_firmware]'s loop
    raises struct.error when fewer than 139 bytes remain for the header and
    the classification block; when the header, the classification block and
    a device list of whole entries are all there and the payload is shorter
    than the declared data length, the loop ends without error, and the last
    chunk holds the bytes that remained, fewer than declared. *)
Theorem extract_loop_final_chunk (fuel : nat) (inputdata : bytes) (pos : Z)
        (all_chunks : list FLBChunk.t) :
  0 <= pos < len inputdata ->
  let rest := slice_from inputdata pos in
  let hl := le_value (field rest 4 4) in
  let dl := le_value (field rest 9 4) in
  (len rest < 139 ->
   extract_loop (S fuel) inputdata pos all_chunks = Raise StructError)
  /\ (139 <= hl -> (hl - 139) mod 12 = 0 -> hl <= len rest < hl + dl ->
      exists chunk,
        extract_loop (S (S fuel)) inputdata pos all_chunks = Ok (all_chunks ++ [chunk])
        /\ FLBHeader.data_length (FLBChunk.header chunk) = dl
        /\ FirmwareData.firmware (FLBChunk.firmware chunk) = skipn (Z.to_nat hl) rest
        /\ len (FirmwareData.firmware (FLBChunk.firmware chunk)) < dl).
Proof.
  intros Hpos rest hl dl.
  assert (E : (pos <? len inputdata) = true) by (apply Z.ltb_lt; lia).
  split.
  - intro Hshort. cbn [extract_loop]. rewrite E. fold rest.
    rewrite FLBChunk_parse_short by (unfold len in Hshort; lia). reflexivity.
  - intros Hhl Hmod Hlen.
    assert (Hrest : len rest = len inputdata - pos)
      by (apply slice_from_length; lia).
    pose proof (decoded_header_lengths rest) as [Hh Hd]. cbv zeta in Hh, Hd.
    fold hl in Hh. fold dl in Hd.
    set (region := slice rest 139 hl).
    assert (Hregion : List.length region = Z.to_nat (hl - 139))
      by (apply slice_length; lia).
    assert (Hk : List.length region = (12 * Z.to_nat ((hl - 139) / 12))%nat).
    { rewrite Hregion. pose proof (Z.div_mod (hl - 139) 12 ltac:(lia)). lia. }
    destruct (PCIDeviceList_parse_whole_region_aux region _ Hk) as [devs Hdevs].
    cbn [extract_loop]. rewrite E. fold rest.
    rewrite FLBChunk_parse_unfold by (unfold len in Hlen; lia). cbv zeta.
    rewrite Hh, Hd. fold region. rewrite Hdevs. cbn [bind].
    replace (139 + len region) with hl by (unfold len; lia).
    assert (E' : (pos + (hl + dl) <? len inputdata) = false)
      by (apply Z.ltb_ge; lia).
    rewrite E'. eexists. split; [reflexivity | ].
    cbn [FLBChunk.header FLBChunk.firmware FLBHeader.data_length FirmwareData.firmware].
    rewrite (slice_to_end rest hl) by lia.
    repeat split; [exact Hd | ].
    unfold len in *. rewrite length_skipn. lia.
Qed.

Lemma extract_loop_final_chunk_witness :
  extract_firmware (repeat x00 5) = Raise StructError
  /\ exists chunk,
       extract_firmware short_payload_buffer = Ok ([] ++ [chunk])
       /\ FLBHeader.data_length (FLBChunk.header chunk) = 4
       /\ FirmwareData.firmware (FLBChunk.firmware chunk) = [x01; x02]
       /\ len (FirmwareData.firmware (FLBChunk.firmware chunk)) < 4.
Proof.
  split.
  - apply (proj1 (extract_loop_final_chunk 5 (repeat x00 5) 0 []
                    ltac:(vm_compute; split; [discriminate | reflexivity]))).
    vm_compute. reflexivity.
  - apply (proj2 (extract_loop_final_chunk 152 short_payload_buffer 0 []
                    ltac:(vm_compute; split; [discriminate | reflexivity]))).
    + vm_compute. discriminate.
    + vm_compute. reflexivity.
    + vm_compute. split; [discriminate | reflexivity].
Defined.

(** ** What the writers emit *)

Lemma details_image_length (d : PCIDetails.t) : List.length (details_image d) = 41%nat.
Proof.
  unfold details_image. rewrite length_app, pack_s_length, le_bytes_length. reflexivity.
Qed.

Lemma device_image_length (d : PCIDevice.t) : List.length (device_image d) = 12%nat.
Proof.
  unfold device_image. rewrite !length_app, !le_bytes_length. reflexivity.
Qed.

Lemma devices_image_length (devs : list PCIDevice.t) :
  List.length (devices_image devs) = (12 * List.length devs)%nat.
Proof.
  unfold devices_image. induction devs as [ | d devs IH]; [reflexivity | ].
  cbn [flat_map List.length]. rewrite length_app, device_image_length, IH. lia.
Qed.

Lemma PCIDetails_write_Ok (d : PCIDetails.t) (out out' : bytes) :
  PCIDetails.writeToFLB d out = Ok out' ->
  details_fit d /\ out' = out ++ details_image d.
Proof.
  unfold PCIDetails.writeToFLB, PCIDetails.pack. intro H.
  bind_inv H. bind_inv H. injection H as <-.
  apply encode_ascii_Ok in E as [Hu ->].
  bind_inv E0. injection E0 as <-.
  apply pack_uint_Ok in E as [Hty ->]. widths.
  split; [split; assumption | reflexivity].
Qed.

Lemma PCIDetails_write_fit (d : PCIDetails.t) (out : bytes) :
  details_fit d -> PCIDetails.writeToFLB d out = Ok (out ++ details_image d).
Proof.
  intros [Hu Hty]. unfold PCIDetails.writeToFLB, PCIDetails.pack.
  rewrite encode_ascii_text by exact Hu. cbn [bind].
  rewrite pack_uint_in_range by (widths; exact Hty). reflexivity.
Qed.

Lemma PCIDevice_write_Ok (d : PCIDevice.t) (out out' : bytes) :
  PCIDevice.writeToFLB d out = Ok out' ->
  device_fit d /\ out' = out ++ device_image d.
Proof.
  unfold PCIDevice.writeToFLB, PCIDevice.pack. intro H.
  bind_inv H. injection H as <-. do 6 bind_inv E. injection E as <-.
  apply pack_uint_Ok in E0 as [? ->]. apply pack_uint_Ok in E1 as [? ->].
  apply pack_uint_Ok in E2 as [? ->]. apply pack_uint_Ok in E3 as [? ->].
  apply pack_uint_Ok in E4 as [? ->]. apply pack_uint_Ok in E5 as [? ->].
  widths. unfold device_fit. repeat split; first [assumption | lia].
Qed.

Lemma PCIDevice_write_fit (d : PCIDevice.t) (out : bytes) :
  device_fit d -> PCIDevice.writeToFLB d out = Ok (out ++ device_image d).
Proof.
  intros (H1 & H2 & H3 & H4 & H5 & H6). unfold PCIDevice.writeToFLB, PCIDevice.pack.
  rewrite !pack_uint_in_range by (widths; assumption). reflexivity.
Qed.

Lemma PCIDeviceList_write_Ok (devs : list PCIDevice.t) :
  forall out out' : bytes,
    PCIDeviceList.write_loop devs out = Ok out' ->
    Forall device_fit devs /\ out' = out ++ devices_image devs.
Proof.
  induction devs as [ | d devs IH]; intros out out' H; cbn [PCIDeviceList.write_loop] in H.
  - injection H as <-. split; [constructor | symmetry; apply app_nil_r].
  - bind_inv H. apply PCIDevice_write_Ok in E as [Hd ->].
    apply IH in H as [Hdevs ->].
    split; [constructor; assumption | ].
    unfold devices_image. cbn [flat_map]. rewrite <- !app_assoc. reflexivity.
Qed.

Lemma PCIDeviceList_write_fit (devs : list PCIDevice.t) :
  forall out : bytes,
    Forall device_fit devs ->
    PCIDeviceList.write_loop devs out = Ok (out ++ devices_image devs).
Proof.
  induction devs as [ | d devs IH]; intros out H; cbn [PCIDeviceList.write_loop].
  - rewrite app_nil_r. reflexivity.
  - inversion H as [ | ? ? Hd Hdevs]; subst.
    rewrite PCIDevice_write_fit by exact Hd. cbn [bind].
    rewrite IH by exact Hdevs.
    unfold devices_image. cbn [flat_map]. rewrite <- !app_assoc. reflexivity.
Qed.

Lemma FLBChunk_write_Ok (c : FLBChunk.t) (out out' : bytes) :
  FLBChunk.writeToFLB c out = Ok out' ->
  chunk_fit c /\ out' = out ++ chunk_image c.
Proof.
  unfold FLBChunk.writeToFLB, PCIDeviceList.writeToFLB, FirmwareData.writeToFLB.
  intro H. do 3 bind_inv H. injection H as <-.
  apply FLBHeader_write_Ok in E as (Hm & Hd & Hn & ->).
  apply PCIDetails_write_Ok in E0 as (Hdet & ->).
  apply PCIDeviceList_write_Ok in E1 as (Hdevs & ->).
  split; [exact (conj Hm (conj Hd (conj Hn (conj Hdet Hdevs)))) | ].
  unfold chunk_image. rewrite <- !app_assoc. reflexivity.
Qed.

Lemma FLBChunk_write_fit (c : FLBChunk.t) (out : bytes) :
  chunk_fit c -> FLBChunk.writeToFLB c out = Ok (out ++ chunk_image c).
Proof.
  intros (Hm & Hd & Hn & Hdet & Hdevs).
  unfold FLBChunk.writeToFLB, PCIDeviceList.writeToFLB, FirmwareData.writeToFLB.
  rewrite FLBHeader_write_fit by assumption. cbn [bind].
  rewrite PCIDetails_write_fit by assumption. cbn [bind].
  rewrite PCIDeviceList_write_fit by assumption. cbn [bind].
  unfold chunk_image. rewrite <- !app_assoc. reflexivity.
Qed.

(** ** The type code *)

Lemma PCIDetails_unpack_pieces (bty u : bytes) :
  List.length bty = 4%nat -> List.length u = 37%nat ->
  PCIDetails.unpack (bty ++ u) = Ok (le_value bty, u).
Proof.
  intros H1 H2. unfold PCIDetails.unpack, sized.
  rewrite length_app, H1, H2. cbn [Nat.add Nat.eqb].
  next_piece bty H1 4%nat. next_piece u H2 37%nat. reflexivity.
Qed.

Lemma PCIDetails_parse_pieces (v : Z) (u rest : bytes) :
  0 <= v < 2 ^ 32 -> List.length u = 37%nat ->
  PCIDetails.parse (le_bytes 4 v ++ u ++ rest)
  = Ok (PCIDetails.mk v (text_of_bytes u), 41).
Proof.
  intros Hv Hu. unfold PCIDetails.parse, PCIDetails.HEADERSIZE.
  rewrite app_assoc.
  rewrite slice_prefix
    by (unfold len; rewrite length_app, le_bytes_length, Hu; reflexivity).
  rewrite PCIDetails_unpack_pieces by first [apply le_bytes_length | exact Hu].
  cbn [bind]. rewrite le_value_le_bytes by (widths; exact Hv). reflexivity.
Qed.

Lemma PCIDetails_write_parsed (v : Z) (u out : bytes) :
  0 <= v < 2 ^ 32 -> List.length u = 37%nat ->
  PCIDetails.writeToFLB (PCIDetails.mk v (text_of_bytes u)) out
  = (_ <- encode_ascii (text_of_bytes u) ;; Ok (out ++ le_bytes 4 v ++ u)).
Proof.
  intros Hv Hu. unfold PCIDetails.writeToFLB, PCIDetails.pack.
  cbn [PCIDetails.unknown PCIDetails.flb_type].
  destruct (forallb is_ascii (text_of_bytes u)) eqn:Ea.
  - rewrite encode_text_of_bytes by exact Ea. cbn [bind].
    rewrite pack_uint_in_range by (widths; exact Hv). cbn [bind].
    rewrite pack_s_exact by exact Hu. reflexivity.
  - unfold encode_ascii. rewrite Ea. reflexivity.
Qed.

(** The type code sits at offset 98 of a written chunk. *)
Lemma chunk_image_type (c : FLBChunk.t) :
  field (chunk_image c) 98 4 = le_bytes 4 (PCIDetails.flb_type (FLBChunk.pcidetails c)).
Proof.
  unfold chunk_image, details_image.
  rewrite (field_skip (header_image _) _ _ _ 98)
    by (first [apply header_image_length | lia]).
  cbn [Nat.sub]. rewrite <- !app_assoc.
  apply field_here. apply le_bytes_length.
Qed.

Lemma FLBChunk_parse_Ok (num : Z) (inputdata : bytes) (c : FLBChunk.t) (n : Z) :
  FLBChunk.parse num inputdata = Ok (c, n) ->
  (139 <= List.length inputdata)%nat
  /\ exists devs k,
       PCIDeviceList.parse
         (slice inputdata 139 (le_value (field inputdata 4 4))) = Ok (devs, k)
       /\ c = FLBChunk.mk num (decoded_header (slice inputdata 0 98))
                (decoded_details (slice inputdata 98 139)) devs
                (FirmwareData.mk
                   (slice inputdata (139 + k)
                      (139 + k + le_value (field inputdata 9 4))))
       /\ n = 139 + k + le_value (field inputdata 9 4).
Proof.
  intro H.
  destruct (Nat.lt_ge_cases (List.length inputdata) 139) as [Hs | Hl].
  - rewrite FLBChunk_parse_short in H by exact Hs. discriminate.
  - split; [exact Hl | ].
    rewrite FLBChunk_parse_unfold in H by exact Hl. cbv zeta in H.
    pose proof (decoded_header_lengths inputdata) as [Hh Hd]. cbv zeta in Hh, Hd.
    rewrite Hh, Hd in H.
    bind_inv H. destruct r as [devs k]. ok_pair H.
    exists devs, k. repeat split; [exact E | congruence | congruence].
Qed.

Example unknown_type_cycle :
  exists c,
    extract_firmware unknown_type_buffer = Ok [c]
    /\ PCIDetails.flb_type (FLBChunk.pcidetails c) = 0xDEADBEEF
    /\ PCIDetails.logInfo (FLBChunk.pcidetails c) = "UNKNOWN"%string
    /\ write_firmware [c] [] = Ok unknown_type_buffer.
Proof.
  eexists. split; [vm_compute; reflexivity | ].
  repeat split.
Qed.

(** ** Reading back what was written *)

Lemma slice_middle {A : Type} (pre x post : list A) (lo hi : Z) :
  len pre = lo -> lo + len x = hi -> slice (pre ++ x ++ post) lo hi = x.
Proof.
  intros <- <-. unfold len. rewrite slice_nonneg by lia.
  rewrite Nat2Z.id. rewrite skipn_app_exact by reflexivity.
  apply firstn_app_exact. lia.
Qed.

Lemma slice_from_app {A : Type} (pre rest : list A) (pos : Z) :
  len pre = pos -> slice_from (pre ++ rest) pos = rest.
Proof.
  intros <-. unfold len. rewrite slice_from_nonneg by lia.
  rewrite Nat2Z.id. apply skipn_app_exact. reflexivity.
Qed.

Lemma len_app {A : Type} (a b : list A) : len (a ++ b) = len a + len b.
Proof.
  unfold len. rewrite length_app. lia.
Qed.

Lemma bytes_of_text_of_bytes (bs : bytes) : map byte_of_Z (text_of_bytes bs) = bs.
Proof.
  unfold text_of_bytes. rewrite map_map.
  rewrite (map_ext _ (fun b => b)) by apply byte_of_val. apply map_id.
Qed.

Lemma pack_s_firstn (w : nat) (s : bytes) : pack_s w (firstn w s) = pack_s w s.
Proof.
  destruct (Nat.le_gt_cases (List.length s) w) as [Hle | Hgt].
  - rewrite firstn_all2 by exact Hle. reflexivity.
  - rewrite (pack_s_long w s) by lia.
    apply pack_s_exact. rewrite length_firstn. lia.
Qed.

Lemma is_ascii_padded (w : nat) (t : text) :
  forallb is_ascii t = true ->
  forallb is_ascii (text_of_bytes (pack_s w (map byte_of_Z t))) = true.
Proof.
  intro H. unfold pack_s, text_of_bytes. rewrite <- firstn_map.
  apply forallb_firstn. rewrite map_app, forallb_app.
  fold (text_of_bytes (map byte_of_Z t)). rewrite text_of_encoded by exact H.
  rewrite H. cbn [andb].
  induction w as [ | w IH]; [reflexivity | exact IH].
Qed.

Lemma PCIDetails_parse_image (d : PCIDetails.t) :
  details_fit d -> PCIDetails.parse (details_image d) = Ok (details_reread d, 41).
Proof.
  intros [_ Hty]. unfold details_image.
  rewrite <- (app_nil_r (pack_s 37 _)).
  rewrite PCIDetails_parse_pieces by first [exact Hty | apply pack_s_length].
  reflexivity.
Qed.

Lemma PCIDevice_unpack_image (d : PCIDevice.t) :
  device_fit d -> PCIDevice.unpack (device_image d) = Ok d.
Proof.
  intros (H1 & H2 & H3 & H4 & H5 & H6).
  unfold PCIDevice.unpack, sized. rewrite device_image_length. cbn [Nat.eqb].
  unfold PCIDevice.of_bytes, device_image.
  assert (L : forall v, List.length (le_bytes 2 v) = 2%nat)
    by (intro v; apply le_bytes_length).
  next_piece (le_bytes 2 (PCIDevice.vendor d)) (L (PCIDevice.vendor d)) 2%nat.
  next_piece (le_bytes 2 (PCIDevice.device d)) (L (PCIDevice.device d)) 2%nat.
  next_piece (le_bytes 2 (PCIDevice.subvendor d)) (L (PCIDevice.subvendor d)) 2%nat.
  next_piece (le_bytes 2 (PCIDevice.subdevice d)) (L (PCIDevice.subdevice d)) 2%nat.
  next_piece (le_bytes 2 (PCIDevice.unk1 d)) (L (PCIDevice.unk1 d)) 2%nat.
  next_piece (le_bytes 2 (PCIDevice.unk2 d)) (L (PCIDevice.unk2 d)) 2%nat.
  rewrite !le_value_le_bytes by (widths; assumption).
  destruct d; reflexivity.
Qed.

(** The loop over a written device list, from the entry after [pre]. *)
Lemma parse_loop_image (devs : list PCIDevice.t) :
  forall (pre : bytes) (acc : list PCIDevice.t) (fuel : nat),
    Forall device_fit devs ->
    (List.length devs < fuel)%nat ->
    PCIDeviceList.parse_loop fuel (pre ++ devices_image devs) (len pre) acc
    = Ok (PCIDeviceList.mk (acc ++ devs), len (pre ++ devices_image devs)).
Proof.
  induction devs as [ | d devs IH]; intros pre acc fuel Hfit Hfuel;
    (destruct fuel as [ | fuel]; [cbn in Hfuel; lia | ]);
    cbn [PCIDeviceList.parse_loop]; unfold devices_image; cbn [flat_map].
  - rewrite !app_nil_r. rewrite Z.ltb_irrefl. reflexivity.
  - inversion Hfit as [ | ? ? Hd Hdevs]; subst.
    assert (E : (len pre <? len (pre ++ device_image d ++ flat_map device_image devs)) = true).
    { apply Z.ltb_lt. unfold len. rewrite !length_app, device_image_length. lia. }
    rewrite E. unfold PCIDeviceList.DEVICESIZE.
    rewrite slice_middle
      by (first [reflexivity | unfold len; rewrite device_image_length; lia]).
    rewrite PCIDevice_unpack_image by exact Hd. cbn [bind].
    replace (len pre + 12) with (len (pre ++ device_image d))
      by (rewrite len_app; unfold len; rewrite device_image_length; lia).
    rewrite (app_assoc pre). fold (devices_image devs).
    rewrite IH by (first [exact Hdevs | cbn in Hfuel; lia]).
    rewrite <- app_assoc. reflexivity.
Qed.

Lemma PCIDeviceList_parse_image (devs : list PCIDevice.t) :
  Forall device_fit devs ->
  PCIDeviceList.parse (devices_image devs)
  = Ok (PCIDeviceList.mk devs, 12 * len devs).
Proof.
  intro Hfit. unfold PCIDeviceList.parse.
  rewrite (parse_loop_image devs [] []); [ | exact Hfit | ].
  - cbn [app]. f_equal. f_equal. unfold len. rewrite devices_image_length. lia.
  - cbn [app]. rewrite devices_image_length. lia.
Qed.

Lemma chunk_image_length (c : FLBChunk.t) :
  len (chunk_image c)
  = 139 + 12 * len (PCIDeviceList.devices (FLBChunk.pcidevices c))
    + len (FirmwareData.firmware (FLBChunk.firmware c)).
Proof.
  unfold chunk_image, len.
  rewrite !length_app, header_image_length, details_image_length, devices_image_length.
  lia.
Qed.

Lemma FLBChunk_parse_image (num : Z) (c : FLBChunk.t) (rest : bytes) :
  chunk_fit c -> chunk_consistent c ->
  FLBChunk.parse num (chunk_image c ++ rest)
  = Ok (chunk_reread num c, len (chunk_image c)).
Proof.
  intros (Hm & Hd & Hn & Hdet & Hdevs) [Hhl Hdl].
  rewrite chunk_image_length.
  set (devs := PCIDeviceList.devices (FLBChunk.pcidevices c)) in *.
  set (fw := FirmwareData.firmware (FLBChunk.firmware c)) in *.
  unfold FLBChunk.parse, chunk_image. cbv zeta. fold devs. fold fw.
  unfold FLBHeader.HEADERSIZE, PCIDetails.HEADERSIZE.
  rewrite <- !app_assoc.
  rewrite slice_prefix by (unfold len; rewrite header_image_length; reflexivity).
  rewrite FLBHeader_parse_image by exact Hn. cbn [bind].
  rewrite slice_middle
    by (unfold len; rewrite ?header_image_length, ?details_image_length; reflexivity).
  rewrite PCIDetails_parse_image by exact Hdet. cbn [bind].
  cbn [header_reread FLBHeader.header_length FLBHeader.data_length].
  rewrite Hhl, Hdl.
  rewrite (app_assoc (header_image _)).
  rewrite slice_middle.
  2:{ rewrite len_app. unfold len.
      rewrite header_image_length, details_image_length. reflexivity. }
  2:{ unfold len. rewrite devices_image_length. lia. }
  rewrite PCIDeviceList_parse_image by exact Hdevs. cbn [bind].
  rewrite (app_assoc (header_image _ ++ _)).
  rewrite (slice_middle _ fw rest (0 + 98 + 41 + 12 * len devs)).
  2:{ rewrite !len_app. unfold len.
      rewrite header_image_length, details_image_length, devices_image_length. lia. }
  2:{ reflexivity. }
  unfold chunk_reread. fold devs. fold fw.
  do 2 f_equal.
Qed.

(** ** Round trip of a container *)

Lemma header_image_reread (h : FLBHeader.t) :
  forallb is_ascii (FLBHeader.description h) = true ->
  forallb nonnull (FLBHeader.description h) = true ->
  header_image (header_reread h) = header_image h.
Proof.
  intros Ha Hn. unfold header_image, header_reread.
  cbn [FLBHeader.magic FLBHeader.header_length FLBHeader.unknown1 FLBHeader.data_length
       FLBHeader.delimiter FLBHeader.description FLBHeader.version1 FLBHeader.version2
       FLBHeader.version3].
  rewrite bytes_of_text_of_bytes, (pack_s_exact 4) by apply pack_s_length.
  rewrite field_text_roundtrip by assumption.
  rewrite <- firstn_map, pack_s_firstn. reflexivity.
Qed.

Lemma details_image_reread (d : PCIDetails.t) :
  details_image (details_reread d) = details_image d.
Proof.
  unfold details_image, details_reread. cbn [PCIDetails.flb_type PCIDetails.unknown].
  rewrite bytes_of_text_of_bytes, (pack_s_exact 37) by apply pack_s_length.
  reflexivity.
Qed.

Lemma chunk_image_reread (num : Z) (c : FLBChunk.t) :
  chunk_fit c -> description_nonnull c ->
  chunk_image (chunk_reread num c) = chunk_image c.
Proof.
  intros (_ & Hd & _) Hn. unfold chunk_image, chunk_reread.
  cbn [FLBChunk.header FLBChunk.pcidetails FLBChunk.pcidevices FLBChunk.firmware
       PCIDeviceList.devices FirmwareData.firmware].
  rewrite header_image_reread, details_image_reread by assumption. reflexivity.
Qed.

Lemma chunk_fit_reread (num : Z) (c : FLBChunk.t) :
  chunk_fit c -> description_nonnull c -> chunk_fit (chunk_reread num c).
Proof.
  intros (Hm & Hd & Hnum & [Hu Hty] & Hdevs) Hn. unfold chunk_fit, chunk_reread.
  cbn [FLBChunk.header FLBChunk.pcidetails FLBChunk.pcidevices
       PCIDeviceList.devices header_reread FLBHeader.magic FLBHeader.description].
  split; [apply is_ascii_padded; exact Hm | ].
  split; [rewrite field_text_roundtrip by assumption; apply forallb_firstn; exact Hd | ].
  split; [exact Hnum | ].
  split; [ | exact Hdevs].
  split; [apply is_ascii_padded; exact Hu | exact Hty].
Qed.

Lemma chunk_consistent_reread (num : Z) (c : FLBChunk.t) :
  chunk_consistent c -> chunk_consistent (chunk_reread num c).
Proof.
  intro H. exact H.
Qed.

Lemma description_nonnull_reread (num : Z) (c : FLBChunk.t) :
  chunk_fit c -> description_nonnull c -> description_nonnull (chunk_reread num c).
Proof.
  intros (_ & Hd & _) Hn. unfold description_nonnull, chunk_reread.
  cbn [FLBChunk.header header_reread FLBHeader.description].
  rewrite field_text_roundtrip by assumption. apply forallb_firstn. exact Hn.
Qed.

Lemma recalculateHeaders_consistent (c : FLBChunk.t) :
  chunk_consistent (FLBChunk.recalculateHeaders c).
Proof.
  pose proof (recalculateHeaders_lengths_aux c) as [H1 H2].
  split; [rewrite H1 | exact H2].
  unfold FLBChunk.recalculateHeaders. cbn [FLBChunk.pcidevices]. lia.
Qed.

(** On a chunk whose lengths are right the recalculation changes nothing. *)
Lemma recalculateHeaders_fixed (c : FLBChunk.t) :
  chunk_consistent c -> FLBChunk.recalculateHeaders c = c.
Proof.
  destruct c as [num [m hl u1 dl de d v1 v2 v3] det devs fw].
  unfold chunk_consistent, FLBChunk.recalculateHeaders.
  cbn [FLBChunk.header FLBChunk.pcidevices FLBChunk.firmware FLBChunk.chunknum
       FLBChunk.pcidetails FLBHeader.magic FLBHeader.header_length FLBHeader.unknown1
       FLBHeader.data_length FLBHeader.delimiter FLBHeader.description
       FLBHeader.version1 FLBHeader.version2 FLBHeader.version3].
  intros [-> ->]. do 2 f_equal.
  unfold FLBHeader.HEADERSIZE, PCIDetails.HEADERSIZE, PCIDeviceList.DEVICESIZE. lia.
Qed.

Lemma write_chunks_Ok (cs : list FLBChunk.t) :
  forall out out' : bytes,
    write_chunks cs out = Ok out' ->
    Forall chunk_fit cs /\ out' = out ++ flat_map chunk_image cs.
Proof.
  induction cs as [ | c cs IH]; intros out out' H; cbn [write_chunks] in H.
  - injection H as <-. split; [constructor | symmetry; apply app_nil_r].
  - bind_inv H. apply FLBChunk_write_Ok in E as [Hc ->].
    apply IH in H as [Hcs ->].
    split; [constructor; assumption | ].
    cbn [flat_map]. rewrite <- !app_assoc. reflexivity.
Qed.

Lemma write_chunks_fit (cs : list FLBChunk.t) :
  forall out : bytes,
    Forall chunk_fit cs ->
    write_chunks cs out = Ok (out ++ flat_map chunk_image cs).
Proof.
  induction cs as [ | c cs IH]; intros out H; cbn [write_chunks].
  - rewrite app_nil_r. reflexivity.
  - inversion H as [ | ? ? Hc Hcs]; subst.
    rewrite FLBChunk_write_fit by exact Hc. cbn [bind].
    rewrite IH by exact Hcs. cbn [flat_map]. rewrite <- !app_assoc. reflexivity.
Qed.

Lemma extract_loop_image (cs : list FLBChunk.t) :
  forall (pre : bytes) (acc : list FLBChunk.t) (fuel : nat),
    Forall chunk_fit cs -> Forall chunk_consistent cs ->
    (List.length cs < fuel)%nat ->
    extract_loop fuel (pre ++ flat_map chunk_image cs) (len pre) acc
    = Ok (acc ++ reread_from (len acc) cs).
Proof.
  induction cs as [ | c cs IH]; intros pre acc fuel Hfit Hcons Hfuel;
    (destruct fuel as [ | fuel]; [cbn in Hfuel; lia | ]);
    cbn [extract_loop flat_map reread_from].
  - rewrite !app_nil_r, Z.ltb_irrefl. reflexivity.
  - inversion Hfit as [ | ? ? Hc Hcs]; subst.
    inversion Hcons as [ | ? ? Hk Hks]; subst.
    assert (E : (len pre <? len (pre ++ chunk_image c ++ flat_map chunk_image cs)) = true).
    { apply Z.ltb_lt. rewrite !len_app, chunk_image_length. unfold len. lia. }
    rewrite E. rewrite slice_from_app by reflexivity.
    rewrite FLBChunk_parse_image by assumption. cbn [bind].
    rewrite <- len_app, (app_assoc pre).
    rewrite IH by (first [assumption | cbn in Hfuel; lia]).
    rewrite <- app_assoc. cbn [app].
    replace (len (acc ++ [chunk_reread (len acc) c])) with (len acc + 1)
      by (rewrite len_app; reflexivity).
    reflexivity.
Qed.

Lemma reread_from_props (cs : list FLBChunk.t) :
  forall k : Z,
    Forall chunk_fit cs -> Forall chunk_consistent cs -> Forall description_nonnull cs ->
    Forall chunk_fit (reread_from k cs)
    /\ Forall chunk_consistent (reread_from k cs)
    /\ Forall description_nonnull (reread_from k cs)
    /\ flat_map chunk_image (reread_from k cs) = flat_map chunk_image cs
    /\ List.length (reread_from k cs) = List.length cs.
Proof.
  induction cs as [ | c cs IH]; intros k Hfit Hcons Hnn; cbn [reread_from flat_map].
  - repeat split; constructor.
  - inversion Hfit; inversion Hcons; inversion Hnn; subst.
    destruct (IH (k + 1)) as (I1 & I2 & I3 & I4 & I5); try assumption.
    split; [constructor; [apply chunk_fit_reread | ]; assumption | ].
    split; [constructor; [apply chunk_consistent_reread | ]; assumption | ].
    split; [constructor; [apply description_nonnull_reread | ]; assumption | ].
    split; [rewrite chunk_image_reread, I4 by assumption; reflexivity | ].
    cbn [List.length]. rewrite I5. reflexivity.
Qed.

Lemma recalculateHeaders_all_fixed (cs : list FLBChunk.t) :
  Forall chunk_consistent cs -> map FLBChunk.recalculateHeaders cs = cs.
Proof.
  induction 1 as [ | c cs Hc _ IH]; [reflexivity | ].
  cbn [map]. rewrite recalculateHeaders_fixed, IH by exact Hc. reflexivity.
Qed.

Lemma flat_map_image_length (cs : list FLBChunk.t) :
  (List.length cs <= List.length (flat_map chunk_image cs))%nat.
Proof.
  induction cs as [ | c cs IH]; [cbn; lia | ].
  cbn [flat_map List.length]. rewrite length_app.
  pose proof (chunk_image_length c) as H. unfold len in H. lia.
Qed.

(** C1, as stated, fails: the buffer [write_firmware] produces for this chunk
    has lengths that are not stale, yet extracting it and writing the chunks
    back, with or without a recalculation, gives another buffer: the parse
    dropped the null inside the description. *)
Lemma roundtrip_loses_inner_null :
  exists buf chunks buf',
    write_firmware [null_description_chunk] [] = Ok buf
    /\ extract_firmware buf = Ok chunks
    /\ map (fun c => FLBHeader.description (FLBChunk.header c)) chunks = [[97; 98]]
    /\ write_chunks chunks [] = Ok buf'
    /\ write_firmware chunks [] = Ok buf'
    /\ buf' <> buf.
Proof.
  do 3 eexists.
  split; [vm_compute; reflexivity | ].
  split; [vm_compute; reflexivity | ].
  split; [reflexivity | ].
  split; [vm_compute; reflexivity | ].
  split; [vm_compute; reflexivity | ].
  vm_compute. discriminate.
Qed.

Lemma recalculateHeaders_description_nonnull (cs : list FLBChunk.t) :
  Forall description_nonnull cs ->
  Forall description_nonnull (map FLBChunk.recalculateHeaders cs).
Proof.
  induction 1 as [ | c cs Hc _ IH]; cbn [map]; constructor; [exact Hc | exact IH].
Qed.

Lemma recalculateHeaders_all_consistent (cs : list FLBChunk.t) :
  Forall chunk_consistent (map FLBChunk.recalculateHeaders cs).
Proof.
  induction cs as [ | c cs IH]; cbn [map]; constructor;
    [apply recalculateHeaders_consistent | exact IH].
Qed.

(** C1, amended: a buffer that [write_firmware] produced (every chunk written
    after the recalculation of its lengths) from chunks whose descriptions
    hold no null character is extracted without error into as many chunks,
    and writing these back in order, with or without another recalculation,
    gives the same buffer, byte for byte. *)
Theorem container_roundtrip (loaded : list FLBChunk.t) (buf : bytes) :
  Forall description_nonnull loaded ->
  write_firmware loaded [] = Ok buf ->
  exists chunks,
    extract_firmware buf = Ok chunks
    /\ List.length chunks = List.length loaded
    /\ write_chunks chunks [] = Ok buf
    /\ write_firmware chunks [] = Ok buf.
Proof.
  intros Hnn Hw. unfold write_firmware in Hw.
  apply recalculateHeaders_description_nonnull in Hnn.
  pose proof (recalculateHeaders_all_consistent loaded) as Hcons.
  rewrite <- (length_map FLBChunk.recalculateHeaders loaded).
  set (cs := map FLBChunk.recalculateHeaders loaded) in *.
  apply write_chunks_Ok in Hw as [Hfit Hbuf]. cbn [app] in Hbuf.
  destruct (reread_from_props cs 0 Hfit Hcons Hnn) as (R1 & R2 & R3 & R4 & R5).
  exists (reread_from 0 cs).
  assert (Hwrite : write_chunks (reread_from 0 cs) [] = Ok buf).
  { rewrite write_chunks_fit by exact R1. rewrite R4, Hbuf. reflexivity. }
  split; [ | split; [exact R5 | split; [exact Hwrite | ]]].
  - unfold extract_firmware. subst buf.
    pose proof (flat_map_image_length cs) as Hl.
    apply (extract_loop_image cs [] []); [exact Hfit | exact Hcons | lia].
  - unfold write_firmware. rewrite recalculateHeaders_all_fixed by exact R2.
    exact Hwrite.
Qed.

Lemma container_roundtrip_witness :
  exists chunks,
    extract_firmware sample_container = Ok chunks
    /\ List.length chunks = List.length sample_chunks
    /\ write_chunks chunks [] = Ok sample_container
    /\ write_firmware chunks [] = Ok sample_container.
Proof.
  apply (container_roundtrip sample_chunks sample_container).
  - repeat constructor.
  - vm_compute. reflexivity.
Defined.

(** Scenario B of the specification: the second chunk's header length is
    98 + 41 + 48, and the two-chunk buffer parses into two chunks. *)
Example sample_container_chunks :
  exists c1 c2,
    extract_firmware sample_container = Ok [c1; c2]
    /\ FLBHeader.header_length (FLBChunk.header c1) = 151
    /\ FLBHeader.header_length (FLBChunk.header c2) = 187
    /\ len sample_container = 155 + 189.
Proof.
  do 2 eexists. split; [vm_compute; reflexivity | ]. repeat split.
Qed.


(** * Further properties of the codecs *)

(** ** Fields of a buffer *)

Lemma field_cat (data : bytes) (off w1 w2 : nat) :
  field data off (w1 + w2) = field data off w1 ++ field data (off + w1) w2.
Proof.
  unfold field. rewrite (Nat.add_comm off w1), <- skipn_skipn.
  generalize (skipn off data) as l. clear data off.
  induction w1 as [ | w1 IH]; intro l; [reflexivity | ].
  destruct l as [ | x l]; cbn [Nat.add firstn skipn app].
  - rewrite firstn_nil. reflexivity.
  - rewrite IH. reflexivity.
Qed.

Lemma field_cut (data : bytes) (off w w1 w2 off' : nat) :
  w = (w1 + w2)%nat -> off' = (off + w1)%nat ->
  field data off w = field data off w1 ++ field data off' w2.
Proof.
  intros -> ->. apply field_cat.
Qed.

Lemma field_width (data : bytes) (off w : nat) :
  (off + w <= List.length data)%nat -> List.length (field data off w) = w.
Proof.
  intro H. unfold field. rewrite length_firstn, length_skipn. lia.
Qed.

Lemma le_bytes_field (data : bytes) (off w : nat) :
  (off + w <= List.length data)%nat ->
  le_bytes w (le_value (field data off w)) = field data off w.
Proof.
  intro H. rewrite <- (field_width data off w H) at 1. apply le_bytes_le_value.
Qed.

Lemma field_firstn (data : bytes) (n off w : nat) :
  (off + w <= n)%nat -> field (firstn n data) off w = field data off w.
Proof.
  intro H. unfold field. rewrite skipn_firstn_comm, firstn_firstn.
  rewrite Nat.min_l by lia. reflexivity.
Qed.

Lemma field_whole (data : bytes) (w : nat) :
  List.length data = w -> field data 0 w = data.
Proof.
  intro H. unfold field. cbn [skipn]. apply firstn_all2. lia.
Qed.

Lemma byte_val_zero (b : byte) : byte_val b = 0 <-> b = x00.
Proof.
  split; intro H; [ | subst; reflexivity].
  rewrite <- (byte_of_val b), H. reflexivity.
Qed.

Lemma le_value_zero (bs : bytes) :
  le_value bs = 0 <-> bs = repeat x00 (List.length bs).
Proof.
  induction bs as [ | b r IH]; [split; reflexivity | ].
  cbn [le_value List.length repeat].
  pose proof (byte_val_range b) as Hb. pose proof (le_value_range r) as Hr.
  split.
  - intro H. assert (Hb0 : byte_val b = 0) by lia.
    assert (Hr0 : le_value r = 0) by lia.
    apply byte_val_zero in Hb0. apply IH in Hr0. congruence.
  - intro H. injection H as Hb0 Hr0. apply IH in Hr0.
    apply byte_val_zero in Hb0. lia.
Qed.

Lemma pack_uint_cases (w : nat) (v : Z) :
  (0 <= v < 2 ^ (8 * Z.of_nat w) /\ pack_uint w v = Ok (le_bytes w v))
  \/ (~ 0 <= v < 2 ^ (8 * Z.of_nat w) /\ pack_uint w v = Raise StructError).
Proof.
  unfold pack_uint.
  destruct ((0 <=? v) && (v <? 2 ^ (8 * Z.of_nat w))) eqn:E.
  - left. apply andb_true_iff in E. split; [lia | reflexivity].
  - right. apply andb_false_iff in E. split; [lia | reflexivity].
Qed.

(** ** The header, read and written *)

Lemma FLBHeader_parse_long (firmware : bytes) :
  (98 <= List.length firmware)%nat ->
  FLBHeader.parse firmware = Ok (decoded_header (firstn 98 firmware), 98).
Proof.
  intro H. unfold FLBHeader.parse, FLBHeader.HEADERSIZE.
  rewrite slice_nonneg by lia. cbn [Z.to_nat Pos.to_nat Pos.iter_op Nat.add Nat.sub skipn].
  unfold FLBHeader.unpack, sized. rewrite length_firstn, Nat.min_l by exact H.
  reflexivity.
Qed.

Lemma header_tiling (data : bytes) :
  List.length data = 98%nat ->
  data = field data 0 4 ++ field data 4 4 ++ field data 8 1 ++ field data 9 4
         ++ field data 13 2 ++ field data 15 80 ++ field data 95 1
         ++ field data 96 1 ++ field data 97 1.
Proof.
  intro H. rewrite <- (field_whole data 98 H) at 1.
  rewrite (field_cut data 0 98 4 94 4) by reflexivity.
  rewrite (field_cut data 4 94 4 90 8) by reflexivity.
  rewrite (field_cut data 8 90 1 89 9) by reflexivity.
  rewrite (field_cut data 9 89 4 85 13) by reflexivity.
  rewrite (field_cut data 13 85 2 83 15) by reflexivity.
  rewrite (field_cut data 15 83 80 3 95) by reflexivity.
  rewrite (field_cut data 95 3 1 2 96) by reflexivity.
  rewrite (field_cut data 96 2 1 1 97) by reflexivity.
  reflexivity.
Qed.

Lemma decoded_header_fit (data : bytes) :
  List.length data = 98%nat -> header_numbers_fit (decoded_header data).
Proof.
  intro H. unfold header_numbers_fit, decoded_header.
  cbn [FLBHeader.header_length FLBHeader.unknown1 FLBHeader.data_length
       FLBHeader.delimiter FLBHeader.version1 FLBHeader.version2 FLBHeader.version3].
  pose proof (le_value_range (field data 4 4)) as R1.
  pose proof (le_value_range (field data 8 1)) as R2.
  pose proof (le_value_range (field data 9 4)) as R3.
  pose proof (le_value_range (field data 13 2)) as R4.
  pose proof (le_value_range (field data 95 1)) as R5.
  pose proof (le_value_range (field data 96 1)) as R6.
  pose proof (le_value_range (field data 97 1)) as R7.
  rewrite field_width in R1, R2, R3, R4, R5, R6, R7 by lia.
  widths. repeat split; lia.
Qed.

Lemma strip_nulls_bytes (tb : bytes) :
  ~ In x00 tb -> strip_nulls (text_of_bytes tb) = text_of_bytes tb.
Proof.
  intro H. apply strip_nulls_nonnull. unfold text_of_bytes.
  induction tb as [ | b tb IH]; [reflexivity | ].
  cbn [map forallb]. apply andb_true_iff. split.
  - unfold nonnull. apply negb_true_iff, Z.eqb_neq. intro Hz.
    apply byte_val_zero in Hz. apply H. left. exact Hz.
  - apply IH. intro Hin. apply H. right. exact Hin.
Qed.

(** The description a parse reads from a field made of text and padding. *)
Lemma decoded_description (data tb : bytes) (k : nat) :
  field data 15 80 = tb ++ repeat x00 k -> ~ In x00 tb ->
  FLBHeader.description (decoded_header data) = text_of_bytes tb.
Proof.
  intros Hf Hn. cbn [decoded_header FLBHeader.description].
  rewrite Hf, text_of_bytes_app, text_of_padding, strip_nulls_app, strip_nulls_padding.
  rewrite app_nil_r. apply strip_nulls_bytes. exact Hn.
Qed.

Lemma header_image_decoded (data tb : bytes) (k : nat) :
  List.length data = 98%nat ->
  field data 15 80 = tb ++ repeat x00 k -> ~ In x00 tb ->
  header_image (decoded_header data) = data.
Proof.
  intros H Hf Hn. unfold header_image.
  rewrite (decoded_description data tb k Hf Hn).
  cbn [decoded_header FLBHeader.magic FLBHeader.header_length FLBHeader.unknown1
       FLBHeader.data_length FLBHeader.delimiter FLBHeader.version1
       FLBHeader.version2 FLBHeader.version3].
  rewrite !bytes_of_text_of_bytes.
  rewrite (pack_s_exact 4) by (apply field_width; lia).
  assert (Hk : (List.length tb + k = 80)%nat).
  { rewrite <- (field_width data 15 80) by lia.
    rewrite Hf, length_app, repeat_length. reflexivity. }
  rewrite pack_s_short by lia.
  replace (80 - List.length tb)%nat with k by lia. rewrite <- Hf.
  rewrite !le_bytes_field by lia.
  symmetry. apply header_tiling. exact H.
Qed.

Lemma forallb_filter {A : Type} (p : A -> bool) (l : list A) :
  forallb p (filter p l) = true.
Proof.
  induction l as [ | x l IH]; [reflexivity | ].
  cbn [filter]. destruct (p x) eqn:E; [cbn [forallb]; rewrite E, IH | ]; auto.
Qed.

Lemma filter_shorter {A : Type} (p : A -> bool) (l : list A) :
  (List.length (filter p l) <= List.length l)%nat.
Proof.
  induction l as [ | x l IH]; [apply Nat.le_refl | ].
  cbn [filter]. destruct (p x); cbn [List.length]; lia.
Qed.

Lemma FLBHeader_parse_inv (firmware : bytes) (h : FLBHeader.t) (n : Z) :
  FLBHeader.parse firmware = Ok (h, n) ->
  (98 <= List.length firmware)%nat
  /\ h = decoded_header (firstn 98 firmware) /\ n = 98.
Proof.
  intro H. destruct (Nat.lt_ge_cases (List.length firmware) 98) as [Hs | Hl].
  - rewrite FLBHeader_parse_short in H by exact Hs. discriminate.
  - rewrite FLBHeader_parse_long in H by exact Hl. ok_pair H. auto.
Qed.

(** X1: [FLBHeader.parse] fails exactly on a buffer of fewer than 98 bytes; on
    any other it returns 98 and a header whose magic is the first four bytes,
    whatever they are, and whose two lengths are the numbers at offsets 4
    and 9. *)
Theorem FLBHeader_parse_size (firmware : bytes) :
  ((List.length firmware < 98)%nat ->
   FLBHeader.parse firmware = Raise StructError)
  /\ ((98 <= List.length firmware)%nat ->
      exists h,
        FLBHeader.parse firmware = Ok (h, 98)
        /\ FLBHeader.magic h = text_of_bytes (firstn 4 firmware)
        /\ FLBHeader.header_length h = le_value (field firmware 4 4)
        /\ FLBHeader.data_length h = le_value (field firmware 9 4)).
Proof.
  split; [apply FLBHeader_parse_short | ].
  intro H. exists (decoded_header (firstn 98 firmware)).
  split; [apply FLBHeader_parse_long; exact H | ].
  cbn [decoded_header FLBHeader.magic FLBHeader.header_length FLBHeader.data_length].
  rewrite !field_firstn by lia. repeat split.
Qed.

Lemma FLBHeader_parse_size_witness :
  FLBHeader.parse (repeat x41 97) = Raise StructError
  /\ exists h,
       FLBHeader.parse (repeat x41 99) = Ok (h, 98)
       /\ FLBHeader.magic h = text_of_bytes (firstn 4 (repeat x41 99))
       /\ FLBHeader.header_length h = le_value (field (repeat x41 99) 4 4)
       /\ FLBHeader.data_length h = le_value (field (repeat x41 99) 9 4).
Proof.
  split.
  - apply (proj1 (FLBHeader_parse_size (repeat x41 97))). cbn. lia.
  - apply (proj2 (FLBHeader_parse_size (repeat x41 99))). cbn. lia.
Defined.

(** X2: Whatever the buffer, a header that [FLBHeader.parse] returns has a magic
    of four characters, numbers within their formats' ranges, and a
    description of at most 80 characters, none of them null. *)
Theorem FLBHeader_parse_invariants (firmware : bytes) (h : FLBHeader.t) (n : Z) :
  FLBHeader.parse firmware = Ok (h, n) ->
  n = 98
  /\ List.length (FLBHeader.magic h) = 4%nat
  /\ header_numbers_fit h
  /\ (List.length (FLBHeader.description h) <= 80)%nat
  /\ forallb nonnull (FLBHeader.description h) = true.
Proof.
  intro H. apply FLBHeader_parse_inv in H as (Hlen & -> & ->).
  assert (H98 : List.length (firstn 98 firmware) = 98%nat)
    by (rewrite length_firstn; lia).
  split; [reflexivity | ].
  split.
  { cbn [decoded_header FLBHeader.magic]. unfold text_of_bytes.
    rewrite length_map. apply field_width. lia. }
  split; [apply decoded_header_fit; exact H98 | ].
  cbn [decoded_header FLBHeader.description]. split.
  - unfold strip_nulls. etransitivity; [apply filter_shorter | ].
    unfold text_of_bytes. rewrite length_map, field_width by lia. apply Nat.le_refl.
  - apply (forallb_filter nonnull).
Qed.

Lemma FLBHeader_parse_invariants_witness :
  98 = 98
  /\ List.length (FLBHeader.magic sample_header) = 4%nat
  /\ header_numbers_fit sample_header
  /\ (List.length (FLBHeader.description sample_header) <= 80)%nat
  /\ forallb nonnull (FLBHeader.description sample_header) = true.
Proof.
  apply (FLBHeader_parse_invariants (header_image sample_header) sample_header 98).
  reflexivity.
Defined.

(** X3: A header parsed from a buffer is written back as the buffer's first 98
    bytes, when its magic and description are ASCII and the description
    field holds text without null followed by null padding. *)
Theorem FLBHeader_parse_write (firmware tb : bytes) (k : nat)
        (h : FLBHeader.t) (n : Z) (out : bytes) :
  FLBHeader.parse firmware = Ok (h, n) ->
  field firmware 15 80 = tb ++ repeat x00 k ->
  ~ In x00 tb ->
  forallb is_ascii (FLBHeader.magic h) = true ->
  forallb is_ascii (FLBHeader.description h) = true ->
  FLBHeader.description h = text_of_bytes tb
  /\ FLBHeader.writeToFLB h out = Ok (out ++ firstn 98 firmware).
Proof.
  intros H Hf Hn Hm Hd. apply FLBHeader_parse_inv in H as (Hlen & -> & _).
  assert (H98 : List.length (firstn 98 firmware) = 98%nat)
    by (rewrite length_firstn; lia).
  rewrite <- (field_firstn firmware 98) in Hf by lia.
  split; [apply (decoded_description _ tb k); assumption | ].
  rewrite FLBHeader_write_fit; [ | exact Hm | exact Hd | apply decoded_header_fit; exact H98].
  rewrite (header_image_decoded _ tb k) by assumption. reflexivity.
Qed.

Lemma FLBHeader_parse_write_witness :
  FLBHeader.description sample_header = text_of_bytes [x50; x58; x45]
  /\ FLBHeader.writeToFLB sample_header [xff]
     = Ok ([xff] ++ firstn 98 (header_image sample_header ++ [x01; x02])).
Proof.
  apply (FLBHeader_parse_write (header_image sample_header ++ [x01; x02])
           [x50; x58; x45] 77 sample_header 98 [xff]).
  - reflexivity.
  - reflexivity.
  - cbn. intros [H | [H | [H | H]]]; try discriminate; exact H.
  - reflexivity.
  - reflexivity.
Defined.

(** X4: What [FLBHeader.writeToFLB] does, in full: a non-ASCII character in the
    magic or the description raises the encoding error, before any number is
    looked at; otherwise a number outside its format's range raises
    struct.error; otherwise 98 bytes are appended to the output. *)
Theorem FLBHeader_write_outcome (h : FLBHeader.t) (out : bytes) :
  (forallb is_ascii (FLBHeader.magic h) && forallb is_ascii (FLBHeader.description h)
   = false ->
   FLBHeader.writeToFLB h out = Raise UnicodeError)
  /\ (forallb is_ascii (FLBHeader.magic h) && forallb is_ascii (FLBHeader.description h)
      = true ->
      (~ header_numbers_fit h -> FLBHeader.writeToFLB h out = Raise StructError)
      /\ (header_numbers_fit h ->
          exists packed,
            FLBHeader.writeToFLB h out = Ok (out ++ packed)
            /\ List.length packed = 98%nat)).
Proof.
  split.
  - intro H. unfold FLBHeader.writeToFLB, encode_ascii.
    destruct (forallb is_ascii (FLBHeader.magic h)); [ | reflexivity].
    cbn [andb] in H. rewrite H. reflexivity.
  - intro H. apply andb_true_iff in H as [Hm Hd]. split.
    + intro Hfit. unfold FLBHeader.writeToFLB, FLBHeader.pack.
      rewrite !encode_ascii_text by assumption. cbn [bind].
      destruct (pack_uint_cases 4 (FLBHeader.header_length h)) as [[R1 ->] | [_ ->]];
        [cbn [bind] | reflexivity].
      destruct (pack_uint_cases 1 (FLBHeader.unknown1 h)) as [[R2 ->] | [_ ->]];
        [cbn [bind] | reflexivity].
      destruct (pack_uint_cases 4 (FLBHeader.data_length h)) as [[R3 ->] | [_ ->]];
        [cbn [bind] | reflexivity].
      destruct (pack_uint_cases 2 (FLBHeader.delimiter h)) as [[R4 ->] | [_ ->]];
        [cbn [bind] | reflexivity].
      destruct (pack_uint_cases 1 (FLBHeader.version1 h)) as [[R5 ->] | [_ ->]];
        [cbn [bind] | reflexivity].
      destruct (pack_uint_cases 1 (FLBHeader.version2 h)) as [[R6 ->] | [_ ->]];
        [cbn [bind] | reflexivity].
      destruct (pack_uint_cases 1 (FLBHeader.version3 h)) as [[R7 ->] | [_ ->]];
        [cbn [bind] | reflexivity].
      exfalso. apply Hfit. widths. unfold header_numbers_fit. repeat split; lia.
    + intro Hfit. exists (header_image h).
      split; [apply FLBHeader_write_fit; assumption | apply header_image_length].
Qed.

Lemma FLBHeader_write_outcome_witness :
  FLBHeader.writeToFLB accent_header [] = Raise UnicodeError
  /\ FLBHeader.writeToFLB wide_version_header [] = Raise StructError
  /\ exists packed,
       FLBHeader.writeToFLB sample_header [] = Ok ([] ++ packed)
       /\ List.length packed = 98%nat.
Proof.
  split; [ | split].
  - apply (proj1 (FLBHeader_write_outcome accent_header [])). reflexivity.
  - apply (proj1 (proj2 (FLBHeader_write_outcome wide_version_header []) eq_refl)).
    unfold header_numbers_fit. cbn. lia.
  - apply (proj2 (proj2 (FLBHeader_write_outcome sample_header []) eq_refl)).
    unfold header_numbers_fit. cbn. lia.
Defined.

(** ** Device entries, read and written *)

Lemma device_tiling (data : bytes) :
  List.length data = 12%nat ->
  data = field data 0 2 ++ field data 2 2 ++ field data 4 2 ++ field data 6 2
         ++ field data 8 2 ++ field data 10 2.
Proof.
  intro H. rewrite <- (field_whole data 12 H) at 1.
  rewrite (field_cut data 0 12 2 10 2) by reflexivity.
  rewrite (field_cut data 2 10 2 8 4) by reflexivity.
  rewrite (field_cut data 4 8 2 6 6) by reflexivity.
  rewrite (field_cut data 6 6 2 4 8) by reflexivity.
  rewrite (field_cut data 8 4 2 2 10) by reflexivity.
  reflexivity.
Qed.

Lemma device_image_of_bytes (data : bytes) :
  List.length data = 12%nat -> device_image (PCIDevice.of_bytes data) = data.
Proof.
  intro H. unfold device_image, PCIDevice.of_bytes.
  cbn [PCIDevice.vendor PCIDevice.device PCIDevice.subvendor PCIDevice.subdevice
       PCIDevice.unk1 PCIDevice.unk2].
  rewrite !le_bytes_field by lia. symmetry. apply device_tiling. exact H.
Qed.

Lemma of_bytes_fit (data : bytes) :
  List.length data = 12%nat -> device_fit (PCIDevice.of_bytes data).
Proof.
  intro H. unfold device_fit, PCIDevice.of_bytes.
  cbn [PCIDevice.vendor PCIDevice.device PCIDevice.subvendor PCIDevice.subdevice
       PCIDevice.unk1 PCIDevice.unk2].
  pose proof (le_value_range (field data 0 2)) as R1.
  pose proof (le_value_range (field data 2 2)) as R2.
  pose proof (le_value_range (field data 4 2)) as R3.
  pose proof (le_value_range (field data 6 2)) as R4.
  pose proof (le_value_range (field data 8 2)) as R5.
  pose proof (le_value_range (field data 10 2)) as R6.
  rewrite field_width in R1, R2, R3, R4, R5, R6 by lia.
  widths. repeat split; lia.
Qed.

Lemma PCIDevice_unpack_inv (data : bytes) (d : PCIDevice.t) :
  PCIDevice.unpack data = Ok d ->
  List.length data = 12%nat /\ d = PCIDevice.of_bytes data.
Proof.
  unfold PCIDevice.unpack, sized.
  destruct (Nat.eqb (List.length data) 12) eqn:E; intro H; [ | discriminate].
  apply Nat.eqb_eq in E. injection H as <-. auto.
Qed.

(** X5: [PCIDevice] entries are read from exactly 12 bytes: any 12 bytes give an
    entry, whose six numbers are below 65536 and which is written back as
    the same 12 bytes; any other length raises struct.error. *)
Theorem PCIDevice_unpack_pack (data : bytes) :
  (List.length data = 12%nat ->
   exists d,
     PCIDevice.unpack data = Ok d
     /\ device_fit d
     /\ forall out, PCIDevice.writeToFLB d out = Ok (out ++ data))
  /\ (List.length data <> 12%nat -> PCIDevice.unpack data = Raise StructError).
Proof.
  split.
  - intro H. exists (PCIDevice.of_bytes data).
    split; [unfold PCIDevice.unpack, sized; rewrite H; reflexivity | ].
    split; [apply of_bytes_fit; exact H | ].
    intro out. rewrite PCIDevice_write_fit by (apply of_bytes_fit; exact H).
    rewrite device_image_of_bytes by exact H. reflexivity.
  - intro H. unfold PCIDevice.unpack, sized.
    apply Nat.eqb_neq in H. rewrite H. reflexivity.
Qed.

Lemma PCIDevice_unpack_pack_witness :
  (exists d,
     PCIDevice.unpack (skipn 12 two_entries) = Ok d
     /\ device_fit d
     /\ forall out, PCIDevice.writeToFLB d out = Ok (out ++ skipn 12 two_entries))
  /\ PCIDevice.unpack [x86; x80] = Raise StructError.
Proof.
  split.
  - apply (proj1 (PCIDevice_unpack_pack (skipn 12 two_entries))). reflexivity.
  - apply (proj2 (PCIDevice_unpack_pack [x86; x80])). cbn. lia.
Defined.

(** X6: [PCIDevice.pack] succeeds exactly on entries whose six numbers are in
    0..65535; it then gives 12 bytes from which the entry is read back; any
    other entry raises struct.error. *)
Theorem PCIDevice_pack_outcome (d : PCIDevice.t) :
  (device_fit d ->
   exists bs,
     PCIDevice.pack d = Ok bs
     /\ List.length bs = 12%nat
     /\ PCIDevice.unpack bs = Ok d)
  /\ (~ device_fit d -> PCIDevice.pack d = Raise StructError).
Proof.
  split.
  - intro Hfit. exists (device_image d).
    pose proof (PCIDevice_write_fit d [] Hfit) as Hw.
    unfold PCIDevice.writeToFLB in Hw.
    destruct (PCIDevice.pack d) as [bs | e | ]; cbn [bind app] in Hw; try discriminate.
    injection Hw as ->.
    split; [reflexivity | ].
    split; [apply device_image_length | apply PCIDevice_unpack_image; exact Hfit].
  - intro Hfit. unfold PCIDevice.pack.
    destruct (pack_uint_cases 2 (PCIDevice.vendor d)) as [[R1 ->] | [_ ->]];
      [cbn [bind] | reflexivity].
    destruct (pack_uint_cases 2 (PCIDevice.device d)) as [[R2 ->] | [_ ->]];
      [cbn [bind] | reflexivity].
    destruct (pack_uint_cases 2 (PCIDevice.subvendor d)) as [[R3 ->] | [_ ->]];
      [cbn [bind] | reflexivity].
    destruct (pack_uint_cases 2 (PCIDevice.subdevice d)) as [[R4 ->] | [_ ->]];
      [cbn [bind] | reflexivity].
    destruct (pack_uint_cases 2 (PCIDevice.unk1 d)) as [[R5 ->] | [_ ->]];
      [cbn [bind] | reflexivity].
    destruct (pack_uint_cases 2 (PCIDevice.unk2 d)) as [[R6 ->] | [_ ->]];
      [cbn [bind] | reflexivity].
    exfalso. apply Hfit. widths. unfold device_fit. repeat split; lia.
Qed.

Lemma PCIDevice_pack_outcome_witness :
  (exists bs,
     PCIDevice.pack (PCIDevice.mk 0x8086 0x1563 0x15d9 0x0903 0 0x4100) = Ok bs
     /\ List.length bs = 12%nat
     /\ PCIDevice.unpack bs = Ok (PCIDevice.mk 0x8086 0x1563 0x15d9 0x0903 0 0x4100))
  /\ PCIDevice.pack (PCIDevice.mk 0x8086 0x10000 0 0 0 0) = Raise StructError.
Proof.
  split.
  - apply (proj1 (PCIDevice_pack_outcome
                    (PCIDevice.mk 0x8086 0x1563 0x15d9 0x0903 0 0x4100))).
    unfold device_fit. cbn. lia.
  - apply (proj2 (PCIDevice_pack_outcome (PCIDevice.mk 0x8086 0x10000 0 0 0 0))).
    unfold device_fit. cbn. lia.
Defined.

Lemma gtb_zero_false (bs : bytes) :
  (le_value bs >? 0) = false <-> bs = repeat x00 (List.length bs).
Proof.
  rewrite <- le_value_zero. pose proof (le_value_range bs) as R.
  rewrite Z.gtb_ltb, Z.ltb_ge. lia.
Qed.

(** X7: On an entry read from 12 bytes, [isValid] is false exactly when the 12
    bytes are all zero: the all-zero entry is the only one not logged. *)
Theorem PCIDevice_isValid_zero (data : bytes) (d : PCIDevice.t) :
  PCIDevice.unpack data = Ok d ->
  (PCIDevice.isValid d = false <-> data = repeat x00 12).
Proof.
  intro H. apply PCIDevice_unpack_inv in H as [Hlen ->]. split.
  - unfold PCIDevice.isValid, PCIDevice.of_bytes.
    cbn [PCIDevice.vendor PCIDevice.device PCIDevice.subvendor PCIDevice.subdevice
         PCIDevice.unk1 PCIDevice.unk2].
    rewrite !orb_false_iff, !gtb_zero_false, !field_width by lia.
    intros (((((H1 & H2) & H3) & H4) & H5) & H6).
    rewrite (device_tiling data Hlen), H1, H2, H3, H4, H5, H6. reflexivity.
  - intros ->. reflexivity.
Qed.

Lemma PCIDevice_isValid_zero_witness :
  PCIDevice.isValid (PCIDevice.mk 0 0 0 0 0 0) = false <-> repeat x00 12 = repeat x00 12.
Proof.
  apply (PCIDevice_isValid_zero (repeat x00 12) (PCIDevice.mk 0 0 0 0 0 0)).
  reflexivity.
Defined.

(** ** Device lists, read and written *)

Lemma entry_at_field (region : bytes) (j : nat) :
  entry_at region j = PCIDevice.of_bytes (field region (12 * j) 12).
Proof.
  unfold entry_at, field. rewrite slice_nonneg by lia.
  replace (Z.to_nat (12 * Z.of_nat j + 12) - Z.to_nat (12 * Z.of_nat j))%nat
    with 12%nat by lia.
  replace (Z.to_nat (12 * Z.of_nat j)) with (12 * j)%nat by lia.
  reflexivity.
Qed.

(** The entries decoded from a region are written back as the region. *)
Lemma entries_image (region : bytes) (m : nat) :
  forall j : nat,
    (12 * (j + m) <= List.length region)%nat ->
    devices_image (map (entry_at region) (seq j m)) = field region (12 * j) (12 * m)
    /\ Forall device_fit (map (entry_at region) (seq j m)).
Proof.
  induction m as [ | m IH]; intros j H; cbn [seq map].
  - split; [reflexivity | constructor].
  - destruct (IH (S j)) as [I1 I2]; [lia | ].
    assert (H12 : List.length (field region (12 * j) 12) = 12%nat)
      by (apply field_width; lia).
    split.
    + unfold devices_image in *. cbn [flat_map]. rewrite I1, entry_at_field.
      rewrite device_image_of_bytes by exact H12.
      symmetry. apply field_cut; lia.
    + constructor; [rewrite entry_at_field; apply of_bytes_fit; exact H12 | exact I2].
Qed.

Lemma PCIDeviceList_write_parse_aux (region : bytes) (l : PCIDeviceList.t) (n : Z) :
  PCIDeviceList.parse region = Ok (l, n) ->
  (12 * List.length (PCIDeviceList.devices l))%nat = List.length region
  /\ forall out, PCIDeviceList.writeToFLB l out = Ok (out ++ region).
Proof.
  intro H. apply PCIDeviceList_parse_Ok in H as (Hmod & -> & Hdevs).
  pose proof (Nat.div_mod_eq (List.length region) 12) as Hd.
  destruct (entries_image region (List.length region / 12) 0) as [I1 I2]; [lia | ].
  split.
  - rewrite Hdevs, length_map, length_seq. lia.
  - intro out. unfold PCIDeviceList.writeToFLB. rewrite Hdevs.
    rewrite PCIDeviceList_write_fit by exact I2. rewrite I1.
    rewrite field_whole by lia. reflexivity.
Qed.

(** X8: A device list that [PCIDeviceList.parse] returns holds one entry per 12
    bytes of the region, the count of bytes returned is the region's length,
    and the list is written back as exactly the region: no entry is dropped
    and none is added. *)
Theorem PCIDeviceList_parse_write (region : bytes) (l : PCIDeviceList.t) (n : Z)
        (out : bytes) :
  PCIDeviceList.parse region = Ok (l, n) ->
  n = len region
  /\ (12 * List.length (PCIDeviceList.devices l))%nat = List.length region
  /\ PCIDeviceList.writeToFLB l out = Ok (out ++ region).
Proof.
  intro H. apply PCIDeviceList_parse_Ok in H as (Hmod & -> & Hdevs).
  pose proof (Nat.div_mod_eq (List.length region) 12) as Hd.
  destruct (entries_image region (List.length region / 12) 0) as [I1 I2]; [lia | ].
  split; [reflexivity | ]. split.
  - rewrite Hdevs, length_map, length_seq. lia.
  - unfold PCIDeviceList.writeToFLB. rewrite Hdevs.
    rewrite PCIDeviceList_write_fit by exact I2. rewrite I1.
    rewrite field_whole by lia. reflexivity.
Qed.

Lemma PCIDeviceList_parse_write_witness :
  24 = len two_entries
  /\ (12 * List.length
             [PCIDevice.mk 0 0 0 0 0 0; PCIDevice.mk 0x8086 0x1563 0 0 0 0])%nat
     = List.length two_entries
  /\ PCIDeviceList.writeToFLB
       (PCIDeviceList.mk [PCIDevice.mk 0 0 0 0 0 0; PCIDevice.mk 0x8086 0x1563 0 0 0 0])
       [xff]
     = Ok ([xff] ++ two_entries).
Proof.
  apply (PCIDeviceList_parse_write two_entries
           (PCIDeviceList.mk [PCIDevice.mk 0 0 0 0 0 0; PCIDevice.mk 0x8086 0x1563 0 0 0 0])
           24 [xff]).
  reflexivity.
Defined.

(** X9: What [PCIDeviceList.writeToFLB] appends is 12 bytes per entry of the
    list, nothing for an empty list, and [PCIDeviceList.parse] reads the same
    entries back from it. *)
Theorem PCIDeviceList_write_parse (l : PCIDeviceList.t) (out out' : bytes) :
  PCIDeviceList.writeToFLB l out = Ok out' ->
  exists bs,
    out' = out ++ bs
    /\ len bs = 12 * len (PCIDeviceList.devices l)
    /\ PCIDeviceList.parse bs = Ok (PCIDeviceList.mk (PCIDeviceList.devices l), len bs).
Proof.
  unfold PCIDeviceList.writeToFLB. intro H.
  apply PCIDeviceList_write_Ok in H as [Hfit ->].
  exists (devices_image (PCIDeviceList.devices l)).
  assert (Hlen : len (devices_image (PCIDeviceList.devices l))
                 = 12 * len (PCIDeviceList.devices l))
    by (unfold len; rewrite devices_image_length; lia).
  split; [reflexivity | ]. split; [exact Hlen | ].
  rewrite PCIDeviceList_parse_image by exact Hfit. rewrite Hlen. reflexivity.
Qed.

Lemma PCIDeviceList_write_parse_witness :
  exists bs,
    [xff] ++ two_entries = [xff] ++ bs
    /\ len bs = 12 * 2
    /\ PCIDeviceList.parse bs
       = Ok (PCIDeviceList.mk
               [PCIDevice.mk 0 0 0 0 0 0; PCIDevice.mk 0x8086 0x1563 0 0 0 0], len bs).
Proof.
  apply (PCIDeviceList_write_parse
           (PCIDeviceList.mk [PCIDevice.mk 0 0 0 0 0 0; PCIDevice.mk 0x8086 0x1563 0 0 0 0])
           [xff] ([xff] ++ two_entries)).
  reflexivity.
Defined.

(** ** Chunks, read and written *)

Lemma slice_field (data : bytes) (lo hi : Z) :
  0 <= lo <= hi ->
  slice data lo hi = field data (Z.to_nat lo) (Z.to_nat (hi - lo)).
Proof.
  intro H. rewrite slice_nonneg by lia. unfold field. f_equal. lia.
Qed.

Lemma slice_cat (data : bytes) (a b c : Z) :
  0 <= a <= b -> b <= c ->
  slice data a b ++ slice data b c = slice data a c.
Proof.
  intros Hab Hbc. rewrite !slice_field by lia.
  symmetry. apply field_cut; lia.
Qed.

Lemma slice_firstn (data : bytes) (n : Z) :
  0 <= n -> slice data 0 n = firstn (Z.to_nat n) data.
Proof.
  intro H. rewrite slice_nonneg by lia. cbn [Z.to_nat skipn].
  rewrite Nat.sub_0_r. reflexivity.
Qed.

Lemma details_image_decoded (data : bytes) :
  List.length data = 41%nat -> details_image (decoded_details data) = data.
Proof.
  intro H. unfold details_image, decoded_details.
  cbn [PCIDetails.flb_type PCIDetails.unknown].
  rewrite bytes_of_text_of_bytes, le_bytes_field by lia.
  rewrite (pack_s_exact 37) by (apply field_width; lia).
  rewrite <- (field_whole data 41 H) at 3.
  symmetry. apply field_cut; reflexivity.
Qed.

Lemma decoded_details_fit (data : bytes) :
  List.length data = 41%nat ->
  forallb is_ascii (PCIDetails.unknown (decoded_details data)) = true ->
  details_fit (decoded_details data).
Proof.
  intros H Ha. split; [exact Ha | ].
  cbn [decoded_details PCIDetails.flb_type].
  pose proof (le_value_range (field data 0 4)) as R.
  rewrite field_width in R by lia. widths. exact R.
Qed.

Lemma FLBChunk_parse_outcome_aux (num : Z) (inputdata : bytes) :
  let region := slice inputdata 139 (le_value (field inputdata 4 4)) in
  let dl := le_value (field inputdata 9 4) in
  ((139 <= List.length inputdata)%nat ->
   (List.length region mod 12 = 0)%nat ->
   exists c,
     FLBChunk.parse num inputdata = Ok (c, 139 + len region + dl)
     /\ (12 * List.length (PCIDeviceList.devices (FLBChunk.pcidevices c)))%nat
        = List.length region
     /\ FirmwareData.firmware (FLBChunk.firmware c)
        = slice inputdata (139 + len region) (139 + len region + dl))
  /\ ((List.length inputdata < 139)%nat \/ (List.length region mod 12 <> 0)%nat ->
      FLBChunk.parse num inputdata = Raise StructError).
Proof.
  intros region dl.
  pose proof (decoded_header_lengths inputdata) as [Hh Hd]. cbv zeta in Hh, Hd.
  pose proof (Nat.div_mod_eq (List.length region) 12) as Hdiv.
  pose proof (Nat.mod_upper_bound (List.length region) 12 ltac:(lia)) as Hm.
  split.
  - intros Hlen Hmod.
    rewrite FLBChunk_parse_unfold by exact Hlen. cbv zeta. rewrite Hh, Hd.
    fold region. fold dl.
    unfold PCIDeviceList.parse. change 0 with (12 * Z.of_nat 0).
    rewrite (parse_loop_aligned region (List.length region / 12)) by lia.
    cbn [bind]. eexists. split; [reflexivity | ].
    cbn [FLBChunk.pcidevices FLBChunk.firmware
         PCIDeviceList.devices FirmwareData.firmware app].
    rewrite length_map, length_seq. repeat split. lia.
  - intros [Hshort | Hmod]; [apply FLBChunk_parse_short; exact Hshort | ].
    destruct (Nat.lt_ge_cases (List.length inputdata) 139) as [Hs | Hl];
      [apply FLBChunk_parse_short; exact Hs | ].
    rewrite FLBChunk_parse_unfold by exact Hl. cbv zeta. rewrite Hh.
    fold region.
    rewrite (PCIDeviceList_parse_stray_bytes region (List.length region / 12)
               (List.length region mod 12)) by lia.
    reflexivity.
Qed.

(** X10: When [FLBChunk.parse] fails and when it returns: it needs the 139 fixed
    bytes, and a device region (the bytes from offset 139 up to the declared
    header length, as far as the buffer goes) of whole 12-byte entries.  It
    then returns the chunk with the number it was given, one device per 12
    bytes of the region, the payload sliced after the region, and as position
    139 plus the region's length plus the declared data length. *)
Theorem FLBChunk_parse_outcome (num : Z) (inputdata : bytes) :
  let region := slice inputdata 139 (le_value (field inputdata 4 4)) in
  let dl := le_value (field inputdata 9 4) in
  ((139 <= List.length inputdata)%nat ->
   (List.length region mod 12 = 0)%nat ->
   exists c,
     FLBChunk.parse num inputdata = Ok (c, 139 + len region + dl)
     /\ FLBChunk.chunknum c = num
     /\ (12 * List.length (PCIDeviceList.devices (FLBChunk.pcidevices c)))%nat
        = List.length region
     /\ FirmwareData.firmware (FLBChunk.firmware c)
        = slice inputdata (139 + len region) (139 + len region + dl))
  /\ ((List.length inputdata < 139)%nat \/ (List.length region mod 12 <> 0)%nat ->
      FLBChunk.parse num inputdata = Raise StructError).
Proof.
  intros region dl.
  destruct (FLBChunk_parse_outcome_aux num inputdata) as [Hok Hfail].
  split; [ | exact Hfail].
  intros Hlen Hmod. destruct (Hok Hlen Hmod) as (c & Hp & Hdevs & Hfw).
  exists c. split; [exact Hp | ]. split; [ | split; assumption].
  apply FLBChunk_parse_Ok in Hp as (_ & devs & k & _ & -> & _). reflexivity.
Qed.

Lemma FLBChunk_parse_outcome_witness :
  (exists c,
     FLBChunk.parse 3 unknown_type_buffer = Ok (c, 139 + 12 + 4)
     /\ FLBChunk.chunknum c = 3
     /\ (12 * List.length (PCIDeviceList.devices (FLBChunk.pcidevices c)))%nat = 12%nat
     /\ FirmwareData.firmware (FLBChunk.firmware c) = [x01; x02; x03; x04])
  /\ FLBChunk.parse 3 (repeat x00 5) = Raise StructError
  /\ FLBChunk.parse 3 misaligned_buffer = Raise StructError.
Proof.
  split; [ | split].
  - apply (proj1 (FLBChunk_parse_outcome 3 unknown_type_buffer)).
    + vm_compute. lia.
    + reflexivity.
  - apply (proj2 (FLBChunk_parse_outcome 3 (repeat x00 5))). left. vm_compute. lia.
  - apply (proj2 (FLBChunk_parse_outcome 3 misaligned_buffer)). right.
    vm_compute. discriminate.
Defined.

Lemma FLBChunk_parse_lengths (num : Z) (inputdata : bytes) (c : FLBChunk.t) (n : Z) :
  FLBChunk.parse num inputdata = Ok (c, n) ->
  let hl := FLBHeader.header_length (FLBChunk.header c) in
  let dl := FLBHeader.data_length (FLBChunk.header c) in
  let region := slice inputdata 139 hl in
  (139 <= List.length inputdata)%nat
  /\ hl = le_value (field inputdata 4 4)
  /\ dl = le_value (field inputdata 9 4)
  /\ 0 <= hl /\ 0 <= dl
  /\ FLBChunk.header c = decoded_header (slice inputdata 0 98)
  /\ FLBChunk.pcidetails c = decoded_details (slice inputdata 98 139)
  /\ PCIDeviceList.parse region = Ok (FLBChunk.pcidevices c, len region)
  /\ FLBChunk.firmware c
     = FirmwareData.mk (slice inputdata (139 + len region) (139 + len region + dl))
  /\ FLBChunk.chunknum c = num
  /\ n = 139 + len region + dl.
Proof.
  intro H. apply FLBChunk_parse_Ok in H as (Hlen & devs & k & Hp & -> & ->).
  cbn [FLBChunk.header FLBChunk.pcidetails FLBChunk.pcidevices FLBChunk.firmware
       FLBChunk.chunknum].
  pose proof (decoded_header_lengths inputdata) as [Hh Hd]. cbv zeta in Hh, Hd.
  rewrite Hh, Hd. cbv zeta.
  pose proof (le_value_range (field inputdata 4 4)) as R1.
  pose proof (le_value_range (field inputdata 9 4)) as R2.
  pose proof Hp as Hk. apply PCIDeviceList_parse_Ok in Hk as (_ & -> & _).
  repeat split; try lia; try exact Hlen. exact Hp.
Qed.

(** X11: When the declared header length lies within the buffer, a chunk that
    [FLBChunk.parse] returns has exactly the declared number of device
    bytes: the header length is 139 + 12 * (number of devices), the position
    returned is header length + data length, and the payload is the slice
    between the two. *)
Theorem FLBChunk_parse_regular (num : Z) (inputdata : bytes) (c : FLBChunk.t) (n : Z) :
  FLBChunk.parse num inputdata = Ok (c, n) ->
  139 <= FLBHeader.header_length (FLBChunk.header c) <= len inputdata ->
  FLBHeader.header_length (FLBChunk.header c)
  = 139 + 12 * len (PCIDeviceList.devices (FLBChunk.pcidevices c))
  /\ n = FLBHeader.header_length (FLBChunk.header c)
         + FLBHeader.data_length (FLBChunk.header c)
  /\ FirmwareData.firmware (FLBChunk.firmware c)
     = slice inputdata (FLBHeader.header_length (FLBChunk.header c)) n.
Proof.
  intros H Hhl.
  apply FLBChunk_parse_lengths in H
    as (Hlen & _ & _ & _ & Hdl & _ & _ & Hp & Hfw & _ & ->).
  cbv zeta in *.
  set (hl := FLBHeader.header_length (FLBChunk.header c)) in *.
  set (dl := FLBHeader.data_length (FLBChunk.header c)) in *.
  assert (Hr : len (slice inputdata 139 hl) = hl - 139)
    by (unfold len; rewrite slice_length by lia; lia).
  apply PCIDeviceList_write_parse_aux in Hp as (Hcount & _).
  rewrite Hfw, Hr. cbn [FirmwareData.firmware].
  replace (139 + (hl - 139)) with hl by lia.
  repeat split. unfold len in *. lia.
Qed.

Lemma FLBChunk_parse_regular_witness :
  FLBHeader.header_length (FLBChunk.header unknown_type_chunk)
  = 139 + 12 * len (PCIDeviceList.devices (FLBChunk.pcidevices unknown_type_chunk))
  /\ 155 = FLBHeader.header_length (FLBChunk.header unknown_type_chunk)
           + FLBHeader.data_length (FLBChunk.header unknown_type_chunk)
  /\ FirmwareData.firmware (FLBChunk.firmware unknown_type_chunk)
     = slice unknown_type_buffer
         (FLBHeader.header_length (FLBChunk.header unknown_type_chunk)) 155.
Proof.
  apply (FLBChunk_parse_regular 0 unknown_type_buffer unknown_type_chunk 155).
  - reflexivity.
  - vm_compute. split; discriminate.
Defined.

(** X12: A device list cut by the end of the buffer is not refused when the cut
    falls between two entries: [FLBChunk.parse] returns the chunk with the
    entries that are there, fewer than the header declares, and an empty
    payload, and its position is past the end of the buffer. *)
Theorem FLBChunk_parse_cut_list (num : Z) (inputdata : bytes) :
  (139 <= List.length inputdata)%nat ->
  len inputdata < le_value (field inputdata 4 4) ->
  ((List.length inputdata - 139) mod 12 = 0)%nat ->
  exists c,
    FLBChunk.parse num inputdata
    = Ok (c, len inputdata + le_value (field inputdata 9 4))
    /\ 139 + 12 * len (PCIDeviceList.devices (FLBChunk.pcidevices c)) = len inputdata
    /\ len inputdata < FLBHeader.header_length (FLBChunk.header c)
    /\ FirmwareData.firmware (FLBChunk.firmware c) = [].
Proof.
  intros Hlen Hhl Hmod.
  set (hl := le_value (field inputdata 4 4)) in *.
  set (dl := le_value (field inputdata 9 4)).
  pose proof (le_value_range (field inputdata 9 4)) as Rd. fold dl in Rd.
  assert (Hr : List.length (slice inputdata 139 hl) = (List.length inputdata - 139)%nat).
  { rewrite slice_length_short; unfold len in *; lia. }
  destruct (proj1 (FLBChunk_parse_outcome_aux num inputdata)) as (c & Hp & Hdevs & Hfw);
    [exact Hlen | fold hl; rewrite Hr; exact Hmod | ].
  fold hl in Hp, Hdevs, Hfw. fold dl in Hp, Hfw.
  exists c.
  assert (Hn : 139 + len (slice inputdata 139 hl) = len inputdata)
    by (unfold len in *; lia).
  rewrite <- Z.add_assoc in Hfw. rewrite Hn in Hp, Hfw.
  split; [exact Hp | ].
  split; [unfold len in *; lia | ].
  split.
  - apply FLBChunk_parse_lengths in Hp as (_ & -> & _). exact Hhl.
  - rewrite Hfw. rewrite slice_nonneg by (unfold len; lia).
    rewrite skipn_all2 by (unfold len; lia). apply firstn_nil.
Qed.

Lemma FLBChunk_parse_cut_list_witness :
  exists c,
    FLBChunk.parse 0 cut_list_buffer
    = Ok (c, len cut_list_buffer + le_value (field cut_list_buffer 9 4))
    /\ 139 + 12 * len (PCIDeviceList.devices (FLBChunk.pcidevices c)) = len cut_list_buffer
    /\ len cut_list_buffer < FLBHeader.header_length (FLBChunk.header c)
    /\ FirmwareData.firmware (FLBChunk.firmware c) = [].
Proof.
  apply (FLBChunk_parse_cut_list 0 cut_list_buffer).
  - vm_compute. lia.
  - vm_compute. reflexivity.
  - reflexivity.
Defined.

(** X13: Extract, then rebuild, one chunk: a chunk [FLBChunk.parse] read from a
    buffer that holds all of it (a declared header length of at least 139,
    header length + data length within the buffer), whose magic, description
    and 37 opaque bytes are ASCII and whose description field is text
    without null followed by null padding, is written back as the very
    bytes it was read from; [recalculateHeaders] leaves it as it is, so
    [write_firmware] writes the same. *)
Theorem FLBChunk_parse_write (num : Z) (inputdata tb : bytes) (k : nat)
        (c : FLBChunk.t) (n : Z) (out : bytes) :
  FLBChunk.parse num inputdata = Ok (c, n) ->
  139 <= FLBHeader.header_length (FLBChunk.header c) ->
  FLBHeader.header_length (FLBChunk.header c)
  + FLBHeader.data_length (FLBChunk.header c) <= len inputdata ->
  field inputdata 15 80 = tb ++ repeat x00 k ->
  ~ In x00 tb ->
  forallb is_ascii (FLBHeader.magic (FLBChunk.header c)) = true ->
  forallb is_ascii (FLBHeader.description (FLBChunk.header c)) = true ->
  forallb is_ascii (PCIDetails.unknown (FLBChunk.pcidetails c)) = true ->
  FLBChunk.writeToFLB c out = Ok (out ++ firstn (Z.to_nat n) inputdata)
  /\ FLBChunk.recalculateHeaders c = c
  /\ write_firmware [c] out = Ok (out ++ firstn (Z.to_nat n) inputdata).
Proof.
  intros H Hhl Hfull Hf Hn Hm Hd Hu.
  apply FLBChunk_parse_lengths in H
    as (Hlen & _ & _ & _ & Hdl & Hhdr & Hdet & Hp & Hfw & _ & ->).
  cbv zeta in *.
  set (hl := FLBHeader.header_length (FLBChunk.header c)) in *.
  set (dl := FLBHeader.data_length (FLBChunk.header c)) in *.
  assert (Hr : len (slice inputdata 139 hl) = hl - 139)
    by (unfold len; rewrite slice_length by (unfold len in *; lia); lia).
  rewrite Hr in *. replace (139 + (hl - 139)) with hl in * by lia.
  assert (H98 : List.length (slice inputdata 0 98) = 98%nat)
    by (rewrite slice_length; unfold len; lia).
  assert (H41 : List.length (slice inputdata 98 139) = 41%nat)
    by (rewrite slice_length; unfold len; lia).
  assert (Hf' : field (slice inputdata 0 98) 15 80 = tb ++ repeat x00 k)
    by (rewrite field_slice by (cbn; lia); exact Hf).
  pose proof (PCIDeviceList_write_parse_aux _ _ _ Hp) as (Hcount & Hwdevs).
  assert (Hwrite : FLBChunk.writeToFLB c out
                   = Ok (out ++ firstn (Z.to_nat (hl + dl)) inputdata)).
  { unfold FLBChunk.writeToFLB.
    rewrite FLBHeader_write_fit;
      [ | exact Hm | exact Hd | rewrite Hhdr; apply decoded_header_fit; exact H98].
    cbn [bind]. rewrite Hhdr, (header_image_decoded _ tb k) by assumption.
    rewrite PCIDetails_write_fit
      by (rewrite Hdet; apply decoded_details_fit; [exact H41 | rewrite <- Hdet; exact Hu]).
    cbn [bind]. rewrite Hdet, details_image_decoded by exact H41.
    rewrite Hwdevs. cbn [bind]. rewrite Hfw.
    unfold FirmwareData.writeToFLB. cbn [FirmwareData.firmware].
    rewrite <- !app_assoc. do 2 f_equal.
    rewrite slice_cat, slice_cat, slice_cat by lia.
    apply slice_firstn. lia. }
  assert (Hfix : FLBChunk.recalculateHeaders c = c).
  { apply recalculateHeaders_fixed. split; fold hl; fold dl.
    - unfold len in *. lia.
    - rewrite Hfw. cbn [FirmwareData.firmware]. unfold len.
      rewrite slice_length by (unfold len in *; lia). lia. }
  split; [exact Hwrite | ]. split; [exact Hfix | ].
  unfold write_firmware. cbn [map write_chunks]. rewrite Hfix, Hwrite. reflexivity.
Qed.

Lemma FLBChunk_parse_write_witness :
  FLBChunk.writeToFLB unknown_type_chunk [xff]
  = Ok ([xff] ++ firstn (Z.to_nat 155) (unknown_type_buffer ++ [xee]))
  /\ FLBChunk.recalculateHeaders unknown_type_chunk = unknown_type_chunk
  /\ write_firmware [unknown_type_chunk] [xff]
     = Ok ([xff] ++ firstn (Z.to_nat 155) (unknown_type_buffer ++ [xee])).
Proof.
  apply (FLBChunk_parse_write 0 (unknown_type_buffer ++ [xee]) [x50; x58; x45] 77
           unknown_type_chunk 155 [xff]).
  - reflexivity.
  - vm_compute. discriminate.
  - vm_compute. discriminate.
  - reflexivity.
  - cbn. intros [H | [H | [H | H]]]; try discriminate; exact H.
  - reflexivity.
  - reflexivity.
  - reflexivity.
Defined.

(** ** The rebuild *)

Lemma write_chunks_app (l1 l2 : list FLBChunk.t) :
  forall out : bytes,
    write_chunks (l1 ++ l2) out = (mid <- write_chunks l1 out ;; write_chunks l2 mid).
Proof.
  induction l1 as [ | c l1 IH]; intro out; cbn [app write_chunks bind]; [reflexivity | ].
  destruct (FLBChunk.writeToFLB c out) as [o | e | ]; cbn [bind]; [apply IH | | ];
    reflexivity.
Qed.

(** X14: Rebuilding a list of chunks is rebuilding its front part, then its back
    part onto the same output; an error in the front part ends the run. *)
Theorem write_firmware_app (l1 l2 : list FLBChunk.t) (out : bytes) :
  write_firmware (l1 ++ l2) out
  = (mid <- write_firmware l1 out ;; write_firmware l2 mid).
Proof.
  unfold write_firmware. rewrite map_app. apply write_chunks_app.
Qed.

Lemma flat_map_image_size (cs : list FLBChunk.t) :
  len (flat_map chunk_image cs) = fold_right Z.add 0 (map written_size cs).
Proof.
  induction cs as [ | c cs IH]; [reflexivity | ].
  cbn [flat_map map fold_right]. rewrite len_app, IH, chunk_image_length.
  reflexivity.
Qed.

(** X15: [write_firmware] only appends: what was in the output stays in front,
    what is appended does not depend on it, and its size is, summed over the
    chunks, 139 + 12 * (number of devices) + (length of the payload). *)
Theorem write_firmware_output (loaded : list FLBChunk.t) (out out' : bytes) :
  write_firmware loaded out = Ok out' ->
  exists buf,
    out' = out ++ buf
    /\ write_firmware loaded [] = Ok buf
    /\ len buf = fold_right Z.add 0 (map written_size loaded).
Proof.
  unfold write_firmware. intro H. apply write_chunks_Ok in H as [Hfit ->].
  exists (flat_map chunk_image (map FLBChunk.recalculateHeaders loaded)).
  split; [reflexivity | ].
  split; [rewrite write_chunks_fit by exact Hfit; reflexivity | ].
  rewrite flat_map_image_size, map_map. reflexivity.
Qed.

Lemma write_firmware_output_witness :
  exists buf,
    [xff] ++ sample_container = [xff] ++ buf
    /\ write_firmware sample_chunks [] = Ok buf
    /\ len buf = fold_right Z.add 0 (map written_size sample_chunks).
Proof.
  apply (write_firmware_output sample_chunks [xff] ([xff] ++ sample_container)).
  vm_compute. reflexivity.
Defined.

(** X16: [write_firmware] succeeds exactly when every chunk, once its lengths are
    recalculated, can be packed: ASCII magic, description and opaque bytes,
    header numbers and both recalculated lengths within their formats, and
    device numbers in 0..65535. *)
Theorem write_firmware_succeeds_iff (loaded : list FLBChunk.t) (out : bytes) :
  (exists out', write_firmware loaded out = Ok out')
  <-> Forall (fun c => chunk_fit (FLBChunk.recalculateHeaders c)) loaded.
Proof.
  unfold write_firmware. split.
  - intros [out' H]. apply write_chunks_Ok in H as [Hfit _].
    exact (proj1 (Forall_map FLBChunk.recalculateHeaders chunk_fit loaded) Hfit).
  - intro Hfit. eexists. apply write_chunks_fit.
    exact (proj2 (Forall_map FLBChunk.recalculateHeaders chunk_fit loaded) Hfit).
Qed.

Lemma writeToFLB_with_lengths (c : FLBChunk.t) (num hl dl : Z) (out : bytes) :
  FLBChunk.writeToFLB (FLBChunk.recalculateHeaders (with_lengths c num hl dl)) out
  = FLBChunk.writeToFLB (FLBChunk.recalculateHeaders c) out.
Proof. reflexivity. Qed.

(** X17: [write_firmware] uses neither the chunk numbers nor the header length
    and data length the chunks were loaded with: whatever these are, the
    outcome is the same. *)
Theorem write_firmware_ignores_lengths (loaded : list FLBChunk.t)
        (num hl dl : FLBChunk.t -> Z) (out : bytes) :
  write_firmware (map (fun c => with_lengths c (num c) (hl c) (dl c)) loaded) out
  = write_firmware loaded out.
Proof.
  unfold write_firmware. revert out.
  induction loaded as [ | c loaded IH]; intro out; [reflexivity | ].
  cbn [map write_chunks]. rewrite writeToFLB_with_lengths.
  destruct (FLBChunk.writeToFLB (FLBChunk.recalculateHeaders c) out) as [o | e | ];
    cbn [bind]; [apply IH | | ]; reflexivity.
Qed.

Lemma reread_from_map {B : Type} (f g : FLBChunk.t -> B) (cs : list FLBChunk.t) :
  (forall k c, f (chunk_reread k c) = g c) ->
  forall k, map f (reread_from k cs) = map g cs.
Proof.
  intro H. induction cs as [ | c cs IH]; intro k; [reflexivity | ].
  cbn [reread_from map]. rewrite H, IH. reflexivity.
Qed.

Lemma reread_from_numbers (cs : list FLBChunk.t) :
  forall k : nat,
    map FLBChunk.chunknum (reread_from (Z.of_nat k) cs)
    = map Z.of_nat (seq k (List.length cs)).
Proof.
  induction cs as [ | c cs IH]; intro k; [reflexivity | ].
  cbn [reread_from map List.length seq FLBChunk.chunknum chunk_reread].
  replace (Z.of_nat k + 1) with (Z.of_nat (S k)) by lia. rewrite IH. reflexivity.
Qed.

Lemma reread_from_consistent (cs : list FLBChunk.t) :
  Forall chunk_consistent cs -> forall k, Forall chunk_consistent (reread_from k cs).
Proof.
  induction 1 as [ | c cs Hc _ IH]; intro k; cbn [reread_from]; constructor;
    [exact Hc | apply IH].
Qed.

(** X18: What [write_firmware] writes can always be extracted again: whatever the
    chunks (a null inside a description, stale lengths), the buffer parses
    without error into as many chunks, numbered from 0, with the same device
    lists, payloads and type codes, and with header lengths and data lengths
    that agree with them. *)
Theorem write_firmware_extract (loaded : list FLBChunk.t) (buf : bytes) :
  write_firmware loaded [] = Ok buf ->
  exists chunks,
    extract_firmware buf = Ok chunks
    /\ map FLBChunk.chunknum chunks = map Z.of_nat (seq 0 (List.length loaded))
    /\ map FLBChunk.pcidevices chunks = map FLBChunk.pcidevices loaded
    /\ map FLBChunk.firmware chunks = map FLBChunk.firmware loaded
    /\ map (fun c => PCIDetails.flb_type (FLBChunk.pcidetails c)) chunks
       = map (fun c => PCIDetails.flb_type (FLBChunk.pcidetails c)) loaded
    /\ Forall chunk_consistent chunks.
Proof.
  unfold write_firmware. intro Hw.
  pose proof (recalculateHeaders_all_consistent loaded) as Hcons.
  set (cs := map FLBChunk.recalculateHeaders loaded) in *.
  apply write_chunks_Ok in Hw as [Hfit Hbuf]. cbn [app] in Hbuf. subst buf.
  exists (reread_from 0 cs).
  split.
  { unfold extract_firmware. pose proof (flat_map_image_length cs) as Hl.
    apply (extract_loop_image cs [] []); [exact Hfit | exact Hcons | lia]. }
  split.
  { change 0 with (Z.of_nat 0). rewrite (reread_from_numbers cs 0).
    unfold cs. rewrite length_map. reflexivity. }
  split.
  { rewrite (reread_from_map FLBChunk.pcidevices
               (fun c => PCIDeviceList.mk (PCIDeviceList.devices (FLBChunk.pcidevices c)))).
    - unfold cs. rewrite map_map. apply map_ext.
      intro c. destruct c as [? ? ? [devs] ?]. reflexivity.
    - reflexivity. }
  split.
  { rewrite (reread_from_map FLBChunk.firmware
               (fun c => FirmwareData.mk (FirmwareData.firmware (FLBChunk.firmware c)))).
    - unfold cs. rewrite map_map. apply map_ext.
      intro c. destruct c as [? ? ? ? [fw]]. reflexivity.
    - reflexivity. }
  split.
  { rewrite (reread_from_map _ (fun c => PCIDetails.flb_type (FLBChunk.pcidetails c)))
      by reflexivity.
    unfold cs. rewrite map_map. reflexivity. }
  apply reread_from_consistent. exact Hcons.
Qed.

Lemma write_firmware_extract_witness :
  exists chunks,
    extract_firmware (chunk_image (FLBChunk.recalculateHeaders null_description_chunk))
    = Ok chunks
    /\ map FLBChunk.chunknum chunks = map Z.of_nat (seq 0 1)
    /\ map FLBChunk.pcidevices chunks = map FLBChunk.pcidevices [null_description_chunk]
    /\ map FLBChunk.firmware chunks = map FLBChunk.firmware [null_description_chunk]
    /\ map (fun c => PCIDetails.flb_type (FLBChunk.pcidetails c)) chunks
       = map (fun c => PCIDetails.flb_type (FLBChunk.pcidetails c)) [null_description_chunk]
    /\ Forall chunk_consistent chunks.
Proof.
  apply (write_firmware_extract [null_description_chunk]).
  vm_compute. reflexivity.
Defined.

(** ** The extraction loop *)

Lemma slice_length_bound {A : Type} (s : list A) (lo hi : Z) :
  0 <= lo <= hi -> len (slice s lo hi) <= hi - lo.
Proof.
  intro H. unfold len. rewrite slice_nonneg by lia. rewrite length_firstn. lia.
Qed.

Lemma removelast_cons {A : Type} (x : A) (l : list A) :
  l <> [] -> removelast (x :: l) = x :: removelast l.
Proof.
  destruct l; [congruence | reflexivity].
Qed.

(** What the loop has added when it returns. *)
Lemma extract_loop_Ok (fuel : nat) :
  forall (inputdata : bytes) (pos : Z) (acc res : list FLBChunk.t),
    0 <= pos ->
    extract_loop fuel inputdata pos acc = Ok res ->
    exists new,
      res = acc ++ new
      /\ (len inputdata <= pos -> new = [])
      /\ (pos < len inputdata -> new <> [])
      /\ (new <> [] -> pos + 139 * (len new - 1) < len inputdata)
      /\ map FLBChunk.chunknum new
         = map Z.of_nat (seq (List.length acc) (List.length new))
      /\ Forall (fun c => len (FirmwareData.firmware (FLBChunk.firmware c))
                          <= FLBHeader.data_length (FLBChunk.header c)) new
      /\ Forall (fun c => len (FirmwareData.firmware (FLBChunk.firmware c))
                          = FLBHeader.data_length (FLBChunk.header c))
                (removelast new).
Proof.
  induction fuel as [ | fuel IH]; intros inputdata pos acc res Hpos H;
    cbn [extract_loop] in H; [discriminate | ].
  destruct (pos <? len inputdata) eqn:E.
  - apply Z.ltb_lt in E. bind_inv H. destruct r as [c n].
    pose proof E0 as Hadv. apply FLBChunk_parse_advances in Hadv.
    apply FLBChunk_parse_lengths in E0
      as (_ & _ & _ & _ & Hdl & _ & _ & _ & Hfw & Hnum & Hn).
    cbv zeta in *.
    set (hl := FLBHeader.header_length (FLBChunk.header c)) in *.
    set (dl := FLBHeader.data_length (FLBChunk.header c)) in *.
    set (rest := slice_from inputdata pos) in *.
    set (a := 139 + len (slice rest 139 hl)) in *.
    assert (Ha : 0 <= a) by (unfold a, len; lia).
    assert (Hrest : len rest = len inputdata - pos)
      by (apply slice_from_length; lia).
    apply IH in H as (new & -> & Hend & _ & Hcount & Hnums & Hle & Hfull); [ | lia].
    exists (c :: new). rewrite <- app_assoc. cbn [app].
    split; [reflexivity | ].
    split; [lia | ].
    split; [discriminate | ].
    split.
    { intros _. destruct new as [ | c' new]; [cbn; lia | ].
      specialize (Hcount ltac:(discriminate)).
      unfold len in *. cbn [List.length] in *. lia. }
    split.
    { cbn [map List.length seq]. rewrite Hnum. unfold len. f_equal.
      rewrite Hnums, length_app. cbn [List.length].
      rewrite Nat.add_1_r. reflexivity. }
    split.
    { constructor; [ | exact Hle]. rewrite Hfw. cbn [FirmwareData.firmware]. fold dl.
      pose proof (slice_length_bound rest a (a + dl) ltac:(lia)). lia. }
    destruct new as [ | c' new]; [constructor | ].
    rewrite removelast_cons by discriminate.
    constructor; [ | exact Hfull].
    rewrite Hfw. cbn [FirmwareData.firmware]. fold dl.
    assert (Hin : pos + n < len inputdata).
    { destruct (Z_lt_ge_dec (pos + n) (len inputdata)) as [Hlt | Hge]; [exact Hlt | ].
      specialize (Hend ltac:(lia)). discriminate. }
    unfold len. rewrite slice_length by (unfold len in *; lia). lia.
  - apply Z.ltb_ge in E. injection H as <-. exists [].
    rewrite app_nil_r. split; [reflexivity | ].
    split; [reflexivity | ]. split; [lia | ]. split; [congruence | ].
    repeat split; constructor.
Qed.

(** X19: [extract_firmware] numbers the chunks it returns 0, 1, 2, ... in the
    order of the buffer. *)
Theorem extract_firmware_numbers (inputdata : bytes) (chunks : list FLBChunk.t) :
  extract_firmware inputdata = Ok chunks ->
  map FLBChunk.chunknum chunks = map Z.of_nat (seq 0 (List.length chunks)).
Proof.
  unfold extract_firmware. intro H.
  apply extract_loop_Ok in H as (new & -> & _ & _ & _ & Hnums & _); [ | lia].
  exact Hnums.
Qed.

Lemma extract_firmware_numbers_witness :
  map FLBChunk.chunknum (reread_from 0 (map FLBChunk.recalculateHeaders sample_chunks))
  = map Z.of_nat
      (seq 0 (List.length (reread_from 0 (map FLBChunk.recalculateHeaders sample_chunks)))).
Proof.
  apply (extract_firmware_numbers sample_container).
  vm_compute. reflexivity.
Defined.

(** X20: [extract_firmware] returns no chunk only for the empty buffer, and every
    chunk it returns began within the buffer, 139 bytes at least after the
    one before: a buffer of [n] bytes gives fewer than [n / 139 + 1]
    chunks. *)
Theorem extract_firmware_count (inputdata : bytes) (chunks : list FLBChunk.t) :
  extract_firmware inputdata = Ok chunks ->
  (chunks = [] <-> inputdata = [])
  /\ 139 * len chunks < len inputdata + 139.
Proof.
  unfold extract_firmware. intro H.
  apply extract_loop_Ok in H as (new & -> & Hend & Hsome & Hcount & _); [ | lia].
  cbn [app]. split; [split | ].
  - intros ->. destruct inputdata as [ | b rest]; [reflexivity | ].
    exfalso. apply Hsome; [unfold len; cbn [List.length]; lia | reflexivity].
  - intros ->. apply Hend. cbn. lia.
  - destruct new as [ | c new]; [unfold len; cbn [List.length]; lia | ].
    specialize (Hcount ltac:(discriminate)). lia.
Qed.

Lemma extract_firmware_count_witness :
  ([short_payload_chunk] = [] <-> short_payload_buffer = [])
  /\ 139 * len [short_payload_chunk] < len short_payload_buffer + 139.
Proof.
  apply (extract_firmware_count short_payload_buffer [short_payload_chunk]).
  reflexivity.
Defined.

(** X21: In what [extract_firmware] returns, no payload is longer than its
    header's data length, and only the last chunk's payload can be shorter:
    every chunk before the last holds exactly the declared number of
    bytes. *)
Theorem extract_firmware_payloads (inputdata : bytes) (chunks : list FLBChunk.t) :
  extract_firmware inputdata = Ok chunks ->
  Forall (fun c => len (FirmwareData.firmware (FLBChunk.firmware c))
                   <= FLBHeader.data_length (FLBChunk.header c)) chunks
  /\ Forall (fun c => len (FirmwareData.firmware (FLBChunk.firmware c))
                      = FLBHeader.data_length (FLBChunk.header c))
            (removelast chunks).
Proof.
  unfold extract_firmware. intro H.
  apply extract_loop_Ok in H as (new & -> & _ & _ & _ & _ & Hle & Hfull); [ | lia].
  split; assumption.
Qed.

Lemma extract_firmware_payloads_witness :
  Forall (fun c => len (FirmwareData.firmware (FLBChunk.firmware c))
                   <= FLBHeader.data_length (FLBChunk.header c))
         whole_then_short_chunks
  /\ Forall (fun c => len (FirmwareData.firmware (FLBChunk.firmware c))
                      = FLBHeader.data_length (FLBChunk.header c))
            [unknown_type_chunk].
Proof.
  apply (extract_firmware_payloads whole_then_short_buffer whole_then_short_chunks).
  vm_compute. reflexivity.
Defined.

Lemma FLBChunk_parse_raises (num : Z) (inputdata : bytes) (e : exn) :
  FLBChunk.parse num inputdata = Raise e -> e = StructError.
Proof.
  intro H.
  destruct (Nat.lt_ge_cases (List.length inputdata) 139) as [Hs | Hl].
  - rewrite FLBChunk_parse_short in H by exact Hs. congruence.
  - destruct (Nat.eq_dec
                (List.length (slice inputdata 139 (le_value (field inputdata 4 4))) mod 12)
                0) as [Hz | Hnz].
    + destruct (proj1 (FLBChunk_parse_outcome_aux num inputdata) Hl Hz) as (c & Hp & _).
      rewrite Hp in H. discriminate.
    + rewrite (proj2 (FLBChunk_parse_outcome_aux num inputdata) (or_intror Hnz)) in H.
      congruence.
Qed.

Lemma extract_loop_raises (fuel : nat) :
  forall (inputdata : bytes) (pos : Z) (acc : list FLBChunk.t) (e : exn),
    extract_loop fuel inputdata pos acc = Raise e -> e = StructError.
Proof.
  induction fuel as [ | fuel IH]; intros inputdata pos acc e H;
    cbn [extract_loop] in H; [discriminate | ].
  destruct (pos <? len inputdata); [ | discriminate].
  destruct (FLBChunk.parse _ _) as [[c n] | e' | ] eqn:Ep; cbn [bind] in H.
  - apply IH in H. exact H.
  - apply FLBChunk_parse_raises in Ep. congruence.
  - discriminate.
Qed.

(** X22: [extract_firmware] always comes to an end, each chunk moving the
    position by 139 bytes or more, and it ends in one of two ways: with the
    list of chunks, or with struct.error; no text is decoded or encoded on
    this path, so no encoding error can come from it. *)
Theorem extract_firmware_returns (inputdata : bytes) :
  (exists chunks, extract_firmware inputdata = Ok chunks)
  \/ extract_firmware inputdata = Raise StructError.
Proof.
  pose proof (extract_firmware_total inputdata) as Ht.
  destruct (extract_firmware inputdata) as [chunks | e | ] eqn:E.
  - left. exists chunks. reflexivity.
  - right. unfold extract_firmware in E. apply extract_loop_raises in E. congruence.
  - exfalso. apply Ht. reflexivity.
Qed.

(** ** The names of the files *)

Lemma str_app_nil_r (s : string) : String.append s EmptyString = s.
Proof.
  induction s as [ | c s IH]; [reflexivity | cbn; rewrite IH; reflexivity].
Qed.

Lemma str_app_assoc (a b c : string) :
  String.append (String.append a b) c = String.append a (String.append b c).
Proof.
  induction a as [ | x a IH]; [reflexivity | cbn; rewrite IH; reflexivity].
Qed.

Lemma str_app_length (a b : string) :
  String.length (String.append a b) = (String.length a + String.length b)%nat.
Proof.
  induction a as [ | x a IH]; [reflexivity | cbn; rewrite IH; reflexivity].
Qed.

Lemma all_chars_append (p : ascii -> bool) (a b : string) :
  all_chars p (String.append a b) = all_chars p a && all_chars p b.
Proof.
  induction a as [ | x a IH]; [reflexivity | ].
  cbn. rewrite IH. apply andb_assoc.
Qed.

Lemma all_chars_weaken (p q : ascii -> bool) (s : string) :
  (forall c, p c = true -> q c = true) ->
  all_chars p s = true -> all_chars q s = true.
Proof.
  intro H. induction s as [ | c s IH]; [reflexivity | ].
  cbn. rewrite !andb_true_iff. intros [Hc Hs]. split; [apply H; exact Hc | apply IH; exact Hs].
Qed.

Lemma zeros_length (k : nat) : String.length (zeros k) = k.
Proof.
  induction k as [ | k IH]; [reflexivity | cbn; rewrite IH; reflexivity].
Qed.

Lemma all_chars_zeros (k : nat) : all_chars is_digit (zeros k) = true.
Proof.
  induction k as [ | k IH]; [reflexivity | exact IH].
Qed.

Lemma all_chars_decimal (n : N) : all_chars is_digit (decimal n) = true.
Proof.
  unfold decimal. induction (N.to_uint n) as [ | u IH | u IH | u IH | u IH | u IH
                                              | u IH | u IH | u IH | u IH | u IH];
    [reflexivity | exact IH ..].
Qed.

Lemma digit_properties (c : ascii) :
  is_digit c = true ->
  is_space c = false
  /\ Ascii.eqb "." c = false /\ Ascii.eqb "c" c = false /\ Ascii.eqb c "/" = false
  /\ forall r, py_int_sign_free c r.
Proof.
  destruct c as [[] [] [] [] [] [] [] []]; intro H;
    first [discriminate H | repeat split].
Qed.

Lemma rstrip_no_space (s : string) :
  all_chars (fun c => negb (is_space c)) s = true -> rstrip s = s.
Proof.
  induction s as [ | c s IH]; [reflexivity | ].
  cbn [all_chars rstrip]. rewrite andb_true_iff, negb_true_iff. intros [Hc Hs].
  rewrite IH by exact Hs. rewrite Hc. destruct s; reflexivity.
Qed.

Lemma py_int_digits (c : ascii) (r : string) :
  is_digit c = true -> all_chars is_digit r = true ->
  py_int (String c r) = digits_value (String c r).
Proof.
  intros Hc Hr. unfold py_int.
  destruct (digit_properties c Hc) as (Hsp & _ & _ & _ & Hsign).
  cbn [lstrip]. rewrite Hsp.
  rewrite rstrip_no_space.
  - apply Hsign.
  - cbn [all_chars]. rewrite Hsp. cbn [negb andb].
    apply (all_chars_weaken is_digit); [ | exact Hr].
    intros x Hx. apply negb_true_iff. apply (digit_properties x Hx).
Qed.

Lemma uint_of_zeros (k : nat) (s : string) :
  DecimalString.NilEmpty.uint_of_string (String.append (zeros k) s)
  = option_map (Nat.iter k Decimal.D0) (DecimalString.NilEmpty.uint_of_string s).
Proof.
  induction k as [ | k IH];
    [cbn [zeros String.append Nat.iter];
     destruct (DecimalString.NilEmpty.uint_of_string s); reflexivity | ].
  cbn [zeros String.append DecimalString.NilEmpty.uint_of_string Nat.iter].
  rewrite IH. destruct (DecimalString.NilEmpty.uint_of_string s); reflexivity.
Qed.

Lemma of_uint_zeros (k : nat) (u : Decimal.uint) :
  N.of_uint (Nat.iter k Decimal.D0 u) = N.of_uint u.
Proof.
  induction k as [ | k IH]; [reflexivity | exact IH].
Qed.

(** The digits ['%03i'] prints for a number that is not negative: at least
    three, and [int] reads the number back from them. *)
Lemma format_03i_digits (n : Z) :
  0 <= n ->
  exists c r,
    format_03i n = String c r
    /\ is_digit c = true /\ all_chars is_digit r = true
    /\ digits_value (String c r) = Some n.
Proof.
  intro Hn. unfold format_03i.
  assert (E : (n <? 0) = false) by (apply Z.ltb_ge; exact Hn). rewrite E. cbv zeta.
  set (d := decimal (Z.to_N n)). set (k := (3 - String.length d)%nat).
  assert (Hall : all_chars is_digit (String.append (zeros k) d) = true)
    by (rewrite all_chars_append, all_chars_zeros; apply all_chars_decimal).
  assert (Hval : DecimalString.NilEmpty.uint_of_string (String.append (zeros k) d)
                 = Some (Nat.iter k Decimal.D0 (N.to_uint (Z.to_N n)))).
  { rewrite uint_of_zeros. unfold d, decimal.
    rewrite DecimalString.NilEmpty.usu. reflexivity. }
  assert (Hlen : (3 <= String.length (String.append (zeros k) d))%nat)
    by (rewrite str_app_length, zeros_length; unfold k; lia).
  destruct (String.append (zeros k) d) as [ | c r]; [cbn in Hlen; lia | ].
  exists c, r. cbn [all_chars] in Hall. apply andb_true_iff in Hall as [Hc Hr].
  split; [reflexivity | ]. split; [exact Hc | ]. split; [exact Hr | ].
  unfold digits_value. rewrite Hval. cbn [option_map].
  rewrite of_uint_zeros, DecimalN.Unsigned.of_to. f_equal. lia.
Qed.

Lemma basename_from_plain (s : string) :
  forall acc : string,
    all_chars (fun c => negb (Ascii.eqb c "/")) s = true ->
    basename_from s acc = String.append acc s.
Proof.
  induction s as [ | c s IH]; intros acc H; cbn [basename_from].
  - symmetry. apply str_app_nil_r.
  - cbn [all_chars] in H. apply andb_true_iff in H as [Hc Hs].
    apply negb_true_iff in Hc. rewrite Hc, IH by exact Hs.
    rewrite str_app_assoc. reflexivity.
Qed.

Lemma basename_from_slash (a t : string) :
  forall acc : string,
    basename_from (String.append a (String "/" t)) acc = basename_from t EmptyString.
Proof.
  induction a as [ | c a IH]; intro acc; cbn [String.append basename_from].
  - reflexivity.
  - destruct (Ascii.eqb c "/"); apply IH.
Qed.

Lemma ends_with_slash_split (a : string) :
  ends_with_slash a = true -> exists a', a = String.append a' (String "/" EmptyString).
Proof.
  induction a as [ | c a IH]; [discriminate | ].
  destruct a as [ | c' a].
  - cbn. intro H. apply Ascii.eqb_eq in H. subst c. exists EmptyString. reflexivity.
  - intro H. change (ends_with_slash (String c' a) = true) in H.
    destruct (IH H) as [a' Ha']. exists (String c a'). cbn [String.append].
    rewrite <- Ha'. reflexivity.
Qed.

(** The name of a file is found again behind the directory it was joined
    to. *)
Lemma basename_join (dir name : string) :
  all_chars (fun c => negb (Ascii.eqb c "/")) name = true ->
  basename (path_join dir name) = name.
Proof.
  intro H. unfold basename, path_join.
  assert (Hs : starts_with "/" name = false).
  { destruct name as [ | c r]; [reflexivity | ].
    cbn [all_chars] in H. apply andb_true_iff in H as [Hc _].
    apply negb_true_iff in Hc. cbn [starts_with].
    rewrite Ascii.eqb_sym, Hc. reflexivity. }
  rewrite Hs. destruct (String.eqb dir "") eqn:Ed.
  - apply String.eqb_eq in Ed. subst dir. cbn [orb String.append].
    apply basename_from_plain. exact H.
  - cbn [orb]. destruct (ends_with_slash dir) eqn:Es.
    + apply ends_with_slash_split in Es as [a' ->].
      rewrite str_app_assoc. cbn [String.append].
      rewrite basename_from_slash. apply basename_from_plain. exact H.
    + rewrite basename_from_slash. apply basename_from_plain. exact H.
Qed.

(** Characters other than the first of [old] pass [replace] unchanged. *)
Lemma replace_from_pass (a : ascii) (old' new s t : string) :
  all_chars (fun c => negb (Ascii.eqb a c)) s = true ->
  replace_from (String a old') new 0 (String.append s t)
  = String.append s (replace_from (String a old') new 0 t).
Proof.
  induction s as [ | c s IH]; intro H; [reflexivity | ].
  cbn [all_chars] in H. apply andb_true_iff in H as [Hc Hs].
  apply negb_true_iff in Hc.
  cbn [String.append replace_from starts_with]. rewrite Hc. cbn [andb].
  rewrite IH by exact Hs. reflexivity.
Qed.

Lemma format_03i_chars (n : Z) (p : ascii -> bool) :
  0 <= n -> (forall c, is_digit c = true -> p c = true) ->
  all_chars p (format_03i n) = true.
Proof.
  intros Hn Hp. destruct (format_03i_digits n Hn) as (c & r & -> & Hc & Hr & _).
  cbn [all_chars]. rewrite (Hp c Hc). cbn [andb].
  apply (all_chars_weaken is_digit); assumption.
Qed.

Lemma chunk_bin_name_plain (n : Z) :
  0 <= n -> all_chars (fun c => negb (Ascii.eqb c "/")) (chunk_bin_name n) = true.
Proof.
  intro Hn. unfold chunk_bin_name. rewrite !all_chars_append.
  rewrite (format_03i_chars n) by
    (first [exact Hn | intros c Hc; apply negb_true_iff; apply (digit_properties c Hc)]).
  reflexivity.
Qed.

(** What is left of a payload file's name once ['.bin'] and ['chunk_'] are
    replaced by nothing: the digits. *)
Lemma chunk_bin_name_stripped (n : Z) :
  0 <= n ->
  str_replace "chunk_" "" (str_replace ".bin" "" (chunk_bin_name n)) = format_03i n.
Proof.
  intro Hn. unfold chunk_bin_name, str_replace.
  rewrite <- str_app_assoc.
  rewrite replace_from_pass.
  2:{ rewrite all_chars_append. cbn [all_chars String.append Ascii.eqb Bool.eqb negb andb].
      apply format_03i_chars; [exact Hn | ].
      intros c Hc. apply negb_true_iff. apply (digit_properties c Hc). }
  change (replace_from ".bin" "" 0 ".bin") with EmptyString.
  rewrite str_app_nil_r.
  change (replace_from "chunk_" "" 0 (String.append "chunk_" (format_03i n)))
    with (replace_from "chunk_" "" 0 (format_03i n)).
  rewrite <- (str_app_nil_r (format_03i n)) at 1.
  rewrite replace_from_pass.
  - cbn [replace_from]. apply str_app_nil_r.
  - apply format_03i_chars; [exact Hn | ].
    intros c Hc. apply negb_true_iff. apply (digit_properties c Hc).
Qed.

(** X23: The chunk number [write_firmware] reads from the name of a payload file
    is the number [extractToDisk] put into it, whatever the directory. *)
Theorem chunknum_of_file_name (dir : string) (chunknum : Z) :
  0 <= chunknum ->
  chunknum_of_file (path_join dir (chunk_bin_name chunknum)) = Some chunknum.
Proof.
  intro Hn. unfold chunknum_of_file.
  rewrite basename_join by (apply chunk_bin_name_plain; exact Hn).
  rewrite chunk_bin_name_stripped by exact Hn.
  destruct (format_03i_digits chunknum Hn) as (c & r & -> & Hc & Hr & Hv).
  rewrite py_int_digits by assumption. exact Hv.
Qed.

Lemma chunknum_of_file_name_witness :
  chunknum_of_file (path_join "out/fw" (chunk_bin_name 1234)) = Some 1234.
Proof.
  apply (chunknum_of_file_name "out/fw" 1234). lia.
Defined.

Lemma starts_with_bin_split (r : string) (x : ascii) (t : string) :
  Ascii.eqb "b" x = false -> Ascii.eqb "i" x = false -> Ascii.eqb "n" x = false ->
  starts_with "bin" (String.append r (String x t)) = true ->
  exists r', r = String.append "bin" r'.
Proof.
  intros Hb Hi Hn H.
  destruct r as [ | r1 [ | r2 [ | r3 r']]]; cbn [String.append starts_with] in H.
  - rewrite Hb in H. discriminate.
  - rewrite Hi, andb_false_r in H. discriminate.
  - rewrite Hn, !andb_false_r in H. discriminate.
  - rewrite !andb_true_iff, !Ascii.eqb_eq in H. destruct H as (<- & <- & <- & _).
    exists r'. reflexivity.
Qed.

(** A path in which ['.bin'] does not occur passes [replace] unchanged, up
    to the name that follows it. *)
Lemma replace_bin_prefix (new : string) (x : ascii) (t : string) :
  Ascii.eqb "b" x = false -> Ascii.eqb "i" x = false -> Ascii.eqb "n" x = false ->
  forall P : string,
    (forall a b, P <> String.append a (String.append ".bin" b)) ->
    replace_from ".bin" new 0 (String.append P (String x t))
    = String.append P (replace_from ".bin" new 0 (String x t)).
Proof.
  intros Hb Hi Hn. induction P as [ | c P IH]; intro Hocc; [reflexivity | ].
  cbn [String.append]. cbn [replace_from].
  assert (E : starts_with ".bin" (String c (String.append P (String x t))) = false).
  { apply not_true_is_false. intro H. cbn [starts_with] in H.
    apply andb_true_iff in H as [Hc H]. apply Ascii.eqb_eq in Hc. subst c.
    destruct (starts_with_bin_split P x t Hb Hi Hn H) as [r' ->].
    apply (Hocc EmptyString r'). reflexivity. }
  rewrite E. rewrite IH; [reflexivity | ].
  intros a b ->. apply (Hocc (String c a) b). reflexivity.
Qed.

Lemma replace_bin_name (n : Z) :
  0 <= n -> replace_from ".bin" ".json" 0 (chunk_bin_name n) = chunk_json_name n.
Proof.
  intro Hn. unfold chunk_bin_name, chunk_json_name.
  rewrite <- !str_app_assoc. rewrite replace_from_pass; [reflexivity | ].
  rewrite all_chars_append. cbn [all_chars String.append Ascii.eqb Bool.eqb negb andb].
  apply format_03i_chars; [exact Hn | ].
  intros c Hc. apply negb_true_iff. apply (digit_properties c Hc).
Qed.

(** X24: The path [write_firmware] derives for the metadata of a payload file is
    the path [extractToDisk] wrote the metadata to, provided ['.bin'] does
    not occur in the directory's path: [replace] would change it there
    too. *)
Theorem metadata_file_name (dir : string) (chunknum : Z) :
  0 <= chunknum ->
  (forall a b, dir <> String.append a (String.append ".bin" b)) ->
  metadata_file (path_join dir (chunk_bin_name chunknum))
  = path_join dir (chunk_json_name chunknum).
Proof.
  intros Hn Hocc. unfold metadata_file, str_replace, path_join.
  change (starts_with "/" (chunk_bin_name chunknum)) with false.
  change (starts_with "/" (chunk_json_name chunknum)) with false.
  pose proof (replace_bin_name chunknum Hn) as Hname.
  destruct (String.eqb dir "" || ends_with_slash dir).
  - change (chunk_bin_name chunknum)
      with (String "c" (String.append "hunk_" (String.append (format_03i chunknum) ".bin")))
      in *.
    rewrite replace_bin_prefix by (first [reflexivity | exact Hocc]).
    rewrite Hname. reflexivity.
  - rewrite replace_bin_prefix by (first [reflexivity | exact Hocc]).
    cbn [replace_from starts_with Ascii.eqb Bool.eqb andb]. rewrite Hname. reflexivity.
Qed.

Lemma metadata_file_name_witness :
  metadata_file (path_join "./out" (chunk_bin_name 12))
  = path_join "./out" (chunk_json_name 12).
Proof.
  apply (metadata_file_name "./out" 12); [lia | ].
  intros a b H.
  destruct a as [ | a1 [ | a2 [ | a3 a]]]; cbn in H; try discriminate H.
  destruct a as [ | a4 [ | a5 [ | a6 a]]]; cbn in H; discriminate H.
Defined.

(** In a directory named after the image, with ['.bin'] in its path, the
    metadata is looked for in another directory. *)
Example metadata_file_wrong_directory :
  metadata_file (path_join "fw.bin.d" (chunk_bin_name 0)) = "fw.json.d/chunk_000.json"%string
  /\ path_join "fw.bin.d" (chunk_json_name 0) = "fw.bin.d/chunk_000.json"%string.
Proof. split; reflexivity. Qed.

Lemma ascii_compare_refl (c : ascii) : Ascii.compare c c = Eq.
Proof.
  unfold Ascii.compare. apply N.compare_refl.
Qed.

Lemma str_ltb_common_prefix (p a b : string) :
  String.ltb (String.append p a) (String.append p b) = String.ltb a b.
Proof.
  unfold String.ltb. induction p as [ | c p IH]; [reflexivity | ].
  cbn [String.append String.compare]. rewrite ascii_compare_refl. exact IH.
Qed.

Lemma strictly_sorted_nth (names : list string) :
  strictly_sorted names = true ->
  forall i j : nat,
    (i < j < List.length names)%nat ->
    String.ltb (nth i names EmptyString) (nth j names EmptyString) = true.
Proof.
  induction names as [ | x names IH]; intros H i j Hij; [cbn in Hij; lia | ].
  cbn [strictly_sorted] in H. apply andb_true_iff in H as [Hx Hs].
  cbn [List.length] in Hij.
  destruct j as [ | j]; [lia | ]. destruct i as [ | i]; cbn [nth].
  - rewrite forallb_forall in Hx. apply Hx. apply nth_In. lia.
  - apply IH; [exact Hs | lia].
Qed.

Lemma first_thousand_sorted : strictly_sorted first_thousand_names = true.
Proof. vm_compute. reflexivity. Qed.

Lemma first_thousand_nth (n : nat) :
  (n < 1000)%nat ->
  nth n first_thousand_names EmptyString = chunk_bin_name (Z.of_nat n).
Proof.
  intro H. unfold first_thousand_names.
  rewrite (nth_indep _ EmptyString (chunk_bin_name (Z.of_nat 0)))
    by (rewrite length_map, length_seq; exact H).
  rewrite (map_nth (fun n => chunk_bin_name (Z.of_nat n))).
  rewrite seq_nth by exact H. reflexivity.
Qed.

(** X25: The order in which [write_firmware] takes the payload files, the sorted
    order of their paths, is the order of the chunk numbers as long as these
    are below 1000: of two such chunks of one directory the one with the
    smaller number comes first.  The name of chunk 1000 sorts before that of
    chunk 101. *)
Theorem chunk_files_sort_order (dir : string) (n m : Z) :
  0 <= n < m -> m < 1000 ->
  String.ltb (path_join dir (chunk_bin_name n)) (path_join dir (chunk_bin_name m)) = true
  /\ String.ltb (path_join dir (chunk_bin_name 1000))
                (path_join dir (chunk_bin_name 101)) = true.
Proof.
  intros Hnm Hm.
  assert (Hjoin : forall a b,
             String.ltb (path_join dir (chunk_bin_name a)) (path_join dir (chunk_bin_name b))
             = String.ltb (chunk_bin_name a) (chunk_bin_name b)).
  { intros a b. unfold path_join.
    change (starts_with "/" (chunk_bin_name a)) with false.
    change (starts_with "/" (chunk_bin_name b)) with false.
    destruct (String.eqb dir "" || ends_with_slash dir).
    - apply str_ltb_common_prefix.
    - rewrite (str_ltb_common_prefix dir). unfold String.ltb.
      cbn [String.compare]. rewrite ascii_compare_refl. reflexivity. }
  rewrite !Hjoin. split; [ | vm_compute; reflexivity].
  pose proof (strictly_sorted_nth first_thousand_names first_thousand_sorted
                (Z.to_nat n) (Z.to_nat m)) as H.
  rewrite !first_thousand_nth, !Z2Nat.id in H by lia.
  apply H. unfold first_thousand_names. rewrite length_map, length_seq. lia.
Qed.

Lemma chunk_files_sort_order_witness :
  String.ltb (path_join "out" (chunk_bin_name 9)) (path_join "out" (chunk_bin_name 10)) = true
  /\ String.ltb (path_join "out" (chunk_bin_name 1000))
                (path_join "out" (chunk_bin_name 101)) = true.
Proof.
  apply (chunk_files_sort_order "out" 9 10); lia.
Defined.

(** ** The type code through an extraction and a rebuild *)

Lemma forallb_filter_keep {A : Type} (p q : A -> bool) (l : list A) :
  forallb p l = true -> forallb p (filter q l) = true.
Proof.
  induction l as [ | x l IH]; [reflexivity | ].
  cbn [forallb filter]. rewrite andb_true_iff. intros [Hx Hl].
  destruct (q x); [cbn [forallb]; rewrite Hx | ]; auto.
Qed.

Lemma recalculated_header_fit (c : FLBChunk.t) :
  header_numbers_fit (FLBChunk.header c) ->
  139 + 12 * len (PCIDeviceList.devices (FLBChunk.pcidevices c)) < 2 ^ 32 ->
  len (FirmwareData.firmware (FLBChunk.firmware c)) < 2 ^ 32 ->
  header_numbers_fit (FLBChunk.header (FLBChunk.recalculateHeaders c)).
Proof.
  intros (_ & H2 & _ & H4 & H5 & H6 & H7) Hhl Hdl.
  unfold header_numbers_fit, FLBChunk.recalculateHeaders.
  cbn [FLBChunk.header FLBHeader.header_length FLBHeader.unknown1 FLBHeader.data_length
       FLBHeader.delimiter FLBHeader.version1 FLBHeader.version2 FLBHeader.version3].
  unfold FLBHeader.HEADERSIZE, PCIDetails.HEADERSIZE, PCIDeviceList.DEVICESIZE, len in *.
  repeat split; first [assumption | lia].
Qed.

(** A chunk read from a buffer whose magic, description field and opaque
    bytes are ASCII can be packed once its lengths are recalculated. *)
Lemma parsed_chunk_fit (num : Z) (inputdata : bytes) (c : FLBChunk.t) (n : Z) :
  FLBChunk.parse num inputdata = Ok (c, n) ->
  forallb is_ascii (text_of_bytes (field inputdata 0 4)) = true ->
  forallb is_ascii (text_of_bytes (field inputdata 15 80)) = true ->
  forallb is_ascii (text_of_bytes (field inputdata 102 37)) = true ->
  chunk_fit (FLBChunk.recalculateHeaders c).
Proof.
  intros Hp Hm Hd Hu.
  apply FLBChunk_parse_lengths in Hp
    as (Hlen & Hhl & Hdl & Hhl0 & Hdl0 & Hhdr & Hdet & Hdevs & Hfw & _ & _).
  cbv zeta in *.
  set (hl := FLBHeader.header_length (FLBChunk.header c)) in *.
  set (dl := FLBHeader.data_length (FLBChunk.header c)) in *.
  set (region := slice inputdata 139 hl) in *.
  assert (H98 : List.length (slice inputdata 0 98) = 98%nat)
    by (rewrite slice_length; unfold len; lia).
  assert (H41 : List.length (slice inputdata 98 139) = 41%nat)
    by (rewrite slice_length; unfold len; lia).
  pose proof (le_value_range (field inputdata 4 4)) as Rhl.
  pose proof (le_value_range (field inputdata 9 4)) as Rdl.
  rewrite field_width in Rhl, Rdl by lia. widths. rewrite <- Hhl in Rhl. rewrite <- Hdl in Rdl.
  pose proof Hdevs as Hcount. apply PCIDeviceList_write_parse_aux in Hcount as [Hcount _].
  pose proof Hdevs as Hlist. apply PCIDeviceList_parse_Ok in Hlist as (Hmod & _ & Hlist).
  assert (Hregion : len region <= Z.max 0 (hl - 139)).
  { unfold region, len. rewrite slice_nonneg by lia. rewrite length_firstn. lia. }
  unfold chunk_fit.
  change (FLBHeader.magic (FLBChunk.header (FLBChunk.recalculateHeaders c)))
    with (FLBHeader.magic (FLBChunk.header c)).
  change (FLBHeader.description (FLBChunk.header (FLBChunk.recalculateHeaders c)))
    with (FLBHeader.description (FLBChunk.header c)).
  change (FLBChunk.pcidetails (FLBChunk.recalculateHeaders c)) with (FLBChunk.pcidetails c).
  change (FLBChunk.pcidevices (FLBChunk.recalculateHeaders c)) with (FLBChunk.pcidevices c).
  split; [ | split; [ | split; [ | split]]].
  - rewrite Hhdr. cbn [decoded_header FLBHeader.magic].
    rewrite field_slice by (cbn; lia). exact Hm.
  - rewrite Hhdr. cbn [decoded_header FLBHeader.description].
    rewrite field_slice by (cbn; lia). apply forallb_filter_keep. exact Hd.
  - apply recalculated_header_fit.
    + rewrite Hhdr. apply decoded_header_fit. exact H98.
    + unfold len in *. lia.
    + rewrite Hfw. cbn [FirmwareData.firmware].
      pose proof (slice_length_bound inputdata (139 + len region) (139 + len region + dl)
                    ltac:(unfold len; lia)).
      lia.
  - rewrite Hdet. apply decoded_details_fit; [exact H41 | ].
    cbn [decoded_details PCIDetails.unknown].
    rewrite field_slice by (cbn; lia). exact Hu.
  - rewrite Hlist.
    pose proof (Nat.div_mod_eq (List.length region) 12) as Hdiv.
    apply (entries_image region (List.length region / 12) 0). lia.
Qed.

(** C9: every 32-bit type code [v], in the table of known types or not, is
    parsed by [PCIDetails.parse] into a record holding [v]; writing that
    record emits the four bytes of [v] and the 37 opaque bytes as read (the
    write fails only when an opaque byte is not ASCII, whatever [v] is).
    Through a whole extraction and rebuild of a chunk: from any buffer that
    holds [v] at offset 98, has its 139 fixed bytes and a device region of
    whole entries, and whose magic, description field and opaque bytes are
    ASCII, [FLBChunk.parse] returns a chunk, its type code is [v],
    [write_firmware] rebuilds it without error, and the rebuilt bytes carry
    [v] at offset 98. *)
Theorem flb_type_preserved (v : Z) :
  0 <= v < 2 ^ 32 ->
  (forall (u rest out : bytes),
     List.length u = 37%nat ->
     PCIDetails.parse (le_bytes 4 v ++ u ++ rest)
     = Ok (PCIDetails.mk v (text_of_bytes u), 41)
     /\ PCIDetails.writeToFLB (PCIDetails.mk v (text_of_bytes u)) out
        = (_ <- encode_ascii (text_of_bytes u) ;; Ok (out ++ le_bytes 4 v ++ u)))
  /\ (forall (num : Z) (inputdata out : bytes),
        (139 <= List.length inputdata)%nat ->
        (List.length (slice inputdata 139 (le_value (field inputdata 4 4))) mod 12
         = 0)%nat ->
        le_value (field inputdata 98 4) = v ->
        forallb is_ascii (text_of_bytes (field inputdata 0 4)) = true ->
        forallb is_ascii (text_of_bytes (field inputdata 15 80)) = true ->
        forallb is_ascii (text_of_bytes (field inputdata 102 37)) = true ->
        exists c n rebuilt,
          FLBChunk.parse num inputdata = Ok (c, n)
          /\ PCIDetails.flb_type (FLBChunk.pcidetails c) = v
          /\ write_firmware [c] out = Ok (out ++ rebuilt)
          /\ field rebuilt 98 4 = le_bytes 4 v).
Proof.
  intro Hv. split.
  - intros u rest out Hu. split.
    + apply PCIDetails_parse_pieces; assumption.
    + apply PCIDetails_write_parsed; assumption.
  - intros num inputdata out Hlen Hmod Hfield Hm Hd Hu.
    destruct (proj1 (FLBChunk_parse_outcome_aux num inputdata) Hlen Hmod)
      as (c & Hp & _).
    pose proof (parsed_chunk_fit num inputdata c _ Hp Hm Hd Hu) as Hfit.
    assert (Hty : PCIDetails.flb_type (FLBChunk.pcidetails c) = v).
    { pose proof Hp as Hl.
      apply FLBChunk_parse_lengths in Hl as (_ & _ & _ & _ & _ & _ & Hdet & _).
      rewrite Hdet, decoded_details_type. exact Hfield. }
    exists c. eexists. exists (chunk_image (FLBChunk.recalculateHeaders c)).
    split; [exact Hp | ]. split; [exact Hty | ]. split.
    + unfold write_firmware. cbn [map write_chunks].
      rewrite FLBChunk_write_fit by exact Hfit. reflexivity.
    + rewrite chunk_image_type. rewrite <- Hty. reflexivity.
Qed.

Lemma flb_type_preserved_witness :
  PCIDetails.lookup PCIDetails.FLB_TYPES 0xDEADBEEF = None
  /\ PCIDetails.parse (le_bytes 4 0xDEADBEEF ++ repeat x00 37 ++ [])
     = Ok (PCIDetails.mk 0xDEADBEEF (text_of_bytes (repeat x00 37)), 41)
  /\ exists c n rebuilt,
       FLBChunk.parse 0 unknown_type_buffer = Ok (c, n)
       /\ PCIDetails.flb_type (FLBChunk.pcidetails c) = 0xDEADBEEF
       /\ write_firmware [c] [xff] = Ok ([xff] ++ rebuilt)
       /\ field rebuilt 98 4 = le_bytes 4 0xDEADBEEF.
Proof.
  destruct (flb_type_preserved 0xDEADBEEF ltac:(lia)) as [Hrecord Hchunk].
  split; [reflexivity | ].
  split; [apply (Hrecord (repeat x00 37) [] []); reflexivity | ].
  apply (Hchunk 0 unknown_type_buffer [xff]).
  - vm_compute. lia.
  - reflexivity.
  - reflexivity.
  - reflexivity.
  - reflexivity.
  - reflexivity.
Defined.
